(** * CertTrackr: expiry extraction and classification

    A shallow embedding of the date extractor ([DateExtractor], server
    service), the schema date coercion ([toDate], shared/schema.ts), the
    storage enrichment ([PostgreSQLStorage], [InMemoryStorage]) and the
    client status helpers (date-utils.ts, subscription-card.tsx,
    certificate-card.tsx, the sort of subscriptions.tsx and the date field
    of the edit forms), followed by the properties of the temporal
    extraction and classification engine.

    Modelling conventions.
    - A time value is an integer number of milliseconds since the epoch
      ([Z]); an Invalid Date (time value NaN) is [None].  Differences of
      time values and whole-day counts are exact in binary64, so they are
      kept in [Z].
    - The ambient clock ([new Date()], [Date.now()]) is an explicit
      argument [now]; one synchronous call reads one instant.
    - The local time zone is a fixed offset [LocalTZA] (milliseconds east
      of UTC); daylight-saving transitions are not modelled.
    - [Date.parse] is fixed by ECMAScript only on the date-time string
      format; on every other string it is the host's own heuristic, here
      the argument [legacyParse].
    - Text is a string of 8-bit characters; [\s], [\d], [a-z] and case
      folding are the ASCII ones, which is what the sources do on a text
      of ASCII characters.
    - A stored date is a valid date, a time value in [Z]: that is every
      row of the SQL tables. [InMemoryStorage] also stores the Invalid
      Date its callers can hand it; such a record is outside the model.
    - The SQL-backed listing reads two clocks (SQL [now()] for the filter,
      [new Date()] for the enrichment) and the database chooses the order
      of rows of equal expiry; both are arguments.
    - date-fns [differenceInDays] counts full local days; with a fixed
      offset a full local day is 86,400,000 ms.
    - The confidence score is accumulated in binary64 ([PrimFloat]), as
      the source does: its decimal increments are not representable and
      the result is compared with decimal thresholds.  The progress
      percentage, a quotient by 365 scaled by 100 and clamped, is kept as
      an exact rational: rounding to binary64 is monotone and leaves 0 and
      100 fixed, so the order and clamping facts are those of the source. *)

From Stdlib Require Import ZArith List String Ascii Bool Lia QArith Qminmax Lqa Floats Uint63.
From Stdlib Require Import Permutation Sorted.
Import ListNotations.

Set Warnings "-inexact-float".

Local Open Scope Z_scope.

(* ================================================================== *)
(** ** ECMAScript time values (the [Date] builtins the sources call) *)

Module JSDate.

Definition msPerDay : Z := 86400000.

(** [Day(t) = floor(t / msPerDay)], [TimeWithinDay(t) = t modulo msPerDay]. *)
Definition Day (t : Z) : Z := t / msPerDay.
Definition TimeWithinDay (t : Z) : Z := t mod msPerDay.

Definition isLeapYear (y : Z) : bool :=
  if negb (y mod 4 =? 0) then false
  else if negb (y mod 100 =? 0) then true
  else if negb (y mod 400 =? 0) then false
  else true.

Definition DaysInYear (y : Z) : Z := if isLeapYear y then 366 else 365.

(** Day number of the first day of year [y]. *)
Definition DayFromYear (y : Z) : Z :=
  365 * (y - 1970) + (y - 1969) / 4 - (y - 1901) / 100 + (y - 1601) / 400.

(** [YearFromTime]: the largest [y] with [DayFromYear y <= day].  The
    mean-year estimate is off by at most one year, then corrected. *)
Definition YearFromDay (day : Z) : Z :=
  let y := 1970 + (400 * day) / 146097 in
  if DayFromYear (y + 1) <=? day then y + 1
  else if DayFromYear y <=? day then y
  else y - 1.

Definition YearFromTime (t : Z) : Z := YearFromDay (Day t).

Definition DayWithinYear (t : Z) : Z := Day t - DayFromYear (YearFromTime t).

(** Days of the year that precede month [m] (0-based). *)
Definition daysBeforeMonth (leap : bool) (m : Z) : Z :=
  let l := if leap then 1 else 0 in
  match m with
  | 0 => 0
  | 1 => 31
  | 2 => 59 + l
  | 3 => 90 + l
  | 4 => 120 + l
  | 5 => 151 + l
  | 6 => 181 + l
  | 7 => 212 + l
  | 8 => 243 + l
  | 9 => 273 + l
  | 10 => 304 + l
  | _ => 334 + l
  end.

Definition DaysInMonth (y m : Z) : Z :=
  match m with
  | 1 => if isLeapYear y then 29 else 28
  | 3 | 5 | 8 | 10 => 30
  | _ => 31
  end.

(** [MonthFromTime], by the table on the day within the year. *)
Definition monthOfYearDay (leap : bool) (d : Z) : Z :=
  if d <? daysBeforeMonth leap 1 then 0
  else if d <? daysBeforeMonth leap 2 then 1
  else if d <? daysBeforeMonth leap 3 then 2
  else if d <? daysBeforeMonth leap 4 then 3
  else if d <? daysBeforeMonth leap 5 then 4
  else if d <? daysBeforeMonth leap 6 then 5
  else if d <? daysBeforeMonth leap 7 then 6
  else if d <? daysBeforeMonth leap 8 then 7
  else if d <? daysBeforeMonth leap 9 then 8
  else if d <? daysBeforeMonth leap 10 then 9
  else if d <? daysBeforeMonth leap 11 then 10
  else 11.

Definition MonthFromTime (t : Z) : Z :=
  monthOfYearDay (isLeapYear (YearFromTime t)) (DayWithinYear t).

Definition DateFromTime (t : Z) : Z :=
  DayWithinYear t
  - daysBeforeMonth (isLeapYear (YearFromTime t)) (MonthFromTime t) + 1.

(** [MakeDay(year, month, date)]: months outside 0..11 carry into the
    year, days outside the month carry into the following months. *)
Definition MakeDay (year month date : Z) : Z :=
  let ym := year + month / 12 in
  let mn := month mod 12 in
  DayFromYear ym + daysBeforeMonth (isLeapYear ym) mn + date - 1.

Definition MakeTime (hour min sec ms : Z) : Z :=
  hour * 3600000 + min * 60000 + sec * 1000 + ms.

Definition MakeDate (day time : Z) : Z := day * msPerDay + time.

(** [TimeClip]: a time value beyond 8.64e15 ms is NaN. *)
Definition TimeClip (t : Z) : option Z :=
  if Z.abs t <=? 8640000000000000 then Some t else None.

Section Local.
Variable LocalTZA : Z.

Definition LocalTime (t : Z) : Z := t + LocalTZA.
Definition UTC (t : Z) : Z := t - LocalTZA.

(** [new Date(year, month, date)]: a year in 0..99 means 1900 + year;
    the components are local time. *)
Definition newDate (year month date : Z) : option Z :=
  let yr := if (0 <=? year) && (year <=? 99) then 1900 + year else year in
  TimeClip (UTC (MakeDate (MakeDay yr month date) (MakeTime 0 0 0 0))).

Definition getFullYear (t : Z) : Z := YearFromTime (LocalTime t).
Definition getMonth (t : Z) : Z := MonthFromTime (LocalTime t).
Definition getDate (t : Z) : Z := DateFromTime (LocalTime t).
Definition getHours (t : Z) : Z := TimeWithinDay (LocalTime t) / 3600000.
End Local.

End JSDate.

(* ================================================================== *)
(** ** Strings (the [String.prototype] methods the sources call) *)

Module JSString.

Local Open Scope char_scope.

Definition code (c : ascii) : N := N_of_ascii c.

Definition inRange (lo hi c : ascii) : bool :=
  ((code lo <=? code c) && (code c <=? code hi))%N.

Definition isDigit (c : ascii) : bool := inRange "0" "9" c.

(** White space and line terminators below U+0080: TAB, LF, VT, FF, CR, SP. *)
Definition isSpace (c : ascii) : bool :=
  ((9 <=? code c) && (code c <=? 13) || (code c =? 32))%N.

Definition lowerChar (c : ascii) : ascii :=
  if inRange "A" "Z" c then ascii_of_N (code c + 32) else c.

Definition upperChar (c : ascii) : ascii :=
  if inRange "a" "z" c then ascii_of_N (code c - 32) else c.

Fixpoint toLowerCase (s : string) : string :=
  match s with
  | EmptyString => EmptyString
  | String c s' => String (lowerChar c) (toLowerCase s')
  end.

Fixpoint trimStart (s : string) : string :=
  match s with
  | String c s' => if isSpace c then trimStart s' else s
  | EmptyString => EmptyString
  end.

(** Drops the white space that reaches the end of the string. *)
Fixpoint trimEnd (s : string) : string :=
  match s with
  | EmptyString => EmptyString
  | String c s' =>
      match trimEnd s' with
      | EmptyString => if isSpace c then EmptyString else String c EmptyString
      | t => String c t
      end
  end.

Definition trim (s : string) : string := trimEnd (trimStart s).

(** [hay.includes(needle)]. *)
Fixpoint includes (needle hay : string) : bool :=
  String.prefix needle hay ||
  match hay with
  | EmptyString => false
  | String _ hay' => includes needle hay'
  end.

(** [hay.indexOf(needle)], [None] for -1. *)
Fixpoint indexOf (needle hay : string) : option nat :=
  if String.prefix needle hay then Some O
  else match hay with
       | EmptyString => None
       | String _ hay' => option_map S (indexOf needle hay')
       end.

(** [s.replace(/\s+/g, ' ')]: every maximal run of white space becomes
    one space ([inRun]: the previous character was white space). *)
Fixpoint collapseFrom (inRun : bool) (s : string) : string :=
  match s with
  | EmptyString => EmptyString
  | String c s' =>
      if isSpace c
      then if inRun then collapseFrom true s'
           else String " " (collapseFrom true s')
      else String c (collapseFrom false s')
  end.

Definition collapseSpaces (s : string) : string := collapseFrom false s.

Definition digitValue (c : ascii) : Z := Z.of_N (code c - 48).

(** [parseInt] on a string of decimal digits (the only strings the
    sources pass, each captured by [\d{..}]). *)
Definition parseInt (s : string) : Z :=
  fold_left (fun acc c => 10 * acc + digitValue c) (list_ascii_of_string s) 0.

End JSString.

(* ================================================================== *)
(** ** Regular expressions (a backtracking matcher after ECMAScript's
       pattern semantics, for the constructs the sources' literals use) *)

Module Regex.
Import JSString.

Inductive charset : Type :=
| CChar (c : ascii)            (* a literal character *)
| CRange (lo hi : ascii)       (* [lo-hi] *)
| CDigit                       (* \d *)
| CSpace                       (* \s *)
| CAny                         (* .  *)
| COr (a b : charset).         (* members of one [...] class *)

Inductive regex : Type :=
| Eps
| Chr (cs : charset)
| Seq (r1 r2 : regex)
| Alt (r1 r2 : regex)
| Rep (r : regex) (min : nat) (max : option nat) (greedy : bool)
| Cap (n : nat) (r : regex)    (* the n-th capturing group *)
| Bol                          (* ^ *)
| Eol.                         (* $ *)

(** A character matches a set when some member has the same canonical
    (upper-case) form under [ignoreCase], and is that member otherwise. *)
Fixpoint charsetMatch (ignoreCase : bool) (cs : charset) (x : ascii) : bool :=
  match cs with
  | CChar c =>
      if ignoreCase then Ascii.eqb (upperChar c) (upperChar x) else Ascii.eqb c x
  | CRange lo hi =>
      if ignoreCase then inRange lo hi (lowerChar x) || inRange lo hi (upperChar x)
      else inRange lo hi x
  | CDigit => isDigit x
  | CSpace => isSpace x
  | CAny => negb ((code x =? 10) || (code x =? 13))%N
  | COr a b => charsetMatch ignoreCase a x || charsetMatch ignoreCase b x
  end.

Definition captures : Type := list (nat * list ascii).

(** A matcher state is the index reached, the input that remains and the
    captures so far; a continuation decides whether the rest matches. *)
Definition result : Type := option (nat * captures).
Definition cont : Type := nat -> list ascii -> captures -> result.
Definition matcher : Type := nat -> list ascii -> captures -> cont -> result.

Definition orElse (a : result) (b : unit -> result) : result :=
  match a with
  | Some r => Some r
  | None => b tt
  end.

(** RepeatMatcher: an iteration that consumes nothing ends the loop once
    [min] is met; [fuel] bounds the iterations by [min] plus the input
    that remains. *)
Fixpoint repeatMatcher (fuel : nat) (m : matcher) (min : nat) (max : option nat)
    (greedy : bool) (pos : nat) (rest : list ascii) (cs : captures) (k : cont)
    : result :=
  match fuel with
  | O => None
  | S fuel' =>
      match max with
      | Some O => k pos rest cs
      | _ =>
          let d : cont := fun pos' rest' cs' =>
            if Nat.eqb min 0 && Nat.eqb pos' pos then None
            else repeatMatcher fuel' m (Nat.pred min) (option_map Nat.pred max)
                   greedy pos' rest' cs' k in
          if negb (Nat.eqb min 0) then m pos rest cs d
          else if greedy
               then orElse (m pos rest cs d) (fun _ => k pos rest cs)
               else orElse (k pos rest cs) (fun _ => m pos rest cs d)
      end
  end.

Fixpoint compile (ignoreCase : bool) (r : regex) : matcher :=
  fun pos rest cs k =>
  match r with
  | Eps => k pos rest cs
  | Chr c =>
      match rest with
      | x :: rest' =>
          if charsetMatch ignoreCase c x then k (S pos) rest' cs else None
      | [] => None
      end
  | Seq r1 r2 =>
      compile ignoreCase r1 pos rest cs
        (fun pos' rest' cs' => compile ignoreCase r2 pos' rest' cs' k)
  | Alt r1 r2 =>
      orElse (compile ignoreCase r1 pos rest cs k)
             (fun _ => compile ignoreCase r2 pos rest cs k)
  | Rep r' min max greedy =>
      repeatMatcher (S (min + List.length rest)) (compile ignoreCase r')
        min max greedy pos rest cs k
  | Cap n r' =>
      compile ignoreCase r' pos rest cs
        (fun pos' rest' cs' => k pos' rest' ((n, firstn (pos' - pos) rest) :: cs'))
  | Bol => if Nat.eqb pos 0 then k pos rest cs else None
  | Eol => match rest with [] => k pos rest cs | _ => None end
  end.

(** The result of [RegExp.prototype.exec] without the [g] flag: the
    leftmost start index at which the pattern matches. *)
Record matchResult : Type := {
  index : nat;
  matched : string;                 (* match[0] *)
  groups : captures                 (* match[n], n >= 1 *)
}.

Fixpoint search (ignoreCase : bool) (r : regex) (pos : nat) (rest : list ascii)
    : option matchResult :=
  match compile ignoreCase r pos rest [] (fun e _ cs => Some (e, cs)) with
  | Some (e, cs) =>
      Some {| index := pos;
              matched := string_of_list_ascii (firstn (e - pos) rest);
              groups := cs |}
  | None =>
      match rest with
      | [] => None
      | _ :: rest' => search ignoreCase r (S pos) rest'
      end
  end.

Definition exec (ignoreCase : bool) (r : regex) (s : string) : option matchResult :=
  search ignoreCase r 0 (list_ascii_of_string s).

(** [match[n]]; the groups of the sources' patterns always take part in
    a match, so the [undefined] of a group that did not is not needed. *)
Fixpoint lookup (n : nat) (cs : captures) : string :=
  match cs with
  | [] => EmptyString
  | (n', s) :: cs' => if Nat.eqb n n' then string_of_list_ascii s else lookup n cs'
  end.

Definition group (n : nat) (m : matchResult) : string := lookup n (groups m).

(** Pattern syntax. *)
Definition lit (s : string) : regex :=
  fold_right (fun c r => Seq (Chr (CChar c)) r) Eps (list_ascii_of_string s).
Definition opt (r : regex) : regex := Rep r 0 (Some 1%nat) true.
Definition star (r : regex) : regex := Rep r 0 None true.
Definition plus (r : regex) : regex := Rep r 1 None true.
Definition lazyStar (r : regex) : regex := Rep r 0 None false.
Definition times (n : nat) (r : regex) : regex := Rep r n (Some n) true.
Definition between (n m : nat) (r : regex) : regex := Rep r n (Some m) true.
Definition digit : regex := Chr CDigit.
Definition space : regex := Chr CSpace.

Declare Scope regex_scope.
Delimit Scope regex_scope with re.
Infix "+++" := Seq (at level 60, right associativity) : regex_scope.
Infix "<|>" := Alt (at level 70, right associativity) : regex_scope.

End Regex.

(* ================================================================== *)
(** ** [Date.parse] and [new Date(string)] *)

Module JSDateParse.
Import JSDate JSString.

Section Host.
Variable LocalTZA : Z.
(** The host's parser for strings outside the date-time string format
    (named months, out-of-range fields, ...): implementation-defined. *)
Variable legacyParse : string -> option Z.

Definition twoDigits (a b : ascii) : option Z :=
  if isDigit a && isDigit b then Some (10 * digitValue a + digitValue b) else None.

Definition fourDigits (a b c d : ascii) : option Z :=
  if isDigit a && isDigit b && isDigit c && isDigit d
  then Some (1000 * digitValue a + 100 * digitValue b + 10 * digitValue c + digitValue d)
  else None.

(** The time value of [YYYY-MM-DDTHH:mm:ss] from its fields: local time
    unless [utc] (a trailing [Z]); a field out of range is not an
    instance of the format. *)
Definition isoFields (y mo d h mi s : Z) (utc : bool) : option Z :=
  if (1 <=? mo) && (mo <=? 12) && (1 <=? d) && (d <=? DaysInMonth y (mo - 1))
     && (h <=? 24) && (mi <=? 59) && (s <=? 59)
     && (negb (h =? 24) || ((mi =? 0) && (s =? 0)))
  then
    let t := MakeDate (MakeDay y (mo - 1) d) (MakeTime h mi s 0) in
    TimeClip (if utc then t else UTC LocalTZA t)
  else None.

(** The two shapes of the date-time string format the sources build:
    [YYYY-MM-DDTHH:mm:ss] and the same followed by [Z]. *)
Definition parseISO (str : string) : option Z :=
  match list_ascii_of_string str with
  | y1 :: y2 :: y3 :: y4 :: "-" :: m1 :: m2 :: "-" :: d1 :: d2 :: "T"
    :: h1 :: h2 :: ":" :: n1 :: n2 :: ":" :: s1 :: s2 :: tl =>
      match fourDigits y1 y2 y3 y4, twoDigits m1 m2, twoDigits d1 d2,
            twoDigits h1 h2, twoDigits n1 n2, twoDigits s1 s2 with
      | Some y, Some mo, Some d, Some h, Some mi, Some s =>
          match tl with
          | [] => isoFields y mo d h mi s false
          | ["Z"] => isoFields y mo d h mi s true
          | _ => None
          end
      | _, _, _, _, _, _ => None
      end
  | _ => None
  end%char.

(** [new Date(str)]: the time value is [Date.parse(str)]. *)
Definition newDateOfString (str : string) : option Z :=
  match parseISO str with
  | Some t => Some t
  | None => legacyParse str
  end.
End Host.

End JSDateParse.

(* ================================================================== *)
(** ** shared/schema.ts: [toDate] *)

Module Schema.
Import JSDate JSString JSDateParse Regex.
Local Open Scope string_scope.
Local Open Scope regex_scope.

(** The values the zod schemas hand to [toDate]: [z.string().or(z.date())]. *)
Inductive value : Type :=
| VDate (d : option Z)
| VString (s : string).

(** [/^(\d{2})\/(\d{2})\/(\d{4})$/] *)
Definition re_dmY : regex :=
  Bol +++ Cap 1 (times 2 digit) +++ lit "/" +++ Cap 2 (times 2 digit) +++ lit "/"
      +++ Cap 3 (times 4 digit) +++ Eol.

(** [/^(\d{2})-(\d{2})-(\d{4})$/] *)
Definition re_dmYdash : regex :=
  Bol +++ Cap 1 (times 2 digit) +++ lit "-" +++ Cap 2 (times 2 digit) +++ lit "-"
      +++ Cap 3 (times 4 digit) +++ Eol.

(** [/^\d{4}-\d{2}-\d{2}$/] *)
Definition re_dateOnly : regex :=
  Bol +++ times 4 digit +++ lit "-" +++ times 2 digit +++ lit "-" +++ times 2 digit
      +++ Eol.

(** [/^\d{4}-\d{2}-\d{2} \d{2}:\d{2}:\d{2}$/] *)
Definition re_dateTime : regex :=
  Bol +++ times 4 digit +++ lit "-" +++ times 2 digit +++ lit "-" +++ times 2 digit
      +++ lit " " +++ times 2 digit +++ lit ":" +++ times 2 digit +++ lit ":"
      +++ times 2 digit +++ Eol.

Definition test (r : regex) (s : string) : bool :=
  match exec false r s with Some _ => true | None => false end.

(** [str.replace(' ', 'T')]: the first space only. *)
Fixpoint replaceFirstSpace (s : string) : string :=
  match s with
  | EmptyString => EmptyString
  | String c s' => if Ascii.eqb c " " then String "T" s' else String c (replaceFirstSpace s')
  end.

Section Host.
Variable LocalTZA : Z.
Variable legacyParse : string -> option Z.

Let newDateS := newDateOfString LocalTZA legacyParse.

(** [const d = new Date(iso); if (!isNaN(d.getTime())) return d;
    return new Date(`${iso}Z`)]. *)
Definition tryLocalThenZ (iso : string) : option Z :=
  match newDateS iso with
  | Some t => Some t
  | None => newDateS (iso ++ "Z")
  end.

Definition toDate (val : value) : option Z :=
  match val with
  | VDate d => d
  | VString v =>
      let str := trim v in
      match exec false re_dmY str with
      | Some m =>
          let dd := group 1 m in let mm := group 2 m in let yyyy := group 3 m in
          tryLocalThenZ (yyyy ++ "-" ++ mm ++ "-" ++ dd ++ "T00:00:00")
      | None =>
      match exec false re_dmYdash str with
      | Some m =>
          let dd := group 1 m in let mm := group 2 m in let yyyy := group 3 m in
          tryLocalThenZ (yyyy ++ "-" ++ mm ++ "-" ++ dd ++ "T00:00:00")
      | None =>
      if test re_dateOnly str then tryLocalThenZ (str ++ "T00:00:00")
      else if test re_dateTime str then tryLocalThenZ (replaceFirstSpace str)
      else tryLocalThenZ str
      end end
  end.
End Host.

End Schema.

(* ================================================================== *)
(** ** server/services/dateExtractor.ts: [DateExtractor] *)

Module DateExtractor.
Import JSDate JSString JSDateParse Regex.
Local Open Scope string_scope.
Local Open Scope regex_scope.

(** A regular-expression literal: its [source] text, its [i] flag and
    the pattern the text denotes. *)
Record pattern : Type := {
  source : string;
  ignoreCase : bool;
  re : regex
}.

Definition matchPattern (p : pattern) (s : string) : option matchResult :=
  exec (ignoreCase p) (re p) s.

(** The pieces of the pattern table. *)
Definition sep : regex := Chr (COr (CChar "/") (CChar "-")).        (* [\/\-] *)
Definition letters : regex := plus (Chr (CRange "a" "z")).          (* [a-z]+ *)
(** [[a-z]+ \d{1,2},?\s+\d{4}] *)
Definition namedShape : regex :=
  letters +++ lit " " +++ between 1 2 digit +++ opt (lit ",") +++ plus space
          +++ times 4 digit.
(** [\d{1,2}[\/\-]\d{1,2}[\/\-]\d{4}] *)
Definition slashedShape : regex :=
  between 1 2 digit +++ sep +++ between 1 2 digit +++ sep +++ times 4 digit.
(** [\d{4}[\/\-]\d{1,2}[\/\-]\d{1,2}] *)
Definition yearFirstShape : regex :=
  times 4 digit +++ sep +++ between 1 2 digit +++ sep +++ between 1 2 digit.

(** [(?:expir[ey]|valid|expires?)(?:\s+(?:date|on|until|through|thru))?\s*:?\s*] *)
Definition labelPrefix : regex :=
  ((lit "expir" +++ Chr (COr (CChar "e") (CChar "y")))
     <|> lit "valid" <|> (lit "expire" +++ opt (lit "s")))
  +++ opt (plus space +++ (lit "date" <|> lit "on" <|> lit "until"
                             <|> lit "through" <|> lit "thru"))
  +++ star space +++ opt (lit ":") +++ star space.

(** [(?:valid\s+(?:until|through|thru))\s*:?\s*] *)
Definition validPrefix : regex :=
  (lit "valid" +++ plus space +++ (lit "until" <|> lit "through" <|> lit "thru"))
  +++ star space +++ opt (lit ":") +++ star space.

(** [expir[ey].*?] *)
Definition loosePrefix : regex :=
  lit "expir" +++ Chr (COr (CChar "e") (CChar "y")) +++ lazyStar (Chr CAny).

Definition datePatterns : list pattern :=
  [ {| source := "(?:expir[ey]|valid|expires?)(?:\s+(?:date|on|until|through|thru))?\s*:?\s*([a-z]+ \d{1,2},?\s+\d{4})";
       ignoreCase := true; re := labelPrefix +++ Cap 1 namedShape |};
    {| source := "(?:expir[ey]|valid|expires?)(?:\s+(?:date|on|until|through|thru))?\s*:?\s*(\d{1,2}[\/\-]\d{1,2}[\/\-]\d{4})";
       ignoreCase := true; re := labelPrefix +++ Cap 1 slashedShape |};
    {| source := "(?:expir[ey]|valid|expires?)(?:\s+(?:date|on|until|through|thru))?\s*:?\s*(\d{4}[\/\-]\d{1,2}[\/\-]\d{1,2})";
       ignoreCase := true; re := labelPrefix +++ Cap 1 yearFirstShape |};
    {| source := "(?:valid\s+(?:until|through|thru))\s*:?\s*([a-z]+ \d{1,2},?\s+\d{4})";
       ignoreCase := true; re := validPrefix +++ Cap 1 namedShape |};
    {| source := "(?:valid\s+(?:until|through|thru))\s*:?\s*(\d{1,2}[\/\-]\d{1,2}[\/\-]\d{4})";
       ignoreCase := true; re := validPrefix +++ Cap 1 slashedShape |};
    {| source := "(?:valid\s+(?:until|through|thru))\s*:?\s*(\d{4}[\/\-]\d{1,2}[\/\-]\d{1,2})";
       ignoreCase := true; re := validPrefix +++ Cap 1 yearFirstShape |};
    {| source := "expir[ey].*?([a-z]+ \d{1,2},?\s+\d{4})";
       ignoreCase := true; re := loosePrefix +++ Cap 1 namedShape |};
    {| source := "expir[ey].*?(\d{1,2}[\/\-]\d{1,2}[\/\-]\d{4})";
       ignoreCase := true; re := loosePrefix +++ Cap 1 slashedShape |};
    {| source := "expir[ey].*?(\d{4}[\/\-]\d{1,2}[\/\-]\d{1,2})";
       ignoreCase := true; re := loosePrefix +++ Cap 1 yearFirstShape |} ].

(** The [formats] of [parseDate]: named months, then [MM/DD/YYYY] or
    [MM-DD-YYYY], then [YYYY/MM/DD] or [YYYY-MM-DD]. *)
Definition formatNamed : pattern :=
  {| source := "^([a-z]+)\s+(\d{1,2}),?\s+(\d{4})$";
     ignoreCase := true;
     re := Bol +++ Cap 1 letters +++ plus space +++ Cap 2 (between 1 2 digit)
               +++ opt (lit ",") +++ plus space +++ Cap 3 (times 4 digit) +++ Eol |}.

Definition formatSlashed : pattern :=
  {| source := "^(\d{1,2})[\/\-](\d{1,2})[\/\-](\d{4})$";
     ignoreCase := false;
     re := Bol +++ Cap 1 (between 1 2 digit) +++ sep +++ Cap 2 (between 1 2 digit)
               +++ sep +++ Cap 3 (times 4 digit) +++ Eol |}.

Definition formatYearFirst : pattern :=
  {| source := "^(\d{4})[\/\-](\d{1,2})[\/\-](\d{1,2})$";
     ignoreCase := false;
     re := Bol +++ Cap 1 (times 4 digit) +++ sep +++ Cap 2 (between 1 2 digit)
               +++ sep +++ Cap 3 (between 1 2 digit) +++ Eol |}.

Definition formats : list pattern := [formatNamed; formatSlashed; formatYearFirst].

Record ExtractionResult : Type := {
  date : option Z;
  confidence : float
}.

(** [Math.min] on two numbers (NaN if either is; [-0] below [+0]). *)
Definition Math_min (a b : float) : float :=
  if PrimFloat.is_nan a || PrimFloat.is_nan b then PrimFloat.nan
  else if PrimFloat.ltb a b then a
  else if PrimFloat.ltb b a then b
  else if PrimFloat.is_zero a && PrimFloat.get_sign a then a else b.

Definition calculateConfidence (p : pattern) (matchedText : string) : float :=
  let confidence := 0.5%float in
  let confidence :=
    if includes "expir" (source p) then (confidence + 0.3)%float else confidence in
  let confidence :=
    if includes "valid" (source p) then (confidence + 0.2)%float else confidence in
  let confidence :=
    if includes ":" (source p) then (confidence + 0.1)%float else confidence in
  let confidence :=
    if includes "expiry date" (toLowerCase matchedText)
    then (confidence + 0.2)%float else confidence in
  let confidence :=
    if includes "valid until" (toLowerCase matchedText)
    then (confidence + 0.2)%float else confidence in
  let confidence :=
    if includes "expires" (toLowerCase matchedText)
    then (confidence + 0.15)%float else confidence in
  Math_min confidence 0.95%float.

(** Five years of 365 days, in milliseconds. *)
Definition fiveYears : Z := 5 * 365 * 24 * 60 * 60 * 1000.

Definition isValidExpiryDate (now date : Z) : bool :=
  let fiveYearsFromNow := now + fiveYears in
  let fiveYearsAgo := now - fiveYears in
  ((fiveYearsAgo <=? date) && (date <=? fiveYearsFromNow))%Z.

Section Host.
Variable LocalTZA : Z.
Variable legacyParse : string -> option Z.

(** The body of the loop over [formats] for one format that matched:
    the branch is chosen by tests on the format's source text. *)
Definition parseWith (format : pattern) (m : matchResult) : option Z :=
  if includes "([a-z]+)" (source format) then
    let monthName := group 1 m in let day := group 2 m in let year := group 3 m in
    newDateOfString LocalTZA legacyParse (monthName ++ " " ++ day ++ ", " ++ year)
  else if includes "(\d{4})" (source format)
          && match indexOf "(\d{4})" (source format) with
             | Some O => true
             | _ => false
             end then
    let year := group 1 m in let month := group 2 m in let day := group 3 m in
    newDate LocalTZA (parseInt year) (parseInt month - 1) (parseInt day)
  else
    let month := group 1 m in let day := group 2 m in let year := group 3 m in
    newDate LocalTZA (parseInt year) (parseInt month - 1) (parseInt day).

Fixpoint parseLoop (fs : list pattern) (cleanDateStr : string) : option Z :=
  match fs with
  | [] => newDateOfString LocalTZA legacyParse cleanDateStr
  | format :: fs' =>
      match matchPattern format cleanDateStr with
      | Some m =>
          match parseWith format m with
          | Some d => Some d
          | None => parseLoop fs' cleanDateStr
          end
      | None => parseLoop fs' cleanDateStr
      end
  end.

(** [null] is [None]; a returned date always has a time value. *)
Definition parseDate (dateStr : string) : option Z :=
  parseLoop formats (trim dateStr).

Fixpoint extractLoop (now : Z) (ps : list pattern) (cleanText : string)
    : ExtractionResult :=
  match ps with
  | [] => {| date := None; confidence := 0%float |}
  | p :: ps' =>
      match matchPattern p cleanText with
      | Some m =>
          match parseDate (group 1 m) with
          | Some parsedDate =>
              if isValidExpiryDate now parsedDate
              then {| date := Some parsedDate;
                      confidence := calculateConfidence p (matched m) |}
              else extractLoop now ps' cleanText
          | None => extractLoop now ps' cleanText
          end
      | None => extractLoop now ps' cleanText
      end
  end.

Definition extractExpiryDate (now : Z) (text : string) : ExtractionResult :=
  extractLoop now datePatterns (trim (collapseSpaces text)).
End Host.

End DateExtractor.

(* ================================================================== *)
(** ** server/storage.ts: enrichment and the two stores *)

Module Storage.
Import JSString.
Local Open Scope string_scope.
Local Open Scope Z_scope.

(** A row of the [certificates] table. *)
Record CertificateRow : Type := {
  cert_id : string;
  name : string;
  issuer : option string;
  expiryDate : Z;
  uploadedAt : Z;
  fileName : string;
  fileSize : Z;
  filePath : string;
  ocrText : option string
}.

(** [Certificate]: the row with its derived fields. *)
Record Certificate : Type := {
  cert_row : CertificateRow;
  cert_isExpired : bool;
  cert_daysUntilExpiry : Z
}.

(** A row of the [subscriptions] table. *)
Record SubscriptionRow : Type := {
  sub_id : string;
  title : string;
  email : string;
  cardTitle : string;
  endDate : Z;
  amount : string;
  createdAt : Z;
  updatedAt : Z
}.

Record Subscription : Type := {
  sub_row : SubscriptionRow;
  sub_isExpired : bool;
  sub_daysUntilExpiry : Z;
  progressPercentage : Q
}.

(** [Math.ceil(timeDiff / (1000 * 3600 * 24))]. *)
Definition ceilDays (timeDiff : Z) : Z := - ((- timeDiff) / (1000 * 3600 * 24)).

Definition calculateDaysUntilExpiry (now expiryDate : Z) : Z :=
  let timeDiff := expiryDate - now in
  ceilDays timeDiff.

Definition isExpired (now expiryDate : Z) : bool := expiryDate <? now.

Definition enrichCertificate (now : Z) (cert : CertificateRow) : Certificate :=
  {| cert_row := cert;
     cert_isExpired := isExpired now (expiryDate cert);
     cert_daysUntilExpiry := calculateDaysUntilExpiry now (expiryDate cert) |}.

Definition totalDays : Z := 365.

(** [Math.max(0, Math.min(100, ((totalDays - daysUntilExpiry) / totalDays) * 100))]. *)
Definition progressOf (daysUntilExpiry : Z) : Q :=
  Qmax 0 (Qmin 100
    ((inject_Z (totalDays - daysUntilExpiry) / inject_Z totalDays) * 100))%Q.

Definition enrichSubscription (now : Z) (sub : SubscriptionRow) : Subscription :=
  let timeDiff := endDate sub - now in
  let daysUntilExpiry := ceilDays timeDiff in
  let isExpired := endDate sub <? now in
  {| sub_row := sub;
     sub_isExpired := isExpired;
     sub_daysUntilExpiry := daysUntilExpiry;
     progressPercentage := progressOf daysUntilExpiry |}.

Inductive statusFilter : Type := All | Valid | Expiring | Expired.

Record SearchCertificatesParams : Type := {
  status : statusFilter;
  limit : nat;
  offset : nat
}.

Definition thirtyDays : Z := 30 * 24 * 3600 * 1000.

(** Stable insertion by expiry date ([Array.prototype.sort] is stable). *)
Fixpoint insertBy {A : Type} (key : A -> Z) (x : A) (l : list A) : list A :=
  match l with
  | [] => [x]
  | y :: l' => if key y <=? key x then y :: insertBy key x l' else x :: l
  end.

Definition sortBy {A : Type} (key : A -> Z) (l : list A) : list A :=
  fold_left (fun acc x => insertBy key x acc) l [].

(** The object both stores return from their statistics methods. *)
Record Stats : Type := {
  total : nat;
  valid : nat;
  expiring : nat;
  expired : nat
}.

(** *** [PostgreSQLStorage]: the tables hold rows; every read enriches. *)
Module PostgreSQLStorage.

Record database : Type := {
  certificates : list CertificateRow;
  subscriptions : list SubscriptionRow
}.

Definition getCertificate (now : Z) (db : database) (id : string)
    : option Certificate :=
  option_map (enrichCertificate now)
    (find (fun r => String.eqb (cert_id r) id) (certificates db)).

(** The [WHERE] clause on [expiry_date] against SQL [now()]. *)
Definition statusClause (now : Z) (s : statusFilter) (r : CertificateRow) : bool :=
  match s with
  | All => true
  | Expired => expiryDate r <? now
  | Expiring => (now <=? expiryDate r) && (expiryDate r <=? now + thirtyDays)
  | Valid => now + thirtyDays <? expiryDate r
  end.

(** [getCertificates]. Two clocks are read: the [WHERE] clause is
    evaluated by the database against SQL [now()] ([sqlNow]), and the
    rows are enriched with [new Date()] once the query has returned
    ([now]). [ORDER BY expiry_date] leaves the order of rows of equal
    expiry to the database: [orderBy] is the order it delivers, any
    function that [Spec.ordersByExpiry] admits. *)
Definition getCertificates (orderBy : list CertificateRow -> list CertificateRow)
    (sqlNow now : Z) (db : database)
    (params : option SearchCertificatesParams) : list Certificate :=
  let rows := certificates db in
  let rows := match params with
              | Some p => filter (statusClause sqlNow (status p)) rows
              | None => rows
              end in
  let rows := orderBy rows in
  let rows := match params with
              | Some p => match offset p with O => rows | n => skipn n rows end
              | None => rows
              end in
  let rows := match params with
              | Some p => match limit p with O => rows | n => firstn n rows end
              | None => rows
              end in
  map (enrichCertificate now) rows.

Definition getSubscription (now : Z) (db : database) (id : string)
    : option Subscription :=
  option_map (enrichSubscription now)
    (find (fun r => String.eqb (sub_id r) id) (subscriptions db)).

Definition getSubscriptions (now : Z) (db : database) : list Subscription :=
  map (enrichSubscription now) (subscriptions db).

(** [getCertificateStats] and [getSubscriptionStats]: a row count with a
    [filter] clause per bucket, against SQL [now()]. *)
Definition getCertificateStats (now : Z) (db : database) : Stats :=
  let rows := certificates db in
  {| total := List.length rows;
     valid := List.length (filter (statusClause now Valid) rows);
     expiring := List.length (filter (statusClause now Expiring) rows);
     expired := List.length (filter (statusClause now Expired) rows) |}.

Definition getSubscriptionStats (now : Z) (db : database) : Stats :=
  let rows := subscriptions db in
  {| total := List.length rows;
     valid := List.length (filter (fun r => now + thirtyDays <? endDate r) rows);
     expiring := List.length
       (filter (fun r => (now <=? endDate r) && (endDate r <=? now + thirtyDays)) rows);
     expired := List.length (filter (fun r => endDate r <? now) rows) |}.

(** [deleteCertificate] reports whether a row was deleted;
    [deleteSubscription] deletes and answers [true] whatever happened. *)
Definition deleteCertificate (db : database) (id : string) : bool * database :=
  let deleted := filter (fun r => String.eqb (cert_id r) id) (certificates db) in
  (Nat.ltb 0 (List.length deleted),
   {| certificates := filter (fun r => negb (String.eqb (cert_id r) id)) (certificates db);
      subscriptions := subscriptions db |}).

Definition deleteSubscription (db : database) (id : string) : bool * database :=
  (true,
   {| certificates := certificates db;
      subscriptions := filter (fun r => negb (String.eqb (sub_id r) id)) (subscriptions db) |}).

End PostgreSQLStorage.

(** *** [InMemoryStorage]: the arrays hold enriched records. *)
Module InMemoryStorage.

Record store : Type := {
  items : list Certificate;
  subscriptionItems : list Subscription
}.

Definition empty : store := {| items := []; subscriptionItems := [] |}.

Record InsertCertificate : Type := {
  ins_name : string;
  ins_issuer : option string;
  ins_expiryDate : Z;
  ins_fileName : string;
  ins_fileSize : Z;
  ins_filePath : string;
  ins_ocrText : option string
}.

Record InsertSubscription : Type := {
  ins_title : string;
  ins_email : string;
  ins_cardTitle : string;
  ins_endDate : Z;
  ins_amount : string
}.

Definition getCertificate (st : store) (id : string) : option Certificate :=
  find (fun i => String.eqb (cert_id (cert_row i)) id) (items st).

Definition getCertificates (now : Z) (st : store)
    (params : option SearchCertificatesParams) : list Certificate :=
  let results := items st in
  let expiry (c : Certificate) := expiryDate (cert_row c) in
  let results :=
    match params with
    | Some p =>
        match status p with
        | All => results
        | Expired => filter (fun c => expiry c <? now) results
        | Expiring =>
            let in30 := now + thirtyDays in
            filter (fun c => (now <=? expiry c) && (expiry c <=? in30)) results
        | Valid =>
            let in30 := now + thirtyDays in
            filter (fun c => in30 <? expiry c) results
        end
    | None => results
    end in
  let results := sortBy expiry results in
  let results := match params with
                 | Some p => skipn (offset p) results
                 | None => results
                 end in
  match params with
  | Some p => firstn (limit p) results
  | None => results
  end.

(** [randomUUID()] is the argument [uuid]. *)
Definition createCertificate (now : Z) (uuid : string) (ins : InsertCertificate)
    (st : store) : Certificate * store :=
  let cert := enrichCertificate now
    {| cert_id := uuid; name := ins_name ins; issuer := ins_issuer ins;
       expiryDate := ins_expiryDate ins; uploadedAt := now;
       fileName := ins_fileName ins; fileSize := ins_fileSize ins;
       filePath := ins_filePath ins; ocrText := ins_ocrText ins |} in
  (cert, {| items := items st ++ [cert];
            subscriptionItems := subscriptionItems st |}).

Definition orEmpty (s : option string) : string :=
  match s with Some v => v | None => "" end.

Definition searchCertificates (now : Z) (st : store) (query : string)
    : list Certificate :=
  let q := toLowerCase query in
  if String.eqb (trim q) "" then getCertificates now st None
  else filter (fun c =>
         includes q (toLowerCase (name (cert_row c)))
         || includes q (toLowerCase (orEmpty (issuer (cert_row c))))
         || includes q (toLowerCase (orEmpty (ocrText (cert_row c))))
         || includes q (toLowerCase (fileName (cert_row c)))) (items st).

Definition getSubscription (st : store) (id : string) : option Subscription :=
  find (fun i => String.eqb (sub_id (sub_row i)) id) (subscriptionItems st).

Definition getSubscriptions (st : store) : list Subscription :=
  subscriptionItems st.

Definition createSubscription (now : Z) (uuid : string) (ins : InsertSubscription)
    (st : store) : Subscription * store :=
  let sub := enrichSubscription now
    {| sub_id := uuid; title := ins_title ins; email := ins_email ins;
       cardTitle := ins_cardTitle ins; endDate := ins_endDate ins;
       amount := ins_amount ins; createdAt := now; updatedAt := now |} in
  (sub, {| items := items st;
           subscriptionItems := subscriptionItems st ++ [sub] |}).

(** [UpdateCertificate] and [UpdateSubscription]: every key is optional;
    [None] is a key that is absent from the parsed body. *)
Record UpdateCertificate : Type := {
  upd_name : option string;
  upd_issuer : option (option string);
  upd_expiryDate : option Z;
  upd_fileName : option string;
  upd_fileSize : option Z;
  upd_filePath : option string;
  upd_ocrText : option (option string)
}.

Record UpdateSubscription : Type := {
  upd_title : option string;
  upd_email : option string;
  upd_cardTitle : option string;
  upd_endDate : option Z;
  upd_amount : option string
}.

Definition orKeep {A : Type} (new : option A) (old : A) : A :=
  match new with Some v => v | None => old end.

(** [{ ...this.items[index], ...updates }] on the stored columns. *)
Definition mergeCertificate (c : CertificateRow) (u : UpdateCertificate)
    : CertificateRow :=
  {| cert_id := cert_id c;
     name := orKeep (upd_name u) (name c);
     issuer := orKeep (upd_issuer u) (issuer c);
     expiryDate := orKeep (upd_expiryDate u) (expiryDate c);
     uploadedAt := uploadedAt c;
     fileName := orKeep (upd_fileName u) (fileName c);
     fileSize := orKeep (upd_fileSize u) (fileSize c);
     filePath := orKeep (upd_filePath u) (filePath c);
     ocrText := orKeep (upd_ocrText u) (ocrText c) |}.

(** [{ ...this.subscriptionItems[index], ...updates, updatedAt: new Date() }]. *)
Definition mergeSubscription (now : Z) (r : SubscriptionRow) (u : UpdateSubscription)
    : SubscriptionRow :=
  {| sub_id := sub_id r;
     title := orKeep (upd_title u) (title r);
     email := orKeep (upd_email u) (email r);
     cardTitle := orKeep (upd_cardTitle u) (cardTitle r);
     endDate := orKeep (upd_endDate u) (endDate r);
     amount := orKeep (upd_amount u) (amount r);
     createdAt := createdAt r;
     updatedAt := now |}.

(** [Array.prototype.findIndex], [None] for -1. *)
Fixpoint findIndex {A : Type} (p : A -> bool) (l : list A) : option nat :=
  match l with
  | [] => None
  | x :: l' => if p x then Some O else option_map S (findIndex p l')
  end.

(** [l[index] = v] for an index inside the array. *)
Fixpoint setNth {A : Type} (index : nat) (v : A) (l : list A) : list A :=
  match l, index with
  | [], _ => []
  | _ :: l', O => v :: l'
  | x :: l', S i => x :: setNth i v l'
  end.

Definition updateCertificate (now : Z) (id : string) (updates : UpdateCertificate)
    (st : store) : option Certificate * store :=
  match findIndex (fun i => String.eqb (cert_id (cert_row i)) id) (items st) with
  | None => (None, st)
  | Some index =>
      match nth_error (items st) index with
      | None => (None, st)
      | Some item =>
          let updated := enrichCertificate now (mergeCertificate (cert_row item) updates) in
          (Some updated,
           {| items := setNth index updated (items st);
              subscriptionItems := subscriptionItems st |})
      end
  end.

Definition deleteCertificate (id : string) (st : store) : bool * store :=
  let before := List.length (items st) in
  let items' := filter (fun i => negb (String.eqb (cert_id (cert_row i)) id)) (items st) in
  (Nat.ltb (List.length items') before,
   {| items := items'; subscriptionItems := subscriptionItems st |}).

Definition getCertificateStats (now : Z) (st : store) : Stats :=
  let in30 := now + thirtyDays in
  let expiry (c : Certificate) := expiryDate (cert_row c) in
  {| total := List.length (items st);
     valid := List.length (filter (fun c => in30 <? expiry c) (items st));
     expiring := List.length
       (filter (fun c => (now <=? expiry c) && (expiry c <=? in30)) (items st));
     expired := List.length (filter (fun c => expiry c <? now) (items st)) |}.

Definition updateSubscription (now : Z) (id : string) (updates : UpdateSubscription)
    (st : store) : option Subscription * store :=
  match findIndex (fun i => String.eqb (sub_id (sub_row i)) id) (subscriptionItems st) with
  | None => (None, st)
  | Some index =>
      match nth_error (subscriptionItems st) index with
      | None => (None, st)
      | Some item =>
          let updated :=
            enrichSubscription now (mergeSubscription now (sub_row item) updates) in
          (Some updated,
           {| items := items st;
              subscriptionItems := setNth index updated (subscriptionItems st) |})
      end
  end.

Definition deleteSubscription (id : string) (st : store) : bool * store :=
  let before := List.length (subscriptionItems st) in
  let items' :=
    filter (fun i => negb (String.eqb (sub_id (sub_row i)) id)) (subscriptionItems st) in
  (Nat.ltb (List.length items') before,
   {| items := items st; subscriptionItems := items' |}).

Definition getSubscriptionStats (now : Z) (st : store) : Stats :=
  let in30 := now + thirtyDays in
  let ends (s : Subscription) := endDate (sub_row s) in
  {| total := List.length (subscriptionItems st);
     valid := List.length (filter (fun s => in30 <? ends s) (subscriptionItems st));
     expiring := List.length
       (filter (fun s => (now <=? ends s) && (ends s <=? in30)) (subscriptionItems st));
     expired := List.length (filter (fun s => ends s <? now) (subscriptionItems st)) |}.

End InMemoryStorage.

End Storage.

(* ================================================================== *)
(** ** client: date-utils.ts and subscription-card.tsx *)

Module Client.
Import JSDate.
Local Open Scope Z_scope.

(** date-fns [isPast(date)]: [date < Date.now()]. *)
Definition isPast (now date : Z) : bool := date <? now.

(** date-fns [differenceInDays(left, right)]: the number of full days
    between the two dates, the fraction truncated toward zero (in a zone
    of fixed offset a full day is [msPerDay] milliseconds). *)
Definition differenceInDays (dateLeft dateRight : Z) : Z :=
  Z.quot (dateLeft - dateRight) msPerDay.

Inductive statusTag : Type := expired | expiring | valid.

(** The fields of the returned object that carry data (the style
    classes and icon names are left out). *)
Record CertificateStatus : Type := {
  status : statusTag;
  daysOverdue : option Z;
  daysRemaining : option Z
}.

Definition getCertificateStatus (now expiryDate : Z) : CertificateStatus :=
  let isExpired := isPast now expiryDate in
  let daysUntilExpiry := differenceInDays expiryDate now in
  let isExpiringSoon := negb isExpired && (daysUntilExpiry <=? 30) in
  if isExpired then
    {| status := expired; daysOverdue := Some (Z.abs daysUntilExpiry);
       daysRemaining := None |}
  else if isExpiringSoon then
    {| status := expiring; daysOverdue := None;
       daysRemaining := Some daysUntilExpiry |}
  else
    {| status := valid; daysOverdue := None;
       daysRemaining := Some daysUntilExpiry |}.

(** The values [SubscriptionCard] derives from [subscription.endDate]. *)
Record SubscriptionCardState : Type := {
  isExpired : bool;
  daysUntilExpiry : Z;
  isExpiringSoon : bool
}.

Definition SubscriptionCard (now endDate : Z) : SubscriptionCardState :=
  let isExpired := isPast now endDate in
  let daysUntilExpiry := differenceInDays endDate now in
  {| isExpired := isExpired;
     daysUntilExpiry := daysUntilExpiry;
     isExpiringSoon := negb isExpired && (daysUntilExpiry <=? 30) |}.

(** A whole number as a JavaScript number (exact below 2^53). *)
Definition numberOfZ (z : Z) : float :=
  match z with
  | Z0 => 0%float
  | Zpos _ => PrimFloat.of_uint63 (Uint63.of_Z z)
  | Zneg _ => PrimFloat.opp (PrimFloat.of_uint63 (Uint63.of_Z (- z)))
  end.

(** [Math.max] on two numbers (NaN if either is; [+0] above [-0]). *)
Definition Math_max (a b : float) : float :=
  if PrimFloat.is_nan a || PrimFloat.is_nan b then PrimFloat.nan
  else if PrimFloat.ltb a b then b
  else if PrimFloat.ltb b a then a
  else if PrimFloat.is_zero a && PrimFloat.get_sign a then b else a.

(** certificate-card.tsx: the values [CertificateCard] derives from
    [certificate.expiryDate]. *)
Definition COUNTDOWN_WINDOW_DAYS : Z := 15.

Record CertificateCardState : Type := {
  card_isExpired : bool;
  card_daysRemaining : Z;
  remainingPercent : float;
  card_isExpiringSoon : bool
}.

Definition CertificateCard (now expiryDate : Z) : CertificateCardState :=
  let isExpired := isPast now expiryDate in
  let daysRemaining := Z.max 0 (differenceInDays expiryDate now) in
  let remainingPercent :=
    if isExpired then 0%float
    else DateExtractor.Math_min 100
           (Math_max 0 (numberOfZ daysRemaining / numberOfZ COUNTDOWN_WINDOW_DAYS * 100))%float in
  {| card_isExpired := isExpired;
     card_daysRemaining := daysRemaining;
     remainingPercent := remainingPercent;
     card_isExpiringSoon := negb isExpired && PrimFloat.leb remainingPercent 40 |}.

(** subscriptions.tsx: [[...subscriptions].sort((a, b) => aDays - bDays)]
    with [Math.floor] of the days from now to each end date. *)
Definition floorDays (now endDate : Z) : Z := (endDate - now) / (1000 * 60 * 60 * 24).

Definition sortedSubscriptions (now : Z) (subscriptions : list Storage.Subscription)
    : list Storage.Subscription :=
  Storage.sortBy (fun s => floorDays now (Storage.endDate (Storage.sub_row s)))
    subscriptions.

(** certificate-edit-modal.tsx: the date field of the edit and the
    verification forms.  It is initialised with
    [new Date(d).toISOString().split('T')[0]] and saved as
    [new Date(field).toISOString()]. *)
Definition digitChar (n : Z) : ascii := ascii_of_N (Z.to_N (48 + n mod 10)).

(** The last [width] decimal digits of [n]: [String(n).padStart(width, "0")]
    for [0 <= n < 10^width]. *)
Fixpoint padStart (width : nat) (n : Z) : string :=
  match width with
  | O => EmptyString
  | S w => (padStart w (n / 10) ++ String (digitChar n) EmptyString)%string
  end.

(** [Date.prototype.toISOString]: UTC fields, a four-digit year from 0 to
    9999 and a signed six-digit year otherwise. *)
Definition toISOString (t : Z) : string :=
  let y := YearFromTime t in
  let yearText :=
    if (0 <=? y) && (y <=? 9999) then padStart 4 y
    else ((if (y <? 0)%Z then "-" else "+") ++ padStart 6 (Z.abs y))%string in
  (yearText ++ "-" ++ padStart 2 (MonthFromTime t + 1) ++ "-"
   ++ padStart 2 (DateFromTime t) ++ "T"
   ++ padStart 2 (TimeWithinDay t / 3600000) ++ ":"
   ++ padStart 2 (TimeWithinDay t / 60000 mod 60) ++ ":"
   ++ padStart 2 (TimeWithinDay t / 1000 mod 60) ++ "."
   ++ padStart 3 (t mod 1000) ++ "Z")%string.

(** [s.split('T')[0]]: the text before the first [T]. *)
Fixpoint beforeT (s : string) : string :=
  match s with
  | EmptyString => EmptyString
  | String c s' => if Ascii.eqb c "T" then EmptyString else String c (beforeT s')
  end.

(** [Date.parse] on the date-only form [YYYY-MM-DD] of the date-time
    string format: UTC midnight of a day of the calendar. *)
Definition dateOnlyFields (y mo d : Z) : option Z :=
  if (1 <=? mo) && (mo <=? 12) && (1 <=? d) && (d <=? DaysInMonth y (mo - 1))
  then TimeClip (MakeDate (MakeDay y (mo - 1) d) 0)
  else None.

Definition parseDateOnly (str : string) : option Z :=
  match list_ascii_of_string str with
  | y1 :: y2 :: y3 :: y4 :: "-" :: m1 :: m2 :: "-" :: d1 :: d2 :: [] =>
      match JSDateParse.fourDigits y1 y2 y3 y4, JSDateParse.twoDigits m1 m2,
            JSDateParse.twoDigits d1 d2 with
      | Some y, Some mo, Some d => dateOnlyFields y mo d
      | _, _, _ => None
      end
  | _ => None
  end%char.

Definition formInitialDate (t : Z) : string := beforeT (toISOString t).

(** The time value of [new Date(field)]; [None] is an Invalid Date, on
    which [toISOString] throws. *)
Definition formSavedExpiry (LocalTZA : Z) (legacyParse : string -> option Z)
    (field : string) : option Z :=
  JSDateParse.newDateOfString LocalTZA
    (fun s => match parseDateOnly s with
              | Some t => Some t
              | None => legacyParse s
              end) field.

End Client.

(* ================================================================== *)
(** ** Vocabulary of the statements *)

Module Spec.
Import JSDate JSString Regex DateExtractor.
Local Open Scope string_scope.
Local Open Scope Z_scope.

(** A host whose parser knows nothing beyond the date-time string format. *)
Definition noLegacy : string -> option Z := fun _ => None.

(** The text [a b sep1 c d sep2 e f g h]: two two-character fields and a
    four-character field. *)
Definition fields (a b sep1 c d sep2 e f g h : ascii) : string :=
  String a (String b (String sep1 (String c (String d (String sep2
    (String e (String f (String g (String h EmptyString))))))))).

Definition value2 (a b : ascii) : Z := 10 * digitValue a + digitValue b.

Definition value4 (a b c d : ascii) : Z :=
  1000 * digitValue a + 100 * digitValue b + 10 * digitValue c + digitValue d.

Definition isSeparator (c : ascii) : bool := Ascii.eqb c "/" || Ascii.eqb c "-".

(** [year]-[month]-[day] (month 1-based) names a day of the calendar. *)
Definition realDate (year month day : Z) : Prop :=
  1 <= month <= 12 /\ 1 <= day <= DaysInMonth year (month - 1).

(** The instant [t] is local midnight of [year]-[month]-[day] as the
    [Date] getters report it (month 1-based here, 0-based in [getMonth]). *)
Definition isLocalDay (LocalTZA t year month day : Z) : Prop :=
  getFullYear LocalTZA t = year /\ getMonth LocalTZA t = month - 1
  /\ getDate LocalTZA t = day.

(** One pattern of the table yields an accepted result on [cleanText]:
    it matches, its capture normalizes, and the date is plausible. *)
Definition accepts (LocalTZA : Z) (legacyParse : string -> option Z) (now : Z)
    (cleanText : string) (p : pattern) : bool :=
  match matchPattern p cleanText with
  | Some m =>
      match parseDate LocalTZA legacyParse (group 1 m) with
      | Some d => isValidExpiryDate now d
      | None => false
      end
  | None => false
  end.

(** A subscription row and a certificate insert that carry only an end
    date; the other columns play no part in classification. *)
Definition subscriptionEnding (endDate : Z) : Storage.SubscriptionRow :=
  {| Storage.sub_id := "s1"; Storage.title := "t"; Storage.email := "e";
     Storage.cardTitle := "c"; Storage.endDate := endDate; Storage.amount := "1";
     Storage.createdAt := 0; Storage.updatedAt := 0 |}.

Definition certificateExpiring (expiryDate : Z)
    : Storage.InMemoryStorage.InsertCertificate :=
  {| Storage.InMemoryStorage.ins_name := "n";
     Storage.InMemoryStorage.ins_issuer := None;
     Storage.InMemoryStorage.ins_expiryDate := expiryDate;
     Storage.InMemoryStorage.ins_fileName := "f";
     Storage.InMemoryStorage.ins_fileSize := 1;
     Storage.InMemoryStorage.ins_filePath := "p";
     Storage.InMemoryStorage.ins_ocrText := None |}.

(** 2026-11-02T00:00:00Z and 2040-01-01T00:00:00Z. *)
Definition nov2_2026 : Z := MakeDate (MakeDay 2026 10 2) 0.
Definition jan1_2040 : Z := MakeDate (MakeDay 2040 0 1) 0.

(** The text [a b c d sep1 e f sep2 g h]: a four-character field and two
    two-character fields. *)
Definition fieldsYearFirst (a b c d sep1 e f sep2 g h : ascii) : string :=
  String a (String b (String c (String d (String sep1 (String e (String f
    (String sep2 (String g (String h EmptyString))))))))).

(** The text [YYYY-MM-DD hh:mm:ss] from its fourteen digits. *)
Definition dateTimeText (y1 y2 y3 y4 m1 m2 d1 d2 h1 h2 n1 n2 s1 s2 : ascii) : string :=
  (fieldsYearFirst y1 y2 y3 y4 "-" m1 m2 "-" d1 d2
   ++ String " " (String h1 (String h2 (String ":" (String n1 (String n2
        (String ":" (String s1 (String s2 EmptyString)))))))))%string.

(** A string that consists of white space only. *)
Fixpoint onlySpaces (w : string) : bool :=
  match w with
  | EmptyString => true
  | String c w' => isSpace c && onlySpaces w'
  end.

(** The order a sort by a numeric key produces. *)
Definition keyLe {A : Type} (key : A -> Z) (a b : A) : Prop := key a <= key b.


(** A text of ASCII characters: on such a text [\s] and [trim()] know the
    white space of [isSpace] and no other. *)
Fixpoint asciiText (s : string) : bool :=
  match s with
  | EmptyString => true
  | String c s' => (code c <? 128)%N && asciiText s'
  end.

(** The scores of the pattern table in binary64. *)
Definition scoreValues (c : float) : Prop :=
  c = 0.7999999999999999%float \/ c = 0.8%float \/ c = 0.95%float.


Definition sampleInsert (expiry : Z) : Storage.InMemoryStorage.InsertCertificate :=
  {| Storage.InMemoryStorage.ins_name := "TLS certificate";
     Storage.InMemoryStorage.ins_issuer := None;
     Storage.InMemoryStorage.ins_expiryDate := expiry;
     Storage.InMemoryStorage.ins_fileName := "cert.pdf";
     Storage.InMemoryStorage.ins_fileSize := 1024;
     Storage.InMemoryStorage.ins_filePath := "uploads/cert.pdf";
     Storage.InMemoryStorage.ins_ocrText := None |}.

End Spec.

(* ================================================================== *)
(** * Properties *)

(** ** Calendar arithmetic *)

Module JSDateFacts.
Import JSDate.

Lemma DayFromYear_succ (y : Z) : DayFromYear (y + 1) = DayFromYear y + DaysInYear y.
Proof.
  unfold DayFromYear, DaysInYear, isLeapYear.
  destruct (Z.eqb_spec (y mod 4) 0), (Z.eqb_spec (y mod 100) 0),
           (Z.eqb_spec (y mod 400) 0);
    cbn [negb]; Z.div_mod_to_equations; lia.
Qed.

Lemma DaysInYear_bounds (y : Z) : 365 <= DaysInYear y <= 366.
Proof. unfold DaysInYear. destruct (isLeapYear y); lia. Qed.

(** [YearFromDay] is the year whose span of days holds the day. *)
Lemma YearFromDay_spec (y d : Z) :
  DayFromYear y <= d < DayFromYear (y + 1) -> YearFromDay d = y.
Proof.
  intros H. unfold YearFromDay.
  assert (Hy : y - 1 <= 1970 + 400 * d / 146097 <= y + 1).
  { unfold DayFromYear in H. Z.div_mod_to_equations. lia. }
  set (e := 1970 + 400 * d / 146097) in *.
  pose proof (DayFromYear_succ (y + 1)) as S1.
  pose proof (DaysInYear_bounds (y + 1)) as B1.
  pose proof (DayFromYear_succ (y - 1)) as S0.
  pose proof (DaysInYear_bounds (y - 1)) as B0.
  replace (y - 1 + 1) with y in S0 by lia.
  assert (E : e = y - 1 \/ e = y \/ e = y + 1) by lia.
  destruct E as [E | [E | E]]; rewrite E.
  - replace (y - 1 + 1) with y by lia.
    destruct (Z.leb_spec (DayFromYear y) d); [reflexivity | lia].
  - destruct (Z.leb_spec (DayFromYear (y + 1)) d); [lia |].
    destruct (Z.leb_spec (DayFromYear y) d); [reflexivity | lia].
  - destruct (Z.leb_spec (DayFromYear (y + 1 + 1)) d); [lia |].
    destruct (Z.leb_spec (DayFromYear (y + 1)) d); lia.
Qed.

Lemma Day_MakeDate (day time : Z) :
  0 <= time < msPerDay -> Day (MakeDate day time) = day.
Proof.
  intros H. unfold Day, MakeDate, msPerDay in *.
  symmetry. apply (Z.div_unique _ _ _ time); lia.
Qed.

Lemma month_cases (m : Z) :
  0 <= m <= 11 ->
  m = 0 \/ m = 1 \/ m = 2 \/ m = 3 \/ m = 4 \/ m = 5 \/ m = 6 \/ m = 7 \/ m = 8
  \/ m = 9 \/ m = 10 \/ m = 11.
Proof. lia. Qed.

Ltac each_month H :=
  destruct (month_cases _ H) as
    [?|[?|[?|[?|[?|[?|[?|[?|[?|[?|[?|?]]]]]]]]]]]; subst.

(** A month and day that exist in year [y] lie inside the year. *)
Lemma MakeDay_in_year (y m d : Z) :
  0 <= m <= 11 -> 1 <= d <= DaysInMonth y m ->
  MakeDay y m d = DayFromYear y + (daysBeforeMonth (isLeapYear y) m + d - 1)
  /\ 0 <= daysBeforeMonth (isLeapYear y) m + d - 1 < DaysInYear y.
Proof.
  intros Hm Hd. unfold MakeDay.
  replace (m / 12) with 0 by (symmetry; apply Z.div_small; lia).
  rewrite Z.mod_small by lia. rewrite Z.add_0_r.
  split; [lia |].
  unfold DaysInYear.
  unfold DaysInMonth in Hd.
  each_month Hm; destruct (isLeapYear y);
    cbv beta iota zeta delta [daysBeforeMonth] in Hd |- *; lia.
Qed.

Lemma monthOfYearDay_inv (leap : bool) (m d : Z) :
  0 <= m <= 11 ->
  1 <= d <= (match m with
             | 1 => if leap then 29 else 28
             | 3 | 5 | 8 | 10 => 30
             | _ => 31
             end) ->
  monthOfYearDay leap (daysBeforeMonth leap m + d - 1) = m.
Proof.
  intros Hm Hd. unfold monthOfYearDay.
  each_month Hm; destruct leap;
    cbv beta iota zeta delta [daysBeforeMonth] in Hd |- *;
    repeat match goal with
           | |- context [?a <? ?b] => destruct (Z.ltb_spec a b); try lia
           end; reflexivity.
Qed.

(** The year, month and day of [MakeDay y m d] at any time of that day
    are [y], [m] and [d], when the day exists in the month. *)
Lemma civil_roundtrip (y m d time : Z) :
  0 <= m <= 11 -> 1 <= d <= DaysInMonth y m -> 0 <= time < msPerDay ->
  let t := MakeDate (MakeDay y m d) time in
  YearFromTime t = y /\ MonthFromTime t = m /\ DateFromTime t = d.
Proof.
  intros Hm Hd Ht t.
  destruct (MakeDay_in_year y m d Hm Hd) as [E R].
  assert (Y : YearFromTime t = y).
  { unfold YearFromTime, t. rewrite Day_MakeDate by assumption.
    apply YearFromDay_spec. rewrite DayFromYear_succ. lia. }
  assert (W : DayWithinYear t = daysBeforeMonth (isLeapYear y) m + d - 1).
  { unfold DayWithinYear. rewrite Y. unfold t.
    rewrite Day_MakeDate by assumption. lia. }
  assert (M : MonthFromTime t = m).
  { unfold MonthFromTime. rewrite Y, W. apply monthOfYearDay_inv; assumption. }
  repeat split; [assumption | assumption |].
  unfold DateFromTime. rewrite Y, M, W. lia.
Qed.

Lemma daysBeforeMonth_bounds (leap : bool) (m : Z) :
  0 <= m <= 11 -> 0 <= daysBeforeMonth leap m <= 335.
Proof.
  intros Hm. each_month Hm; destruct leap;
    cbv beta iota zeta delta [daysBeforeMonth]; lia.
Qed.

(** Days built from a four-digit year and one- or two-digit month and
    day fields stay far inside the range of time values. *)
Lemma MakeDay_bounds (y m d : Z) :
  0 <= y <= 9999 -> -1 <= m <= 98 -> 0 <= d <= 99 ->
  -10000000 <= MakeDay y m d <= 10000000.
Proof.
  intros Hy Hm Hd. unfold MakeDay.
  pose proof (daysBeforeMonth_bounds (isLeapYear (y + m / 12)) (m mod 12)) as B.
  assert (M : 0 <= m mod 12 <= 11) by (pose proof (Z.mod_pos_bound m 12); lia).
  specialize (B M).
  assert (Q : -1 <= m / 12 <= 8) by (Z.div_mod_to_equations; lia).
  set (ym := y + m / 12) in *.
  assert (Y : -1 <= ym <= 10007) by (unfold ym; lia).
  assert (D : -800000 <= DayFromYear ym <= 3000000).
  { unfold DayFromYear. Z.div_mod_to_equations. lia. }
  lia.
Qed.

Lemma TimeClip_local (LocalTZA day : Z) :
  Z.abs LocalTZA <= msPerDay -> -10000000 <= day <= 10000000 ->
  TimeClip (UTC LocalTZA (MakeDate day (MakeTime 0 0 0 0)))
  = Some (UTC LocalTZA (MakeDate day 0)).
Proof.
  intros Hz Hd. unfold TimeClip, UTC, MakeDate, MakeTime, msPerDay in *.
  replace (0 * 3600000 + 0 * 60000 + 0 * 1000 + 0) with 0 by reflexivity.
  destruct (Z.leb_spec (Z.abs (day * 86400000 + 0 - LocalTZA)) 8640000000000000);
    [reflexivity | lia].
Qed.

(** [new Date(year, month, date)] on such fields is never an Invalid
    Date: fields outside the calendar carry over. *)
Lemma newDate_some (LocalTZA y m d : Z) :
  Z.abs LocalTZA <= msPerDay ->
  0 <= y <= 9999 -> -1 <= m <= 98 -> 0 <= d <= 99 ->
  newDate LocalTZA y m d
  = Some (UTC LocalTZA
            (MakeDate (MakeDay (if (0 <=? y) && (y <=? 99) then 1900 + y else y) m d) 0)).
Proof.
  intros Hz Hy Hm Hd. unfold newDate.
  apply TimeClip_local; [assumption |].
  apply MakeDay_bounds; try assumption.
  destruct ((0 <=? y) && (y <=? 99)) eqn:E; [| lia].
  apply andb_true_iff in E. rewrite !Z.leb_le in E. lia.
Qed.

(** The getters read back the local day an instant was built from. *)
Lemma local_day_roundtrip (LocalTZA y m d : Z) :
  0 <= m <= 11 -> 1 <= d <= DaysInMonth y m ->
  let t := UTC LocalTZA (MakeDate (MakeDay y m d) 0) in
  getFullYear LocalTZA t = y /\ getMonth LocalTZA t = m /\ getDate LocalTZA t = d.
Proof.
  intros Hm Hd t. unfold getFullYear, getMonth, getDate, LocalTime, t, UTC.
  replace (MakeDate (MakeDay y m d) 0 - LocalTZA + LocalTZA)
    with (MakeDate (MakeDay y m d) 0) by lia.
  apply civil_roundtrip; try assumption. unfold msPerDay. lia.
Qed.

End JSDateFacts.


(* ================================================================== *)
(** ** Classification: day counts, expiry flag, progress *)

Module ClassifierFacts.
Import JSDate Storage Spec.

Lemma ceilDays_spec (timeDiff d : Z) :
  ceilDays timeDiff = d <-> (d - 1) * msPerDay < timeDiff <= d * msPerDay.
Proof.
  unfold ceilDays, msPerDay. split; intros H.
  - subst d. Z.div_mod_to_equations. lia.
  - Z.div_mod_to_equations. lia.
Qed.

Lemma ceilDays_neg_iff (timeDiff : Z) :
  ceilDays timeDiff < 0 <-> timeDiff <= - msPerDay.
Proof. unfold ceilDays, msPerDay. Z.div_mod_to_equations. lia. Qed.

Lemma ceilDays_nonpos_iff (timeDiff : Z) : ceilDays timeDiff <= 0 <-> timeDiff <= 0.
Proof. unfold ceilDays. Z.div_mod_to_equations. lia. Qed.

(** C1, as stated, fails: one millisecond after expiry the subscription
    is marked expired while its day count is 0, not negative. *)
Lemma expired_with_zero_days :
  let r := enrichSubscription 1 (subscriptionEnding 0) in
  ~ (sub_isExpired r = true <-> sub_daysUntilExpiry r < 0).
Proof.
  cbv zeta. intros [H _].
  assert (E : sub_isExpired (enrichSubscription 1 (subscriptionEnding 0)) = true)
    by reflexivity.
  apply H in E. vm_compute in E. discriminate.
Qed.

(** C1 (amended): for every expiry instant and evaluation instant, a
    record marked expired has a day count of at most 0, a record whose day
    count is strictly negative is marked expired, and the day count is
    strictly negative exactly when the evaluation instant is a full day or
    more past the expiry instant.  This holds for subscriptions and for
    certificates. *)
Theorem expired_vs_days (now : Z) (sub : SubscriptionRow) (cert : CertificateRow) :
  let s := enrichSubscription now sub in
  let c := enrichCertificate now cert in
  ((sub_isExpired s = true <-> endDate sub < now)
   /\ (sub_daysUntilExpiry s < 0 <-> endDate sub + msPerDay <= now)
   /\ (sub_isExpired s = true -> sub_daysUntilExpiry s <= 0)
   /\ (sub_daysUntilExpiry s < 0 -> sub_isExpired s = true))
  /\
  ((cert_isExpired c = true <-> expiryDate cert < now)
   /\ (cert_daysUntilExpiry c < 0 <-> expiryDate cert + msPerDay <= now)
   /\ (cert_isExpired c = true -> cert_daysUntilExpiry c <= 0)
   /\ (cert_daysUntilExpiry c < 0 -> cert_isExpired c = true)).
Proof.
  cbv zeta. unfold enrichSubscription, enrichCertificate, isExpired,
    calculateDaysUntilExpiry. cbn [sub_isExpired sub_daysUntilExpiry
    cert_isExpired cert_daysUntilExpiry].
  pose proof (ceilDays_neg_iff (endDate sub - now)) as N1.
  pose proof (ceilDays_nonpos_iff (endDate sub - now)) as P1.
  pose proof (ceilDays_neg_iff (expiryDate cert - now)) as N2.
  pose proof (ceilDays_nonpos_iff (expiryDate cert - now)) as P2.
  rewrite !Z.ltb_lt. unfold msPerDay in *. repeat split; intros; lia.
Qed.

(** The percentage before clamping falls as the day count grows. *)
Lemma scaled_antitone (d1 d2 : Z) :
  d1 <= d2 ->
  (inject_Z (totalDays - d2) / inject_Z totalDays * 100
   <= inject_Z (totalDays - d1) / inject_Z totalDays * 100)%Q.
Proof.
  intros H. unfold totalDays.
  assert (A : (inject_Z (365 - d2) <= inject_Z (365 - d1))%Q)
    by (rewrite <- Zle_Qle; lia).
  unfold Qdiv. change (/ inject_Z 365)%Q with (1 # 365)%Q. lra.
Qed.

Lemma clamp_monotone (a b : Q) :
  (a <= b)%Q -> (Qmax 0 (Qmin 100 a) <= Qmax 0 (Qmin 100 b))%Q.
Proof.
  intros H.
  destruct (Q.max_spec 0 (Qmin 100 a)) as [[? E1]|[? E1]],
           (Q.max_spec 0 (Qmin 100 b)) as [[? E2]|[? E2]],
           (Q.min_spec 100 a) as [[? E3]|[? E3]],
           (Q.min_spec 100 b) as [[? E4]|[? E4]]; lra.
Qed.

Lemma progressOf_antitone (d1 d2 : Z) :
  d1 <= d2 -> (progressOf d2 <= progressOf d1)%Q.
Proof. intros H. apply clamp_monotone, scaled_antitone, H. Qed.

Lemma progressOf_above (d : Z) : totalDays < d -> (progressOf d == 0)%Q.
Proof.
  intros H. unfold progressOf, totalDays in *.
  assert (A : (inject_Z (365 - d) <= inject_Z 0)%Q) by (rewrite <- Zle_Qle; lia).
  change (inject_Z 0) with 0%Q in A.
  unfold Qdiv. change (/ inject_Z 365)%Q with (1 # 365)%Q.
  destruct (Q.max_spec 0 (Qmin 100 (inject_Z (365 - d) * (1 # 365) * 100)))
    as [[? E1]|[? E1]],
    (Q.min_spec 100 (inject_Z (365 - d) * (1 # 365) * 100)) as [[? E3]|[? E3]]; lra.
Qed.

Lemma progressOf_below (d : Z) : d < 0 -> (progressOf d == 100)%Q.
Proof.
  intros H. unfold progressOf, totalDays in *.
  assert (A : (inject_Z 365 <= inject_Z (365 - d))%Q) by (rewrite <- Zle_Qle; lia).
  change (inject_Z 365) with (365 # 1)%Q in A.
  unfold Qdiv. change (/ inject_Z 365)%Q with (1 # 365)%Q.
  destruct (Q.max_spec 0 (Qmin 100 (inject_Z (365 - d) * (1 # 365) * 100)))
    as [[? E1]|[? E1]],
    (Q.min_spec 100 (inject_Z (365 - d) * (1 # 365) * 100)) as [[? E3]|[? E3]]; lra.
Qed.

Lemma progressOf_inside (d : Z) :
  0 <= d <= totalDays ->
  (progressOf d == inject_Z (totalDays - d) / inject_Z totalDays * 100)%Q.
Proof.
  intros H. unfold progressOf, totalDays in *.
  assert (A : (inject_Z 0 <= inject_Z (365 - d))%Q) by (rewrite <- Zle_Qle; lia).
  assert (B : (inject_Z (365 - d) <= inject_Z 365)%Q) by (rewrite <- Zle_Qle; lia).
  change (inject_Z 0) with 0%Q in A. change (inject_Z 365) with (365 # 1)%Q in B.
  unfold Qdiv. change (/ inject_Z 365)%Q with (1 # 365)%Q.
  destruct (Q.max_spec 0 (Qmin 100 (inject_Z (365 - d) * (1 # 365) * 100)))
    as [[? E1]|[? E1]],
    (Q.min_spec 100 (inject_Z (365 - d) * (1 # 365) * 100)) as [[? E3]|[? E3]]; lra.
Qed.

Lemma progressOf_strict (d1 d2 : Z) :
  0 <= d1 -> d1 < d2 -> d2 <= totalDays -> (progressOf d2 < progressOf d1)%Q.
Proof.
  intros L H U.
  rewrite (progressOf_inside d1), (progressOf_inside d2) by lia.
  unfold totalDays in *.
  assert (A : (inject_Z (365 - d2) < inject_Z (365 - d1))%Q)
    by (rewrite <- Zlt_Qlt; lia).
  unfold Qdiv. change (/ inject_Z 365)%Q with (1 # 365)%Q. lra.
Qed.

(** C4 at its failing inputs. The comment above the formula reads
    "0% = expired, 100% = just started", which is the direction the
    claim states: the percentage does not increase as the day count
    decreases. The formula under the comment runs the other way. A
    subscription that ends at the instant of enrichment (0 days left)
    gets 100 and one that ends 365 days later gets 0; for all day counts
    0 <= d1 < d2 <= [totalDays] the percentage at d1 is strictly above
    the percentage at d2, so the claim fails between every two distinct
    day counts of the range. Outside the range the value is the clamped
    one the claim gives: 0 above and 100 below. *)
Theorem progress_bar_runs_against_its_comment :
  (forall now sub,
      endDate sub = now ->
      sub_daysUntilExpiry (enrichSubscription now sub) = 0
      /\ (progressPercentage (enrichSubscription now sub) == 100)%Q)
  /\ (forall now sub,
        endDate sub = now + totalDays * msPerDay ->
        sub_daysUntilExpiry (enrichSubscription now sub) = totalDays
        /\ (progressPercentage (enrichSubscription now sub) == 0)%Q)
  /\ (forall d1 d2 : Z,
        0 <= d1 -> d1 < d2 -> d2 <= totalDays -> (progressOf d2 < progressOf d1)%Q)
  /\ (forall d : Z, totalDays < d -> (progressOf d == 0)%Q)
  /\ (forall d : Z, d < 0 -> (progressOf d == 100)%Q).
Proof.
  split; [| split; [| split; [exact progressOf_strict |
                              split; [exact progressOf_above | exact progressOf_below]]]].
  - intros now sub E. unfold enrichSubscription.
    cbn [sub_daysUntilExpiry progressPercentage]. rewrite E.
    replace (now - now) with 0 by lia. split; reflexivity.
  - intros now sub E. unfold enrichSubscription.
    cbn [sub_daysUntilExpiry progressPercentage]. rewrite E.
    replace (now + totalDays * msPerDay - now) with (totalDays * msPerDay) by lia.
    split; reflexivity.
Qed.

End ClassifierFacts.

(* ================================================================== *)
(** ** Reads of the two stores, and the client's own day count *)

Module StoreFacts.
Import JSDate Storage Spec.
Local Open Scope string_scope.
Local Open Scope Z_scope.

(** Every read of the SQL-backed store enriches the row at read time. *)
Lemma postgres_getCertificate_fresh (now : Z) (db : PostgreSQLStorage.database)
    (id : string) (c : Certificate) :
  PostgreSQLStorage.getCertificate now db id = Some c ->
  c = enrichCertificate now (cert_row c).
Proof.
  unfold PostgreSQLStorage.getCertificate.
  destruct (find _ _); cbn; intros E; inversion E; reflexivity.
Qed.

Lemma postgres_getCertificates_fresh
    (orderBy : list CertificateRow -> list CertificateRow) (sqlNow now : Z)
    (db : PostgreSQLStorage.database) (params : option SearchCertificatesParams) :
  Forall (fun c => c = enrichCertificate now (cert_row c))
         (PostgreSQLStorage.getCertificates orderBy sqlNow now db params).
Proof.
  unfold PostgreSQLStorage.getCertificates. apply Forall_forall.
  intros c H. apply in_map_iff in H. destruct H as (r & E & _).
  subst c. reflexivity.
Qed.

Lemma postgres_getSubscription_fresh (now : Z) (db : PostgreSQLStorage.database)
    (id : string) (s : Subscription) :
  PostgreSQLStorage.getSubscription now db id = Some s ->
  s = enrichSubscription now (sub_row s).
Proof.
  unfold PostgreSQLStorage.getSubscription.
  destruct (find _ _); cbn; intros E; inversion E; reflexivity.
Qed.

Lemma postgres_getSubscriptions_fresh (now : Z) (db : PostgreSQLStorage.database) :
  Forall (fun s => s = enrichSubscription now (sub_row s))
         (PostgreSQLStorage.getSubscriptions now db).
Proof.
  unfold PostgreSQLStorage.getSubscriptions. apply Forall_forall.
  intros s H. apply in_map_iff in H. destruct H as (r & E & _).
  subst s. reflexivity.
Qed.

(** C5 at its failing input: a certificate and a subscription created in
    the in-memory store on 2026-11-02, due one day later, and read two
    days after creation.  Every read (single, all, search) returns the
    fields computed at creation (not expired, 1 day left), while a
    recomputation at read time gives expired and -1. *)
Theorem in_memory_reads_are_stale :
  let created := nov2_2026 in
  let due := created + msPerDay in
  let readAt := created + 2 * msPerDay in
  let st1 := snd (InMemoryStorage.createCertificate created "c1"
                    (certificateExpiring due) InMemoryStorage.empty) in
  let st := snd (InMemoryStorage.createSubscription created "s1"
                   {| InMemoryStorage.ins_title := "t";
                      InMemoryStorage.ins_email := "e";
                      InMemoryStorage.ins_cardTitle := "c";
                      InMemoryStorage.ins_endDate := due;
                      InMemoryStorage.ins_amount := "1" |} st1) in
  let staleCert (c : Certificate) :=
    cert_isExpired c = false /\ cert_daysUntilExpiry c = 1
    /\ cert_isExpired (enrichCertificate readAt (cert_row c)) = true
    /\ cert_daysUntilExpiry (enrichCertificate readAt (cert_row c)) = -1 in
  let staleSub (s : Subscription) :=
    sub_isExpired s = false /\ sub_daysUntilExpiry s = 1
    /\ sub_isExpired (enrichSubscription readAt (sub_row s)) = true
    /\ sub_daysUntilExpiry (enrichSubscription readAt (sub_row s)) = -1 in
  (exists c, InMemoryStorage.getCertificate st "c1" = Some c /\ staleCert c)
  /\ (exists c, InMemoryStorage.getCertificates readAt st None = [c] /\ staleCert c)
  /\ (exists c, InMemoryStorage.searchCertificates readAt st "n" = [c] /\ staleCert c)
  /\ (exists s, InMemoryStorage.getSubscription st "s1" = Some s /\ staleSub s)
  /\ (exists s, InMemoryStorage.getSubscriptions st = [s] /\ staleSub s).
Proof.
  cbv zeta.
  repeat split; eexists; (split; [vm_compute; reflexivity |]);
    repeat split; vm_compute; reflexivity.
Qed.

(** What a read of the in-memory store returns does not depend on the
    instant of the read: it is the record enriched when it was created. *)
Lemma in_memory_get_after_create (created : Z) (uuid : string)
    (ins : InMemoryStorage.InsertCertificate) :
  let r := InMemoryStorage.createCertificate created uuid ins InMemoryStorage.empty in
  InMemoryStorage.getCertificate (snd r) uuid = Some (fst r)
  /\ cert_isExpired (fst r) = (InMemoryStorage.ins_expiryDate ins <? created)
  /\ cert_daysUntilExpiry (fst r)
     = ceilDays (InMemoryStorage.ins_expiryDate ins - created).
Proof.
  cbv zeta. unfold InMemoryStorage.getCertificate, InMemoryStorage.createCertificate.
  cbn. rewrite String.eqb_refl. repeat split.
Qed.

(** C6 at its failing input.  On the server the day count of an expiry
    instant later than now is the ceiling of the difference in days, so
    23.1 hours ahead counts as 1 day; the client helpers count whole days
    truncated toward zero and report 0 for the same instants. *)
Theorem client_day_count_truncates (now : Z) :
  (forall expiry d : Z, now < expiry ->
     (calculateDaysUntilExpiry now expiry = d
      <-> (d - 1) * msPerDay < expiry - now <= d * msPerDay))
  /\ calculateDaysUntilExpiry now (now + 83160000) = 1
  /\ sub_daysUntilExpiry (enrichSubscription now (subscriptionEnding (now + 83160000))) = 1
  /\ Client.daysRemaining (Client.getCertificateStatus now (now + 83160000)) = Some 0
  /\ Client.daysUntilExpiry (Client.SubscriptionCard now (now + 83160000)) = 0.
Proof.
  split.
  { intros expiry d _. apply ClassifierFacts.ceilDays_spec. }
  assert (D : forall k, now + k - now = k) by (intros; lia).
  unfold calculateDaysUntilExpiry, enrichSubscription, Client.getCertificateStatus,
    Client.SubscriptionCard, Client.isPast, Client.differenceInDays.
  cbn [sub_daysUntilExpiry endDate subscriptionEnding Client.daysUntilExpiry].
  rewrite !D.
  replace (now + 83160000 <? now) with false by (symmetry; apply Z.ltb_ge; lia).
  repeat split.
Qed.

End StoreFacts.

(* ================================================================== *)
(** ** Extraction: the loop over the pattern table and the score *)

Module ExtractorFacts.
Import JSDate JSString Regex DateExtractor Spec.
Local Open Scope string_scope.
Local Open Scope Z_scope.

(** The score of any pattern on any matched text: all 64 combinations of
    the six substring tests, each computed in binary64. *)
Lemma calculateConfidence_range (p : pattern) (matchedText : string) :
  let c := calculateConfidence p matchedText in
  PrimFloat.leb 0.5 c = true /\ PrimFloat.leb c 0.95 = true
  /\ PrimFloat.leb 0 c = true /\ PrimFloat.eqb c 0 = false.
Proof.
  unfold calculateConfidence.
  destruct (includes "expir" (source p)), (includes "valid" (source p)),
    (includes ":" (source p)), (includes "expiry date" (toLowerCase matchedText)),
    (includes "valid until" (toLowerCase matchedText)),
    (includes "expires" (toLowerCase matchedText));
    vm_compute; repeat split; reflexivity.
Qed.

(** A pattern whose source names [expir] scores 0.8 or more. *)
Lemma expir_confidence_floor (p : pattern) (matchedText : string) :
  includes "expir" (source p) = true ->
  PrimFloat.leb 0.8 (calculateConfidence p matchedText) = true.
Proof.
  intros H. unfold calculateConfidence. rewrite H.
  destruct (includes "valid" (source p)),
    (includes ":" (source p)), (includes "expiry date" (toLowerCase matchedText)),
    (includes "valid until" (toLowerCase matchedText)),
    (includes "expires" (toLowerCase matchedText));
    vm_compute; reflexivity.
Qed.

(** Every pattern of the table scores at least 0.5 + 0.2 + 0.1 as
    binary64 adds them, which is 0.7999999999999999. *)
Lemma table_confidence_floor (p : pattern) (matchedText : string) :
  In p datePatterns ->
  PrimFloat.leb 0.7999999999999999 (calculateConfidence p matchedText) = true.
Proof.
  intros H. unfold calculateConfidence.
  destruct (includes "expiry date" (toLowerCase matchedText)),
    (includes "valid until" (toLowerCase matchedText)),
    (includes "expires" (toLowerCase matchedText));
  repeat (destruct H as [<- | H]; [vm_compute; reflexivity |]); destruct H.
Qed.

Lemma table_source_bonuses (p : pattern) :
  In p datePatterns ->
  includes "expir" (source p) = true
  \/ (includes "valid" (source p) = true /\ includes ":" (source p) = true).
Proof.
  intros H.
  repeat (destruct H as [<- | H];
          [vm_compute; first [left; reflexivity | right; split; reflexivity] |]).
  destruct H.
Qed.

Section Host.
Variable LocalTZA : Z.
Variable legacyParse : string -> option Z.

(** The loop either runs out of patterns, none of which was accepted, or
    stops at an accepted pattern and returns its date and score. *)
Lemma extractLoop_cases (now : Z) (ps : list pattern) (cleanText : string) :
  let r := extractLoop LocalTZA legacyParse now ps cleanText in
  (r = {| date := None; confidence := 0 |}
   /\ Forall (fun p => accepts LocalTZA legacyParse now cleanText p = false) ps)
  \/ (exists p m d,
        In p ps /\ matchPattern p cleanText = Some m
        /\ parseDate LocalTZA legacyParse (group 1 m) = Some d
        /\ isValidExpiryDate now d = true
        /\ r = {| date := Some d; confidence := calculateConfidence p (matched m) |}).
Proof.
  induction ps as [| p ps IH]; cbn [extractLoop].
  - left. split; [reflexivity | constructor].
  - assert (Skip : accepts LocalTZA legacyParse now cleanText p = false ->
      (extractLoop LocalTZA legacyParse now ps cleanText
         = {| date := None; confidence := 0 |}
       /\ Forall (fun p => accepts LocalTZA legacyParse now cleanText p = false)
            (p :: ps))
      \/ (exists p0 m d,
            In p0 (p :: ps) /\ matchPattern p0 cleanText = Some m
            /\ parseDate LocalTZA legacyParse (group 1 m) = Some d
            /\ isValidExpiryDate now d = true
            /\ extractLoop LocalTZA legacyParse now ps cleanText
               = {| date := Some d;
                    confidence := calculateConfidence p0 (matched m) |})).
    { intros A. destruct IH as [[E F] | (p0 & m & d & I & M & P & V & E)].
      - left. split; [exact E | constructor; assumption].
      - right. exists p0, m, d. repeat split; try assumption. right. exact I. }
    unfold accepts in Skip.
    destruct (matchPattern p cleanText) as [m |] eqn:M; [| apply Skip; reflexivity].
    destruct (parseDate LocalTZA legacyParse (group 1 m)) as [d |] eqn:P;
      [| apply Skip; reflexivity].
    destruct (isValidExpiryDate now d) eqn:V; [| apply Skip; reflexivity].
    right. exists p, m, d. repeat split; try assumption. left. reflexivity.
Qed.

Lemma isValidExpiryDate_spec (now d : Z) :
  isValidExpiryDate now d = true <-> now - fiveYears <= d <= now + fiveYears.
Proof.
  unfold isValidExpiryDate. rewrite andb_true_iff, !Z.leb_le. tauto.
Qed.

(** C8: for every input text a date is returned only if it lies within
    five years (of 365 days) of the current instant, and when every date
    that a pattern matches and normalizes lies outside that window the
    extraction fails with an absent date. *)
Theorem extract_plausibility_window (now : Z) (text : string) :
  let r := extractExpiryDate LocalTZA legacyParse now text in
  (forall d, date r = Some d -> now - fiveYears <= d <= now + fiveYears)
  /\ ((forall p m d,
         In p datePatterns ->
         matchPattern p (trim (collapseSpaces text)) = Some m ->
         parseDate LocalTZA legacyParse (group 1 m) = Some d ->
         ~ (now - fiveYears <= d <= now + fiveYears)) ->
      r = {| date := None; confidence := 0 |}).
Proof.
  cbv zeta. unfold extractExpiryDate.
  destruct (extractLoop_cases now datePatterns (trim (collapseSpaces text)))
    as [[E F] | (p & m & d & I & M & P & V & E)]; rewrite E; cbn [date].
  - split; [discriminate | reflexivity].
  - split.
    + intros d' D. inversion D; subst d'. apply isValidExpiryDate_spec, V.
    + intros H. exfalso. apply (H p m d I M P). apply isValidExpiryDate_spec, V.
Qed.

(** C9: for every input text the confidence is 0 exactly when the date
    is absent, it lies in [0, 0.95], and when no pattern yields an
    accepted result the value returned is the absent date with
    confidence 0. *)
Theorem extraction_result_shape (now : Z) (text : string) :
  let r := extractExpiryDate LocalTZA legacyParse now text in
  (PrimFloat.eqb (confidence r) 0 = true <-> date r = None)
  /\ PrimFloat.leb 0 (confidence r) = true
  /\ PrimFloat.leb (confidence r) 0.95 = true
  /\ (Forall (fun p => accepts LocalTZA legacyParse now
                         (trim (collapseSpaces text)) p = false) datePatterns ->
      r = {| date := None; confidence := 0 |}).
Proof.
  cbv zeta. unfold extractExpiryDate.
  destruct (extractLoop_cases now datePatterns (trim (collapseSpaces text)))
    as [[E F] | (p & m & d & I & M & P & V & E)]; rewrite E; cbn [date confidence].
  - repeat split; reflexivity.
  - destruct (calculateConfidence_range p (matched m)) as (_ & U & L & N).
    repeat split; try assumption.
    + rewrite N. discriminate.
    + discriminate.
    + intros F. exfalso. rewrite Forall_forall in F. specialize (F p I).
      unfold accepts in F. rewrite M, P, V in F. discriminate.
Qed.

(** C10 (amended): every pattern of the table earns the [expir] source
    bonus or both the [valid] and colon source bonuses; a present date
    comes with a confidence of at least 0.7999999999999999, which is
    0.5 + 0.2 + 0.1 in binary64, so the confidence lies in
    {0} or [0.7999999999999999, 0.95]; a pattern whose source names
    [expir] scores at least 0.8. *)
Theorem confidence_floor_of_present_date (now : Z) (text : string) :
  let r := extractExpiryDate LocalTZA legacyParse now text in
  (forall p, In p datePatterns ->
     includes "expir" (source p) = true
     \/ (includes "valid" (source p) = true /\ includes ":" (source p) = true))
  /\ (date r <> None -> PrimFloat.leb 0.7999999999999999 (confidence r) = true)
  /\ (confidence r = 0%float
      \/ (PrimFloat.leb 0.7999999999999999 (confidence r) = true
          /\ PrimFloat.leb (confidence r) 0.95 = true))
  /\ (forall p matchedText, includes "expir" (source p) = true ->
        PrimFloat.leb 0.8 (calculateConfidence p matchedText) = true).
Proof.
  cbv zeta. unfold extractExpiryDate.
  split; [exact table_source_bonuses |].
  destruct (extractLoop_cases now datePatterns (trim (collapseSpaces text)))
    as [[E F] | (p & m & d & I & M & P & V & E)]; rewrite E; cbn [date confidence].
  - split; [intros H; exfalso; apply H; reflexivity |].
    split; [left; reflexivity | exact expir_confidence_floor].
  - pose proof (table_confidence_floor p (matched m) I) as L.
    destruct (calculateConfidence_range p (matched m)) as (_ & U & _ & _).
    split; [intros _; exact L |].
    split; [right; split; assumption | exact expir_confidence_floor].
Qed.

End Host.

(** C8 on a date ten years ahead in well-formed expiry text: read on
    2026-11-02, the text is matched and normalized by two patterns, both
    dates fall outside the window, and the result is absent. *)
Lemma extract_plausibility_window_witness :
  extractExpiryDate 0 noLegacy nov2_2026 "Expiry Date: 12/31/2036"
  = {| date := None; confidence := 0 |}.
Proof.
  apply (extract_plausibility_window 0 noLegacy nov2_2026 "Expiry Date: 12/31/2036").
  intros p m d I M P.
  repeat (destruct I as [<- | I];
          [vm_compute in M; first [discriminate M | inversion M; subst m];
           vm_compute in P; inversion P; subst d;
           vm_compute; intros [A B];
           solve [apply A; reflexivity | apply B; reflexivity] |]).
  destruct I.
Defined.

(** C9 on a text without any expiry label: no pattern is accepted and the
    result is the absent date with confidence 0. *)
Lemma extraction_result_shape_witness :
  extractExpiryDate 0 noLegacy nov2_2026 "no relevant content here"
  = {| date := None; confidence := 0 |}.
Proof.
  apply (extraction_result_shape 0 noLegacy nov2_2026 "no relevant content here").
  repeat (constructor; [vm_compute; reflexivity |]). constructor.
Defined.

(** C10, as stated, fails: read on 2026-11-02, the first labelled date
    (2015) is implausible, the fifth pattern then accepts
    [valid thru 12/31/2026], and its score 0.5 + 0.2 + 0.1 is
    0.7999999999999999 in binary64, below 0.8. *)
Lemma valid_thru_scores_below_080 :
  let r := extractExpiryDate 0 noLegacy nov2_2026
             "Valid 01/01/2015 valid thru 12/31/2026" in
  date r = Some (MakeDate (MakeDay 2026 11 31) 0)
  /\ confidence r = 0.7999999999999999%float
  /\ PrimFloat.leb 0.8 (confidence r) = false.
Proof. vm_compute. repeat split; reflexivity. Qed.

(** The amended C10 on the same text: the date is present and the
    confidence is at least 0.7999999999999999. *)
Lemma confidence_floor_of_present_date_witness :
  PrimFloat.leb 0.7999999999999999
    (confidence (extractExpiryDate 0 noLegacy nov2_2026
                   "Valid 01/01/2015 valid thru 12/31/2026")) = true.
Proof.
  apply (confidence_floor_of_present_date 0 noLegacy nov2_2026
           "Valid 01/01/2015 valid thru 12/31/2026").
  vm_compute. discriminate.
Defined.

End ExtractorFacts.

(* ================================================================== *)
(** ** Normalization of numeric date strings *)

Module NormalizerFacts.
Import JSDate JSString JSDateParse Regex Schema DateExtractor Spec JSDateFacts.
Local Open Scope string_scope.
Local Open Scope Z_scope.

Lemma digit_facts (x : ascii) :
  isDigit x = true ->
  0 <= digitValue x <= 9 /\ isSpace x = false
  /\ charsetMatch true (CRange "a" "z") x = false.
Proof.
  destruct x as [[] [] [] [] [] [] [] []]; vm_compute; intros H;
    first [discriminate H | repeat split; congruence].
Qed.

Lemma isSeparator_cases (x : ascii) :
  isSeparator x = true -> x = "/"%char \/ x = "-"%char.
Proof.
  destruct x as [[] [] [] [] [] [] [] []]; vm_compute; intros H;
    first [discriminate H | left; reflexivity | right; reflexivity].
Qed.

Section Fields.
Variable LocalTZA : Z.
Variable legacyParse : string -> option Z.
Hypothesis zone : Z.abs LocalTZA <= msPerDay.
Variables a b c d e f g h : ascii.
Hypothesis Ha : isDigit a = true.
Hypothesis Hb : isDigit b = true.
Hypothesis Hc : isDigit c = true.
Hypothesis Hd : isDigit d = true.
Hypothesis He : isDigit e = true.
Hypothesis Hf : isDigit f = true.
Hypothesis Hg : isDigit g = true.
Hypothesis Hh : isDigit h = true.

Ltac digits := rewrite ?Ha, ?Hb, ?Hc, ?Hd, ?He, ?Hf, ?Hg, ?Hh.
Ltac step := with_strategy opaque [isDigit isSpace] cbn; digits.

Lemma value_bounds :
  0 <= value2 a b <= 99 /\ 0 <= value2 c d <= 99 /\ 0 <= value4 e f g h <= 9999.
Proof.
  destruct (digit_facts a Ha) as (? & _), (digit_facts b Hb) as (? & _),
    (digit_facts c Hc) as (? & _), (digit_facts d Hd) as (? & _),
    (digit_facts e He) as (? & _), (digit_facts f Hf) as (? & _),
    (digit_facts g Hg) as (? & _), (digit_facts h Hh) as (? & _).
  unfold value2, value4. lia.
Qed.

Lemma trim_fields (s1 s2 : ascii) :
  trim (fields a b s1 c d s2 e f g h) = fields a b s1 c d s2 e f g h.
Proof.
  destruct (digit_facts a Ha) as (_ & Sa & _).
  destruct (digit_facts h Hh) as (_ & Sh & _).
  unfold trim, fields. cbn [trimStart]. rewrite Sa.
  with_strategy opaque [isSpace] cbn. rewrite Sh. reflexivity.
Qed.

Lemma formatNamed_fields (s1 s2 : ascii) :
  matchPattern formatNamed (fields a b s1 c d s2 e f g h) = None.
Proof.
  destruct (digit_facts a Ha) as (_ & _ & La).
  unfold matchPattern, exec, fields.
  with_strategy opaque [charsetMatch] cbn. rewrite La. reflexivity.
Qed.

Lemma formatSlashed_fields (s1 s2 : ascii) :
  isSeparator s1 = true -> isSeparator s2 = true ->
  matchPattern formatSlashed (fields a b s1 c d s2 e f g h)
  = Some {| index := 0; matched := fields a b s1 c d s2 e f g h;
            groups := [(3%nat, [e; f; g; h]); (2%nat, [c; d]); (1%nat, [a; b])] |}.
Proof.
  intros H1 H2.
  destruct (isSeparator_cases s1 H1), (isSeparator_cases s2 H2); subst;
    unfold matchPattern, exec, fields; repeat step; reflexivity.
Qed.

(** [parseDate] on two two-digit fields and a four-digit field: the
    first field is the month, the second the day, and the date is built
    by [new Date(year, month - 1, day)], never rejected. *)
Lemma parseDate_fields (s1 s2 : ascii) :
  isSeparator s1 = true -> isSeparator s2 = true ->
  parseDate LocalTZA legacyParse (fields a b s1 c d s2 e f g h)
  = Some (UTC LocalTZA
            (MakeDate
               (MakeDay (if (0 <=? value4 e f g h) && (value4 e f g h <=? 99)
                         then 1900 + value4 e f g h else value4 e f g h)
                        (value2 a b - 1) (value2 c d)) 0)).
Proof.
  intros H1 H2. destruct value_bounds as (Bm & Bd & By).
  unfold parseDate. rewrite trim_fields. unfold formats. cbn [parseLoop].
  rewrite formatNamed_fields, (formatSlashed_fields s1 s2 H1 H2).
  unfold parseWith.
  assert (I1 : includes "([a-z]+)" (source formatSlashed) = false)
    by (vm_compute; reflexivity).
  assert (I2 : includes "(\d{4})" (source formatSlashed)
               && match indexOf "(\d{4})" (source formatSlashed) with
                  | Some O => true
                  | _ => false
                  end = false) by (vm_compute; reflexivity).
  rewrite I1, I2.
  assert (Py : parseInt (group 3 {| index := 0; matched := fields a b s1 c d s2 e f g h;
            groups := [(3%nat, [e; f; g; h]); (2%nat, [c; d]); (1%nat, [a; b])] |}) = value4 e f g h).
  { unfold parseInt, group, value4.
    cbn [lookup groups Nat.eqb string_of_list_ascii list_ascii_of_string fold_left].
    lia. }
  assert (Pm : parseInt (group 1 {| index := 0; matched := fields a b s1 c d s2 e f g h;
            groups := [(3%nat, [e; f; g; h]); (2%nat, [c; d]); (1%nat, [a; b])] |}) = value2 a b).
  { unfold parseInt, group, value2.
    cbn [lookup groups Nat.eqb string_of_list_ascii list_ascii_of_string fold_left].
    lia. }
  assert (Pd : parseInt (group 2 {| index := 0; matched := fields a b s1 c d s2 e f g h;
            groups := [(3%nat, [e; f; g; h]); (2%nat, [c; d]); (1%nat, [a; b])] |}) = value2 c d).
  { unfold parseInt, group, value2.
    cbn [lookup groups Nat.eqb string_of_list_ascii list_ascii_of_string fold_left].
    lia. }
  rewrite Py, Pm, Pd.
  rewrite newDate_some by (try assumption; lia). reflexivity.
Qed.

Lemma re_dmY_slash :
  exec false re_dmY (fields a b "/" c d "/" e f g h)
  = Some {| index := 0; matched := fields a b "/" c d "/" e f g h;
            groups := [(3%nat, [e; f; g; h]); (2%nat, [c; d]); (1%nat, [a; b])] |}.
Proof. unfold exec, re_dmY, fields. repeat step. reflexivity. Qed.

Lemma re_dmY_dash : exec false re_dmY (fields a b "-" c d "-" e f g h) = None.
Proof. unfold exec, re_dmY, fields. repeat step. reflexivity. Qed.

Lemma re_dmYdash_dash :
  exec false re_dmYdash (fields a b "-" c d "-" e f g h)
  = Some {| index := 0; matched := fields a b "-" c d "-" e f g h;
            groups := [(3%nat, [e; f; g; h]); (2%nat, [c; d]); (1%nat, [a; b])] |}.
Proof. unfold exec, re_dmYdash, fields. repeat step. reflexivity. Qed.

(** The date-time string [toDate] assembles from the three captures is
    in the ECMAScript format and denotes local midnight of that day. *)
Lemma newDateOfString_iso :
  realDate (value4 e f g h) (value2 c d) (value2 a b) ->
  newDateOfString LocalTZA legacyParse
    (string_of_list_ascii [e; f; g; h] ++ "-" ++ string_of_list_ascii [c; d] ++ "-"
       ++ string_of_list_ascii [a; b] ++ "T00:00:00")
  = Some (UTC LocalTZA
            (MakeDate (MakeDay (value4 e f g h) (value2 c d - 1) (value2 a b)) 0)).
Proof.
  intros [Hmo Hday]. destruct value_bounds as (Bd & Bm & By).
  unfold newDateOfString, parseISO.
  cbn [string_of_list_ascii append list_ascii_of_string].
  unfold fourDigits, twoDigits. digits. cbn [andb].
  change (isDigit "0") with true. cbn [andb].
  fold (value4 e f g h). fold (value2 c d). fold (value2 a b).
  change (10 * digitValue "0" + digitValue "0") with 0.
  unfold isoFields.
  replace (1 <=? value2 c d) with true by (symmetry; apply Z.leb_le; lia).
  replace (value2 c d <=? 12) with true by (symmetry; apply Z.leb_le; lia).
  replace (1 <=? value2 a b) with true by (symmetry; apply Z.leb_le; lia).
  replace (value2 a b <=? DaysInMonth (value4 e f g h) (value2 c d - 1))
    with true by (symmetry; apply Z.leb_le; lia).
  cbn [andb orb negb Z.leb Z.eqb Z.compare].
  rewrite TimeClip_local; [reflexivity | assumption |].
  apply MakeDay_bounds; lia.
Qed.

(** [toDate] on a day/month/year string that names a day of the calendar. *)
Lemma toDate_fields (sep : ascii) :
  isSeparator sep = true ->
  realDate (value4 e f g h) (value2 c d) (value2 a b) ->
  toDate LocalTZA legacyParse (VString (fields a b sep c d sep e f g h))
  = Some (UTC LocalTZA
            (MakeDate (MakeDay (value4 e f g h) (value2 c d - 1) (value2 a b)) 0)).
Proof.
  intros Hs R. unfold toDate. rewrite trim_fields.
  destruct (isSeparator_cases sep Hs); subst sep.
  - rewrite re_dmY_slash. unfold tryLocalThenZ, group.
    cbn [lookup groups Nat.eqb].
    rewrite (newDateOfString_iso R). reflexivity.
  - rewrite re_dmY_dash, re_dmYdash_dash. unfold tryLocalThenZ, group.
    cbn [lookup groups Nat.eqb].
    rewrite (newDateOfString_iso R). reflexivity.
Qed.

End Fields.
Section Host.
Variable LocalTZA : Z.
Variable legacyParse : string -> option Z.
Hypothesis zone : Z.abs LocalTZA <= msPerDay.

(** C2 (amended): for a string of two digits, a separator, two digits,
    the same separator and four digits, [toDate] reads day/month/year
    and, when that is a day of the calendar, returns the instant with
    exactly that year, month and day; [parseDate], the normalizer of the
    extractor, reads the same string as month/day/year and returns that
    year, month and day when month/day/year is a day of the calendar and
    the year is 0100 or later. *)
Theorem numeric_layout_roundtrip (a b c d y1 y2 y3 y4 sep : ascii) :
  isDigit a = true -> isDigit b = true -> isDigit c = true -> isDigit d = true ->
  isDigit y1 = true -> isDigit y2 = true -> isDigit y3 = true -> isDigit y4 = true ->
  isSeparator sep = true ->
  let first := value2 a b in
  let second := value2 c d in
  let year := value4 y1 y2 y3 y4 in
  let text := fields a b sep c d sep y1 y2 y3 y4 in
  (realDate year second first ->
   exists t, toDate LocalTZA legacyParse (VString text) = Some t
             /\ isLocalDay LocalTZA t year second first)
  /\ (100 <= year -> realDate year first second ->
      exists t, parseDate LocalTZA legacyParse text = Some t
                /\ isLocalDay LocalTZA t year first second).
Proof.
  intros Ha Hb Hc Hd H1 H2 H3 H4 Hs first second year text. split.
  - intros R. eexists. split.
    + apply (toDate_fields LocalTZA legacyParse zone a b c d y1 y2 y3 y4
               Ha Hb Hc Hd H1 H2 H3 H4 sep Hs R).
    + destruct R as [Rm Rd]. apply local_day_roundtrip; [lia | assumption].
  - intros Y R. eexists. split.
    + apply (parseDate_fields LocalTZA legacyParse zone a b c d y1 y2 y3 y4
               Ha Hb Hc Hd H1 H2 H3 H4 sep sep Hs Hs).
    + fold year first second.
      replace ((0 <=? year) && (year <=? 99)) with false
        by (symmetry; apply andb_false_iff; right; apply Z.leb_gt; lia).
      destruct R as [Rm Rd]. apply local_day_roundtrip; [lia | assumption].
Qed.

Lemma extractLoop_skip (now : Z) (p : pattern) (ps : list pattern) (cleanText : string) :
  matchPattern p cleanText = None ->
  extractLoop LocalTZA legacyParse now (p :: ps) cleanText
  = extractLoop LocalTZA legacyParse now ps cleanText.
Proof. intros M. cbn [extractLoop]. rewrite M. reflexivity. Qed.

Lemma extractLoop_accept (now : Z) (p : pattern) (ps : list pattern)
    (cleanText : string) (m : matchResult) (t : Z) :
  matchPattern p cleanText = Some m ->
  parseDate LocalTZA legacyParse (group 1 m) = Some t ->
  isValidExpiryDate now t = true ->
  extractLoop LocalTZA legacyParse now (p :: ps) cleanText
  = {| date := Some t; confidence := calculateConfidence p (matched m) |}.
Proof. intros M P V. cbn [extractLoop]. rewrite M, P, V. reflexivity. Qed.

(** C7 (amended): when the current instant is within five years (of 365
    days) of local midnight of 2026-12-31, the exact input
    "Expiry Date: 12/31/2026" yields that date with confidence 0.95,
    which is at least 0.8. *)
Theorem labelled_slashed_date_extracted (now : Z) :
  let expected := UTC LocalTZA (MakeDate (MakeDay 2026 11 31) 0) in
  now - fiveYears <= expected <= now + fiveYears ->
  let r := extractExpiryDate LocalTZA legacyParse now "Expiry Date: 12/31/2026" in
  date r = Some expected /\ isLocalDay LocalTZA expected 2026 12 31
  /\ confidence r = 0.95%float /\ PrimFloat.leb 0.8 (confidence r) = true.
Proof.
  intros expected W r.
  assert (E : r = {| date := Some expected; confidence := 0.95%float |}).
  { unfold r, extractExpiryDate.
    replace (trim (collapseSpaces "Expiry Date: 12/31/2026"))
      with "Expiry Date: 12/31/2026" by (vm_compute; reflexivity).
    unfold datePatterns.
    rewrite extractLoop_skip by (vm_compute; reflexivity).
    rewrite (extractLoop_accept now _ _ _
               {| index := 0; matched := "Expiry Date: 12/31/2026";
                  groups := [(1%nat, list_ascii_of_string "12/31/2026")] |}
               expected).
    - f_equal; vm_compute; reflexivity.
    - vm_compute. reflexivity.
    - cbn [group lookup groups Nat.eqb string_of_list_ascii list_ascii_of_string].
      apply (parseDate_fields LocalTZA legacyParse zone "1" "2" "3" "1" "2" "0" "2" "6");
        reflexivity.
    - apply ExtractorFacts.isValidExpiryDate_spec. exact W. }
  rewrite E. cbn [date confidence].
  split; [reflexivity |]. split; [| split; reflexivity].
  apply local_day_roundtrip; [lia | vm_compute; split; discriminate].
Qed.

End Host.

(** C2, as stated, fails on the extractor's normalizer: "31/12/2026" is
    read month-first, month 31 carries into later years, and the result
    is 2028-07-12, not 2026-12-31. *)
Lemma parseDate_reads_month_first :
  parseDate 0 noLegacy "31/12/2026" = Some (MakeDate (MakeDay 2028 6 12) 0)
  /\ ~ (exists t, parseDate 0 noLegacy "31/12/2026" = Some t
                  /\ isLocalDay 0 t 2026 12 31).
Proof.
  split; [vm_compute; reflexivity |].
  intros (t & P & Y & _). vm_compute in P. inversion P; subst t.
  vm_compute in Y. discriminate Y.
Qed.

(** The amended C2 on "05/03/2026": [toDate] gives 5 March 2026 and
    [parseDate] gives 3 May 2026. *)
Lemma numeric_layout_roundtrip_witness :
  (exists t, toDate 0 noLegacy (VString "05/03/2026") = Some t
             /\ isLocalDay 0 t 2026 3 5)
  /\ (exists t, parseDate 0 noLegacy "05/03/2026" = Some t
                /\ isLocalDay 0 t 2026 5 3).
Proof.
  assert (Z0 : Z.abs 0 <= msPerDay) by (vm_compute; discriminate).
  destruct (numeric_layout_roundtrip 0 noLegacy Z0 "0" "5" "0" "3" "2" "0" "2" "6" "/"
              eq_refl eq_refl eq_refl eq_refl eq_refl eq_refl eq_refl eq_refl eq_refl)
    as [A B].
  split.
  - apply A. vm_compute. repeat split; discriminate.
  - apply B; [vm_compute; discriminate | vm_compute; repeat split; discriminate].
Defined.

(** C3 at its failing inputs: [parseDate] never rejects a numeric
    layout.  "31/02/2024" (month 31) becomes 2026-07-02 and "02/31/2024"
    (31 February) becomes 2024-03-02; with any digits in the fields the
    result is a date, not absent. *)
Theorem parseDate_rolls_forward (legacyParse : string -> option Z) :
  (parseDate 0 legacyParse "31/02/2024" = Some (MakeDate (MakeDay 2026 6 2) 0)
   /\ isLocalDay 0 (MakeDate (MakeDay 2026 6 2) 0) 2026 7 2)
  /\ (parseDate 0 legacyParse "02/31/2024" = Some (MakeDate (MakeDay 2024 2 2) 0)
      /\ isLocalDay 0 (MakeDate (MakeDay 2024 2 2) 0) 2024 3 2)
  /\ (forall LocalTZA a b c d y1 y2 y3 y4 s1 s2,
        Z.abs LocalTZA <= msPerDay ->
        isDigit a = true -> isDigit b = true -> isDigit c = true -> isDigit d = true ->
        isDigit y1 = true -> isDigit y2 = true -> isDigit y3 = true ->
        isDigit y4 = true -> isSeparator s1 = true -> isSeparator s2 = true ->
        parseDate LocalTZA legacyParse (fields a b s1 c d s2 y1 y2 y3 y4) <> None).
Proof.
  split; [split; vm_compute; repeat split; reflexivity |].
  split; [split; vm_compute; repeat split; reflexivity |].
  intros tz a b c d y1 y2 y3 y4 s1 s2 Hz Ha Hb Hc Hd H1 H2 H3 H4 S1 S2.
  rewrite (parseDate_fields tz legacyParse Hz a b c d y1 y2 y3 y4
             Ha Hb Hc Hd H1 H2 H3 H4 s1 s2 S1 S2).
  discriminate.
Qed.

(** A year-first string matches the third format, but the test
    [format.source.indexOf('(\d{4})') === 0] fails on a source that starts
    with [^], so the month-first branch reads it: "2026-12-31" becomes
    [new Date(31, 2025, 12)], which is 2099-10-12. *)
Lemma parseDate_year_first_branch (legacyParse : string -> option Z) :
  indexOf "(\d{4})" (source formatYearFirst) = Some 1%nat
  /\ parseDate 0 legacyParse "2026-12-31" = Some (MakeDate (MakeDay 2099 9 12) 0).
Proof. split; vm_compute; reflexivity. Qed.

(** C7, as stated, fails once the clock has moved on: read on
    2040-01-01 the same input yields an absent date. *)
Lemma labelled_date_absent_in_2040 :
  extractExpiryDate 0 noLegacy jan1_2040 "Expiry Date: 12/31/2026"
  = {| date := None; confidence := 0 |}.
Proof. vm_compute. reflexivity. Qed.

(** The amended C7 read on 2026-11-02 in a zone at UTC. *)
Lemma labelled_slashed_date_extracted_witness :
  date (extractExpiryDate 0 noLegacy nov2_2026 "Expiry Date: 12/31/2026")
  = Some (MakeDate (MakeDay 2026 11 31) 0)
  /\ PrimFloat.leb 0.8
       (confidence (extractExpiryDate 0 noLegacy nov2_2026 "Expiry Date: 12/31/2026"))
     = true.
Proof.
  assert (Z0 : Z.abs 0 <= msPerDay) by (vm_compute; discriminate).
  destruct (labelled_slashed_date_extracted 0 noLegacy Z0 nov2_2026) as (D & _ & _ & C).
  - vm_compute. split; discriminate.
  - split; [exact D | exact C].
Defined.

End NormalizerFacts.

(* ================================================================== *)
(** ** The stores: listing, statistics, create, update, delete *)

Module StoreOpsFacts.
Import JSDate Storage Spec.
Local Open Scope string_scope.
Local Open Scope Z_scope.

Section Sorting.
Variable A : Type.
Variable key : A -> Z.

Lemma insertBy_perm (x : A) (l : list A) : Permutation (x :: l) (insertBy key x l).
Proof.
  induction l as [| y l IH]; cbn [insertBy]; [reflexivity |].
  destruct (key y <=? key x); [| reflexivity].
  rewrite perm_swap. constructor. exact IH.
Qed.

Lemma insertBy_sorted (x : A) (l : list A) :
  StronglySorted (keyLe key) l -> StronglySorted (keyLe key) (insertBy key x l).
Proof.
  induction 1 as [| y l S IH F]; cbn [insertBy].
  - constructor; constructor.
  - destruct (Z.leb_spec (key y) (key x)) as [L | G].
    + constructor; [exact IH |].
      apply (Permutation_Forall (insertBy_perm x l)).
      constructor; [exact L | exact F].
    + constructor; [constructor; assumption |].
      constructor; [unfold keyLe; lia |].
      eapply Forall_impl; [| exact F]. unfold keyLe. intros; lia.
Qed.

Lemma fold_insertBy (l acc : list A) :
  Permutation (l ++ acc) (fold_left (fun acc x => insertBy key x acc) l acc)
  /\ (StronglySorted (keyLe key) acc ->
      StronglySorted (keyLe key) (fold_left (fun acc x => insertBy key x acc) l acc)).
Proof.
  revert acc. induction l as [| x l IH]; intros acc; cbn [fold_left app].
  - split; [reflexivity | trivial].
  - destruct (IH (insertBy key x acc)) as [P S]. split.
    + rewrite <- P. rewrite <- (insertBy_perm x acc).
      apply Permutation_middle.
    + intros H. apply S, insertBy_sorted, H.
Qed.

(** The model of a stable [sort] by a numeric key rearranges its input
    into ascending key order. *)
Lemma sortBy_spec (l : list A) :
  Permutation l (sortBy key l) /\ StronglySorted (keyLe key) (sortBy key l).
Proof.
  unfold sortBy. destruct (fold_insertBy l []) as [P S].
  rewrite app_nil_r in P. split; [exact P | apply S; constructor].
Qed.

End Sorting.

Lemma In_firstn {A : Type} (n : nat) (l : list A) (x : A) :
  In x (firstn n l) -> In x l.
Proof.
  intros H. rewrite <- (firstn_skipn n l). apply in_or_app. left. exact H.
Qed.

Lemma In_skipn {A : Type} (n : nat) (l : list A) (x : A) :
  In x (skipn n l) -> In x l.
Proof.
  intros H. rewrite <- (firstn_skipn n l). apply in_or_app. right. exact H.
Qed.

Lemma StronglySorted_firstn {A : Type} (R : A -> A -> Prop) (n : nat) (l : list A) :
  StronglySorted R l -> StronglySorted R (firstn n l).
Proof.
  intros S. revert n. induction S as [| x l S IH F]; intros [| n]; cbn [firstn];
    try constructor.
  - apply IH.
  - apply Forall_forall. intros y Hy. rewrite Forall_forall in F.
    apply F. eapply In_firstn, Hy.
Qed.

Lemma StronglySorted_skipn {A : Type} (R : A -> A -> Prop) (n : nat) (l : list A) :
  StronglySorted R l -> StronglySorted R (skipn n l).
Proof.
  intros S. revert n. induction S as [| x l S IH F]; intros [| n]; cbn [skipn];
    try constructor; try assumption.
  apply IH.
Qed.

(** X1: what [InMemoryStorage.getCertificates] lists, for every store
    whose certificates all carry a valid expiry date (a time value, as
    the records of this model do; the store also accepts an Invalid
    Date, which this theorem does not cover), every clock and all
    parameters: the result is in ascending order of expiry date; every
    listed certificate is a stored one; with parameters, every listed
    certificate passes the status filter evaluated on its expiry date at
    the clock of the call and the result is no longer than the limit;
    without parameters the result is a rearrangement of all the stored
    certificates. *)
Theorem in_memory_listing (now : Z) (st : InMemoryStorage.store)
    (params : option SearchCertificatesParams) :
  let r := InMemoryStorage.getCertificates now st params in
  StronglySorted (fun a b => expiryDate (cert_row a) <= expiryDate (cert_row b)) r
  /\ (forall c, In c r -> In c (InMemoryStorage.items st))
  /\ (forall p c, params = Some p -> In c r ->
        PostgreSQLStorage.statusClause now (status p) (cert_row c) = true)
  /\ (forall p, params = Some p -> (List.length r <= limit p)%nat)
  /\ (params = None -> Permutation (InMemoryStorage.items st) r).
Proof.
  cbv zeta. unfold InMemoryStorage.getCertificates.
  set (expiry := fun c : Certificate => expiryDate (cert_row c)).
  destruct params as [p |].
  - set (filtered := match status p with
                     | All => InMemoryStorage.items st
                     | Valid => _ | Expiring => _ | Expired => _ end).
    destruct (sortBy_spec Certificate expiry filtered) as [P S].
    assert (Fin : forall c, In c filtered ->
              In c (InMemoryStorage.items st)
              /\ PostgreSQLStorage.statusClause now (status p) (cert_row c) = true).
    { intros c. unfold filtered, PostgreSQLStorage.statusClause.
      destruct (status p); [intros H; split; [exact H | reflexivity] | | |];
        rewrite filter_In; intros [H1 H2]; (split; [exact H1 | exact H2]). }
    assert (Sub : forall c,
              In c (firstn (limit p) (skipn (offset p) (sortBy expiry filtered))) ->
              In c filtered).
    { intros c H. apply In_firstn, In_skipn in H.
      apply (Permutation_in c (Permutation_sym P)), H. }
    split; [apply StronglySorted_firstn, StronglySorted_skipn, S |].
    split; [intros c H; apply Fin, Sub, H |].
    split; [intros p' c E H; inversion E; subst p'; apply Fin, Sub, H |].
    split; [intros p' E; inversion E; subst p'; apply firstn_le_length | discriminate].
  - destruct (sortBy_spec Certificate expiry (InMemoryStorage.items st)) as [P S].
    split; [exact S |].
    split; [intros c H; apply (Permutation_in c (Permutation_sym P)), H |].
    split; [discriminate |]. split; [discriminate | intros _; exact P].
Qed.

(** Three tests of which exactly one holds of every element split a list
    into three parts. *)
Lemma three_way_count {A : Type} (p1 p2 p3 : A -> bool) (l : list A) :
  (forall x, (p1 x = true /\ p2 x = false /\ p3 x = false)
             \/ (p1 x = false /\ p2 x = true /\ p3 x = false)
             \/ (p1 x = false /\ p2 x = false /\ p3 x = true)) ->
  List.length l
  = (List.length (filter p1 l) + List.length (filter p2 l)
     + List.length (filter p3 l))%nat.
Proof.
  intros H. induction l as [| x l IH]; [reflexivity |].
  cbn [filter List.length].
  destruct (H x) as [(E1 & E2 & E3) | [(E1 & E2 & E3) | (E1 & E2 & E3)]];
    rewrite E1, E2, E3; cbn [List.length]; lia.
Qed.

Lemma buckets_partition (now e : Z) :
  ((now + thirtyDays <? e) = true
   /\ ((now <=? e) && (e <=? now + thirtyDays)) = false /\ (e <? now) = false)
  \/ ((now + thirtyDays <? e) = false
      /\ ((now <=? e) && (e <=? now + thirtyDays)) = true /\ (e <? now) = false)
  \/ ((now + thirtyDays <? e) = false
      /\ ((now <=? e) && (e <=? now + thirtyDays)) = false /\ (e <? now) = true).
Proof.
  unfold thirtyDays.
  destruct (Z.ltb_spec (now + 30 * 24 * 3600 * 1000) e), (Z.leb_spec now e),
    (Z.leb_spec e (now + 30 * 24 * 3600 * 1000)), (Z.ltb_spec e now);
    cbn [andb]; try lia; auto.
Qed.

(** X2: in both stores and for both kinds of record the three buckets
    of the statistics partition the records whose dates are valid dates:
    total = valid + expiring + expired. A row of the SQL tables always
    holds a valid date; a record of the in-memory store that holds an
    Invalid Date would fall in no bucket and is not covered. *)
Theorem stats_partition (now : Z) (st : InMemoryStorage.store)
    (db : PostgreSQLStorage.database) :
  let sums (s : Stats) := total s = (valid s + expiring s + expired s)%nat in
  sums (InMemoryStorage.getCertificateStats now st)
  /\ sums (InMemoryStorage.getSubscriptionStats now st)
  /\ sums (PostgreSQLStorage.getCertificateStats now db)
  /\ sums (PostgreSQLStorage.getSubscriptionStats now db).
Proof.
  cbv zeta.
  unfold InMemoryStorage.getCertificateStats, InMemoryStorage.getSubscriptionStats,
    PostgreSQLStorage.getCertificateStats, PostgreSQLStorage.getSubscriptionStats,
    PostgreSQLStorage.statusClause.
  cbn [total valid expiring expired].
  repeat split; apply three_way_count; intros x; apply buckets_partition.
Qed.



Lemma find_app_fresh {A : Type} (p : A -> bool) (l : list A) (x : A) :
  find p (l ++ [x]) = match find p l with
                      | Some y => Some y
                      | None => if p x then Some x else None
                      end.
Proof.
  induction l as [| y l IH]; cbn [find app]; [reflexivity |].
  destruct (p y); [reflexivity | exact IH].
Qed.

(** X4: [InMemoryStorage.createCertificate] under an identifier that is
    not in the store: the returned certificate is what the identifier
    then looks up, it is the enrichment of its own row at the clock of
    the call, its expiry date is the one of the upload, every other
    lookup is unchanged and the subscriptions are untouched. *)
Theorem in_memory_create_then_get (now : Z) (uuid : string)
    (ins : InMemoryStorage.InsertCertificate) (st : InMemoryStorage.store) :
  InMemoryStorage.getCertificate st uuid = None ->
  let r := InMemoryStorage.createCertificate now uuid ins st in
  InMemoryStorage.getCertificate (snd r) uuid = Some (fst r)
  /\ fst r = enrichCertificate now (cert_row (fst r))
  /\ expiryDate (cert_row (fst r)) = InMemoryStorage.ins_expiryDate ins
  /\ (forall id, id <> uuid ->
        InMemoryStorage.getCertificate (snd r) id = InMemoryStorage.getCertificate st id)
  /\ InMemoryStorage.subscriptionItems (snd r) = InMemoryStorage.subscriptionItems st.
Proof.
  unfold InMemoryStorage.getCertificate, InMemoryStorage.createCertificate.
  intros N. cbn [fst snd InMemoryStorage.items InMemoryStorage.subscriptionItems].
  split; [| split; [reflexivity | split; [reflexivity | split; [| reflexivity]]]].
  - rewrite find_app_fresh, N. cbn [cert_row enrichCertificate cert_id].
    rewrite String.eqb_refl. reflexivity.
  - intros id D. clear N. rewrite find_app_fresh.
    destruct (find _ (InMemoryStorage.items st)); [reflexivity |].
    cbn [cert_row enrichCertificate cert_id].
    destruct (String.eqb_spec uuid id); [congruence | reflexivity].
Qed.

Lemma in_memory_create_then_get_witness :
  let r := InMemoryStorage.createCertificate 0 "a" (sampleInsert 5)
             InMemoryStorage.empty in
  InMemoryStorage.getCertificate (snd r) "a" = Some (fst r).
Proof.
  apply (in_memory_create_then_get 0 "a" (sampleInsert 5) InMemoryStorage.empty).
  reflexivity.
Defined.

Lemma filter_length_lt {A : Type} (p : A -> bool) (l : list A) :
  Nat.ltb (List.length (filter p l)) (List.length l) = true
  <-> exists x, In x l /\ p x = false.
Proof.
  rewrite Nat.ltb_lt. induction l as [| x l IH]; cbn [filter List.length In].
  - split; [lia | intros (x & [] & _)].
  - pose proof (filter_length_le p l) as L. destruct (p x) eqn:E; cbn [List.length].
    + rewrite <- Nat.succ_lt_mono, IH. split.
      * intros (y & I & F). exists y. split; [right; exact I | exact F].
      * intros (y & [-> | I] & F); [congruence | exists y; split; assumption].
    + split; [intros _; exists x; split; [left; reflexivity | exact E] | lia].
Qed.

Lemma find_none_iff {A : Type} (p : A -> bool) (l : list A) :
  find p l = None <-> forall x, In x l -> p x = false.
Proof.
  split; [apply find_none |].
  induction l as [| x l IH]; intros H; cbn [find]; [reflexivity |].
  rewrite (H x (or_introl eq_refl)). apply IH. intros y I. apply H. right. exact I.
Qed.

Lemma find_filter_other {A : Type} (p q : A -> bool) (l : list A) :
  (forall x, p x = true -> q x = true) ->
  find p (filter q l) = find p l.
Proof.
  intros H. induction l as [| x l IH]; cbn [find filter]; [reflexivity |].
  destruct (q x) eqn:Q; cbn [find].
  - destruct (p x); [reflexivity | exact IH].
  - destruct (p x) eqn:P; [rewrite (H x P) in Q; discriminate | exact IH].
Qed.

(** X5: [InMemoryStorage.deleteCertificate] answers true exactly when a
    certificate with the identifier was stored; afterwards no certificate
    has that identifier, every other lookup is unchanged and the
    subscriptions are untouched. *)
Theorem in_memory_delete (id : string) (st : InMemoryStorage.store) :
  let r := InMemoryStorage.deleteCertificate id st in
  (fst r = true <-> InMemoryStorage.getCertificate st id <> None)
  /\ InMemoryStorage.getCertificate (snd r) id = None
  /\ (forall id', id' <> id ->
        InMemoryStorage.getCertificate (snd r) id'
        = InMemoryStorage.getCertificate st id')
  /\ InMemoryStorage.subscriptionItems (snd r) = InMemoryStorage.subscriptionItems st.
Proof.
  unfold InMemoryStorage.deleteCertificate, InMemoryStorage.getCertificate.
  cbn [fst snd InMemoryStorage.items InMemoryStorage.subscriptionItems].
  split; [| split; [| split; [| reflexivity]]].
  - rewrite filter_length_lt. split.
    + intros (x & I & F) N. rewrite find_none_iff in N. specialize (N x I).
      rewrite N in F. discriminate.
    + intros N. destruct (find _ (InMemoryStorage.items st)) as [x |] eqn:E;
        [| congruence].
      apply find_some in E. destruct E as [I E]. exists x. split; [exact I |].
      rewrite E. reflexivity.
  - apply find_none_iff. intros x I. apply filter_In in I. destruct I as [_ I].
    destruct (String.eqb (cert_id (cert_row x)) id); [discriminate | reflexivity].
  - intros id' D. apply find_filter_other. intros x P.
    apply String.eqb_eq in P.
    destruct (String.eqb_spec (cert_id (cert_row x)) id); [congruence | reflexivity].
Qed.

Section FindIndex.
Variable A : Type.
Variable p : A -> bool.

Lemma findIndex_find (l : list A) :
  match InMemoryStorage.findIndex p l with
  | None => find p l = None
  | Some i => exists x, nth_error l i = Some x /\ find p l = Some x /\ p x = true
  end.
Proof.
  induction l as [| y l IH]; cbn [InMemoryStorage.findIndex find]; [reflexivity |].
  destruct (p y) eqn:E; [exists y; repeat split; assumption |].
  destruct (InMemoryStorage.findIndex p l) as [i |]; cbn [option_map]; [| exact IH].
  destruct IH as (x & N & F & P). exists x. repeat split; assumption.
Qed.

Lemma find_setNth_same (l : list A) (i : nat) (v : A) :
  InMemoryStorage.findIndex p l = Some i -> p v = true -> find p (InMemoryStorage.setNth i v l) = Some v.
Proof.
  revert i. induction l as [| y l IH]; intros i; cbn [InMemoryStorage.findIndex]; [discriminate |].
  destruct (p y) eqn:E.
  - intros H V. inversion H; subst i. cbn [InMemoryStorage.setNth find]. rewrite V. reflexivity.
  - destruct (InMemoryStorage.findIndex p l) as [j |]; cbn [option_map]; [| discriminate].
    intros H V. inversion H; subst i. cbn [InMemoryStorage.setNth find]. rewrite E.
    apply IH; [reflexivity | exact V].
Qed.

Lemma find_setNth_other (q : A -> bool) (l : list A) (i : nat) (x v : A) :
  nth_error l i = Some x -> q x = false -> q v = false ->
  find q (InMemoryStorage.setNth i v l) = find q l.
Proof.
  revert i. induction l as [| y l IH]; intros [| i]; cbn [nth_error InMemoryStorage.setNth find];
    try discriminate.
  - intros H X V. inversion H; subst y. rewrite X, V. reflexivity.
  - intros H X V. destruct (q y); [reflexivity | apply (IH i H X V)].
Qed.

Lemma setNth_length (l : list A) (i : nat) (v : A) :
  List.length (InMemoryStorage.setNth i v l) = List.length l.
Proof.
  revert i. induction l as [| y l IH]; intros [| i]; cbn [InMemoryStorage.setNth List.length];
    try reflexivity.
  rewrite IH. reflexivity.
Qed.

End FindIndex.

(** X6: [InMemoryStorage.updateCertificate] on an identifier that is not
    stored returns undefined and leaves the store as it was; on a stored
    one it returns the stored row merged with the updates and enriched at
    the clock of the call, that record is what the identifier then looks
    up, its id and uploadedAt are those of the old record, the number of
    stored certificates is unchanged and every other lookup is
    unchanged. *)
Theorem in_memory_update (now : Z) (id : string)
    (updates : InMemoryStorage.UpdateCertificate) (st : InMemoryStorage.store) :
  let r := InMemoryStorage.updateCertificate now id updates st in
  match InMemoryStorage.getCertificate st id with
  | None => r = (None, st)
  | Some old =>
      let updated :=
        enrichCertificate now (InMemoryStorage.mergeCertificate (cert_row old) updates) in
      fst r = Some updated
      /\ InMemoryStorage.getCertificate (snd r) id = Some updated
      /\ cert_id (cert_row updated) = id
      /\ uploadedAt (cert_row updated) = uploadedAt (cert_row old)
      /\ List.length (InMemoryStorage.items (snd r))
         = List.length (InMemoryStorage.items st)
      /\ (forall id', id' <> id ->
            InMemoryStorage.getCertificate (snd r) id'
            = InMemoryStorage.getCertificate st id')
  end.
Proof.
  cbv zeta. unfold InMemoryStorage.updateCertificate, InMemoryStorage.getCertificate.
  pose proof (findIndex_find Certificate
                (fun i => String.eqb (cert_id (cert_row i)) id)
                (InMemoryStorage.items st)) as F.
  destruct (InMemoryStorage.findIndex _ (InMemoryStorage.items st)) as [i |] eqn:E.
  - destruct F as (x & N & F & P). rewrite F, N.
    cbn [fst snd InMemoryStorage.items].
    apply String.eqb_eq in P.
    assert (Pu : String.eqb (cert_id (cert_row (enrichCertificate now
                   (InMemoryStorage.mergeCertificate (cert_row x) updates)))) id = true)
      by (cbn; apply String.eqb_eq; exact P).
    split; [reflexivity |].
    split; [apply (find_setNth_same _ _ _ i _ E Pu) |].
    split; [exact P |]. split; [reflexivity |].
    split; [apply setNth_length |].
    intros id' D.
    apply (find_setNth_other Certificate _ _ i x); [exact N | |].
    + destruct (String.eqb_spec (cert_id (cert_row x)) id'); [congruence | reflexivity].
    + cbn. destruct (String.eqb_spec (cert_id (cert_row x)) id');
        [congruence | reflexivity].
  - rewrite F. reflexivity.
Qed.

End StoreOpsFacts.

(* ================================================================== *)
(** ** The client's own classification *)

Module ClientFacts.
Import JSDate Storage Spec.
Local Open Scope Z_scope.

Lemma differenceInDays_future (now e : Z) :
  now <= e -> Client.differenceInDays e now = (e - now) / msPerDay.
Proof.
  intros H. unfold Client.differenceInDays.
  apply Z.quot_div_nonneg; [lia | reflexivity].
Qed.

Lemma differenceInDays_past (now e : Z) :
  e <= now -> Client.differenceInDays e now = - ((now - e) / msPerDay).
Proof.
  intros H. unfold Client.differenceInDays.
  replace (e - now) with (- (now - e)) by lia.
  rewrite Z.quot_opp_l by (unfold msPerDay; lia).
  rewrite Z.quot_div_nonneg; [reflexivity | lia | reflexivity].
Qed.


(** X8: the server's day count ([Math.ceil]) against the client's
    ([differenceInDays]), in a zone with a fixed offset from UTC (no
    daylight-saving change between now and the expiry): they are equal
    when the expiry is not after now and when the distance is a whole
    number of days; for every other future expiry the server's count is
    the client's plus one. *)
Theorem server_and_client_day_counts (now e : Z) :
  let server := calculateDaysUntilExpiry now e in
  let client := Client.differenceInDays e now in
  (e <= now -> server = client)
  /\ (now < e -> (e - now) mod msPerDay = 0 -> server = client)
  /\ (now < e -> (e - now) mod msPerDay <> 0 -> server = client + 1).
Proof.
  cbv zeta. unfold calculateDaysUntilExpiry, ceilDays.
  change (1000 * 3600 * 24) with msPerDay.
  repeat split; intros.
  - rewrite differenceInDays_past by lia. f_equal. f_equal. lia.
  - rewrite differenceInDays_future by lia.
    unfold msPerDay in *. Z.div_mod_to_equations. lia.
  - rewrite differenceInDays_future by lia.
    unfold msPerDay in *. Z.div_mod_to_equations. lia.
Qed.

Lemma floorDays_neg_iff (now e : Z) : Client.floorDays now e < 0 <-> e < now.
Proof. unfold Client.floorDays. Z.div_mod_to_equations. lia. Qed.

(** X9: the order of the subscriptions page, with the clock read once
    for the sort: the sorted list is a rearrangement of the fetched one,
    ascending in the floor of the days from now to the end date, and no
    subscription that has not ended comes before one that ended before
    now. *)
Theorem subscriptions_page_order (now : Z) (subs : list Subscription) :
  let sorted := Client.sortedSubscriptions now subs in
  Permutation subs sorted
  /\ StronglySorted
       (fun a b => Client.floorDays now (endDate (sub_row a))
                   <= Client.floorDays now (endDate (sub_row b))) sorted
  /\ (forall l1 a l2 b l3,
        sorted = l1 ++ a :: l2 ++ b :: l3 ->
        endDate (sub_row b) < now -> endDate (sub_row a) < now).
Proof.
  cbv zeta. unfold Client.sortedSubscriptions.
  destruct (StoreOpsFacts.sortBy_spec Subscription
              (fun s => Client.floorDays now (endDate (sub_row s))) subs) as [P S].
  split; [exact P |]. split; [exact S |].
  intros l1 a l2 b l3 E B. rewrite E in S.
  assert (L : Client.floorDays now (endDate (sub_row a))
              <= Client.floorDays now (endDate (sub_row b))).
  { clear - S. induction l1 as [| x l1 IH]; cbn [app] in S.
    - inversion S as [| ? ? _ F]; subst. rewrite Forall_forall in F.
      apply F. apply in_or_app. right. left. reflexivity.
    - inversion S; subst. apply IH. assumption. }
  apply floorDays_neg_iff. apply floorDays_neg_iff in B. lia.
Qed.

Lemma quot_small_cases (d : Z) :
  0 <= d < 15 ->
  d = 0 \/ d = 1 \/ d = 2 \/ d = 3 \/ d = 4 \/ d = 5 \/ d = 6 \/ d = 7 \/ d = 8
  \/ d = 9 \/ d = 10 \/ d = 11 \/ d = 12 \/ d = 13 \/ d = 14.
Proof. lia. Qed.

(** X10: the countdown bar of a certificate card, in a zone with a
    fixed offset from UTC (no daylight-saving change between now and the
    expiry). For an expired certificate the remaining percentage is 0,
    daysRemaining is 0 and it is not marked as expiring soon. For an
    expiry less than 15 days (of 24 hours) after now, daysRemaining is
    the number of whole days left, the percentage (computed in binary64)
    is in [0, 100), and the card is marked as expiring soon
    (percentage <= 40) exactly when fewer than 7 days are left. *)
Theorem certificate_card_countdown (now e : Z) :
  let c := Client.CertificateCard now e in
  (e < now ->
   Client.remainingPercent c = 0%float /\ Client.card_isExpiringSoon c = false
   /\ Client.card_daysRemaining c = 0)
  /\ (now <= e < now + 15 * msPerDay ->
      Client.card_daysRemaining c = (e - now) / msPerDay
      /\ PrimFloat.leb 0 (Client.remainingPercent c) = true
      /\ PrimFloat.ltb (Client.remainingPercent c) 100 = true
      /\ (Client.card_isExpiringSoon c = true <-> e < now + 7 * msPerDay)).
Proof.
  cbv zeta. unfold Client.CertificateCard, Client.isPast. split.
  - intros P. replace (e <? now) with true by (symmetry; apply Z.ltb_lt; lia).
    cbn [Client.remainingPercent Client.card_isExpiringSoon Client.card_daysRemaining
         negb andb].
    rewrite differenceInDays_past by lia.
    assert (Q : 0 <= (now - e) / msPerDay) by (apply Z.div_pos; unfold msPerDay; lia).
    repeat split. lia.
  - intros [L U]. replace (e <? now) with false by (symmetry; apply Z.ltb_ge; lia).
    cbn [Client.remainingPercent Client.card_isExpiringSoon Client.card_daysRemaining
         negb andb].
    rewrite differenceInDays_future by lia.
    assert (R : 0 <= (e - now) / msPerDay < 15)
      by (unfold msPerDay in *; Z.div_mod_to_equations; lia).
    rewrite Z.max_r by lia.
    assert (T : forall k, (e - now) / msPerDay <= k <-> e < now + (k + 1) * msPerDay)
      by (intros k; unfold msPerDay; Z.div_mod_to_equations; nia).
    specialize (T 6). change ((6 + 1) * msPerDay) with (7 * msPerDay) in T.
    rewrite <- T. split; [reflexivity |].
    destruct (quot_small_cases _ R) as
      [E|[E|[E|[E|[E|[E|[E|[E|[E|[E|[E|[E|[E|[E|E]]]]]]]]]]]]]];
      rewrite E; vm_compute; repeat split; intros; congruence.
Qed.

End ClientFacts.

(* ================================================================== *)
(** ** The extractor: values of the score, year-first strings, layout *)

Module ExtractorMoreFacts.
Import JSDate JSString JSDateParse Regex DateExtractor Spec JSDateFacts.
Local Open Scope string_scope.
Local Open Scope Z_scope.

Lemma table_scores (p : pattern) (matchedText : string) :
  In p datePatterns -> scoreValues (calculateConfidence p matchedText).
Proof.
  intros H. unfold calculateConfidence, scoreValues.
  destruct (includes "expiry date" (toLowerCase matchedText)),
    (includes "valid until" (toLowerCase matchedText)),
    (includes "expires" (toLowerCase matchedText));
  repeat (destruct H as [<- | H];
          [vm_compute;
           first [left; reflexivity | right; left; reflexivity | right; right; reflexivity]
          |]); destruct H.
Qed.

Lemma labelled_scores (p : pattern) (matchedText : string) :
  In p (firstn 3 datePatterns) -> calculateConfidence p matchedText = 0.95%float.
Proof.
  intros H. unfold calculateConfidence.
  destruct (includes "expiry date" (toLowerCase matchedText)),
    (includes "valid until" (toLowerCase matchedText)),
    (includes "expires" (toLowerCase matchedText));
  cbn [firstn datePatterns] in H;
  repeat (destruct H as [<- | H]; [vm_compute; reflexivity |]); destruct H.
Qed.

(** X11: the confidence [extractExpiryDate] returns takes one of four
    values: 0 (no date), 0.7999999999999999, 0.8 or 0.95; and the first
    three patterns of the table score 0.95 whatever text they matched. *)
Theorem confidence_has_four_values (LocalTZA : Z) (legacyParse : string -> option Z)
    (now : Z) (text : string) :
  let c := confidence (extractExpiryDate LocalTZA legacyParse now text) in
  (c = 0%float \/ c = 0.7999999999999999%float \/ c = 0.8%float \/ c = 0.95%float)
  /\ (forall p matchedText,
        In p (firstn 3 datePatterns) -> calculateConfidence p matchedText = 0.95%float).
Proof.
  cbv zeta. split; [| exact labelled_scores].
  unfold extractExpiryDate.
  destruct (ExtractorFacts.extractLoop_cases LocalTZA legacyParse now datePatterns
              (trim (collapseSpaces text)))
    as [[E _] | (p & m & d & I & _ & _ & _ & E)]; rewrite E; cbn [confidence].
  - left. reflexivity.
  - right. apply table_scores, I.
Qed.

Lemma digit_more_facts (x : ascii) :
  isDigit x = true ->
  0 <= digitValue x <= 9 /\ isSpace x = false
  /\ charsetMatch true (CRange "a" "z") x = false
  /\ Ascii.eqb "/" x = false /\ Ascii.eqb "-" x = false
  /\ Ascii.eqb " " x = false /\ Ascii.eqb ":" x = false.
Proof.
  destruct x as [[] [] [] [] [] [] [] []]; vm_compute; intros H;
    first [discriminate H | repeat split; congruence].
Qed.

Lemma MakeDay_bounds_wide (y m d : Z) :
  0 <= y <= 9999 -> -1 <= m <= 9999 -> 0 <= d <= 99 ->
  -10000000 <= MakeDay y m d <= 10000000.
Proof.
  intros Hy Hm Hd. unfold MakeDay.
  pose proof (daysBeforeMonth_bounds (isLeapYear (y + m / 12)) (m mod 12)) as B.
  assert (M : 0 <= m mod 12 <= 11) by (pose proof (Z.mod_pos_bound m 12); lia).
  specialize (B M).
  assert (Q : -1 <= m / 12 <= 833) by (Z.div_mod_to_equations; lia).
  set (ym := y + m / 12) in *.
  assert (Y : -1 <= ym <= 10832) by (unfold ym; lia).
  assert (D : -800000 <= DayFromYear ym <= 4000000).
  { unfold DayFromYear. Z.div_mod_to_equations. lia. }
  lia.
Qed.

Section YearFirst.
Variable LocalTZA : Z.
Variable legacyParse : string -> option Z.
Hypothesis zone : Z.abs LocalTZA <= msPerDay.
Variables y1 y2 y3 y4 m1 m2 d1 d2 : ascii.
Hypothesis Hy1 : isDigit y1 = true.
Hypothesis Hy2 : isDigit y2 = true.
Hypothesis Hy3 : isDigit y3 = true.
Hypothesis Hy4 : isDigit y4 = true.
Hypothesis Hm1 : isDigit m1 = true.
Hypothesis Hm2 : isDigit m2 = true.
Hypothesis Hd1 : isDigit d1 = true.
Hypothesis Hd2 : isDigit d2 = true.

Ltac facts :=
  destruct (digit_more_facts y1 Hy1) as (? & ? & ? & ? & ? & ? & ?),
    (digit_more_facts y2 Hy2) as (? & ? & ? & ? & ? & ? & ?),
    (digit_more_facts y3 Hy3) as (? & ? & ? & ? & ? & ? & ?),
    (digit_more_facts y4 Hy4) as (? & ? & ? & ? & ? & ? & ?),
    (digit_more_facts m1 Hm1) as (? & ? & ? & ? & ? & ? & ?),
    (digit_more_facts m2 Hm2) as (? & ? & ? & ? & ? & ? & ?),
    (digit_more_facts d1 Hd1) as (? & ? & ? & ? & ? & ? & ?),
    (digit_more_facts d2 Hd2) as (? & ? & ? & ? & ? & ? & ?).

Ltac known :=
  repeat match goal with
         | H : _ = true |- _ => rewrite H
         | H : _ = false |- _ => rewrite H
         end.

Ltac run :=
  repeat (with_strategy opaque [isDigit isSpace Ascii.eqb charsetMatch] cbn;
          cbn [charsetMatch]; known; rewrite ?Ascii.eqb_refl;
          change (Ascii.eqb "/" "-") with false;
          change (Ascii.eqb "-" "/") with false; cbn [orb andb]).

Lemma yearFirst_named (s1 s2 : ascii) :
  matchPattern formatNamed (fieldsYearFirst y1 y2 y3 y4 s1 m1 m2 s2 d1 d2) = None.
Proof.
  facts. unfold matchPattern, exec, fieldsYearFirst.
  with_strategy opaque [charsetMatch] cbn. known. reflexivity.
Qed.

Lemma yearFirst_slashed (s1 s2 : ascii) :
  matchPattern formatSlashed (fieldsYearFirst y1 y2 y3 y4 s1 m1 m2 s2 d1 d2) = None.
Proof.
  facts. unfold matchPattern, exec, fieldsYearFirst, formatSlashed.
  cbn [re ignoreCase]. run. reflexivity.
Qed.

Lemma yearFirst_match (s1 s2 : ascii) :
  isSeparator s1 = true -> isSeparator s2 = true ->
  matchPattern formatYearFirst (fieldsYearFirst y1 y2 y3 y4 s1 m1 m2 s2 d1 d2)
  = Some {| index := 0;
            matched := fieldsYearFirst y1 y2 y3 y4 s1 m1 m2 s2 d1 d2;
            groups := [(3%nat, [d1; d2]); (2%nat, [m1; m2]);
                       (1%nat, [y1; y2; y3; y4])] |}.
Proof.
  intros S1 S2.
  destruct (NormalizerFacts.isSeparator_cases s1 S1),
    (NormalizerFacts.isSeparator_cases s2 S2); subst;
    unfold matchPattern, exec, fieldsYearFirst, formatYearFirst;
    cbn [re ignoreCase]; clear S1 S2; run; reflexivity.
Qed.

Lemma yearFirst_trim (s1 s2 : ascii) :
  trim (fieldsYearFirst y1 y2 y3 y4 s1 m1 m2 s2 d1 d2)
  = fieldsYearFirst y1 y2 y3 y4 s1 m1 m2 s2 d1 d2.
Proof.
  facts. unfold trim, fieldsYearFirst. cbn [trimStart]. known.
  with_strategy opaque [isSpace] cbn. known. reflexivity.
Qed.

(** X12: a year-first string (four digits, a separator, two digits, a
    separator, two digits) is not read year-first by [parseDate]. The
    test [format.source.indexOf('(\d{4})') === 0] is false for all three
    formats (the source of the third starts with [^]), so the
    month/day/year branch destructures the match: the result is
    [new Date(DD, YYYY - 1, MM)], which is never invalid and, DD being
    below 100, lies in year 1900 + DD carried forward by YYYY - 1
    months. *)
Theorem year_first_is_read_month_first (s1 s2 : ascii) :
  isSeparator s1 = true -> isSeparator s2 = true ->
  let year := value4 y1 y2 y3 y4 in
  let month := value2 m1 m2 in
  let day := value2 d1 d2 in
  Forall (fun f => includes "(\d{4})" (source f)
                   && match indexOf "(\d{4})" (source f) with
                      | Some O => true
                      | _ => false
                      end = false) formats
  /\ parseDate LocalTZA legacyParse (fieldsYearFirst y1 y2 y3 y4 s1 m1 m2 s2 d1 d2)
     = newDate LocalTZA day (year - 1) month
  /\ newDate LocalTZA day (year - 1) month
     = Some (UTC LocalTZA (MakeDate (MakeDay (1900 + day) (year - 1) month) 0)).
Proof.
  intros S1 S2 year month day.
  assert (B : 0 <= year <= 9999 /\ 0 <= month <= 99 /\ 0 <= day <= 99).
  { facts. unfold year, month, day, value2, value4. lia. }
  destruct B as (By & Bm & Bd).
  assert (N : newDate LocalTZA day (year - 1) month
              = Some (UTC LocalTZA
                        (MakeDate (MakeDay (1900 + day) (year - 1) month) 0))).
  { unfold newDate.
    replace ((0 <=? day) && (day <=? 99)) with true
      by (symmetry; apply andb_true_iff; rewrite !Z.leb_le; lia).
    apply TimeClip_local; [exact zone |].
    apply MakeDay_bounds_wide; lia. }
  split; [repeat constructor |]. split; [| exact N].
  unfold parseDate. rewrite yearFirst_trim. unfold formats. cbn [parseLoop].
  rewrite yearFirst_named, yearFirst_slashed, (yearFirst_match s1 s2 S1 S2).
  unfold parseWith.
  assert (I1 : includes "([a-z]+)" (source formatYearFirst) = false)
    by (vm_compute; reflexivity).
  assert (I2 : includes "(\d{4})" (source formatYearFirst)
               && match indexOf "(\d{4})" (source formatYearFirst) with
                  | Some O => true
                  | _ => false
                  end = false) by (vm_compute; reflexivity).
  rewrite I1, I2.
  set (m := {| index := 0; matched := _; groups := _ |}).
  assert (P3 : parseInt (group 3 m) = day).
  { unfold parseInt, group, m, day, value2.
    cbn [lookup groups Nat.eqb string_of_list_ascii list_ascii_of_string fold_left].
    lia. }
  assert (P1 : parseInt (group 1 m) = year).
  { unfold parseInt, group, m, year, value4.
    cbn [lookup groups Nat.eqb string_of_list_ascii list_ascii_of_string fold_left].
    lia. }
  assert (P2 : parseInt (group 2 m) = month).
  { unfold parseInt, group, m, month, value2.
    cbn [lookup groups Nat.eqb string_of_list_ascii list_ascii_of_string fold_left].
    lia. }
  rewrite P1, P2, P3, N. reflexivity.
Qed.

End YearFirst.

Lemma year_first_is_read_month_first_witness :
  parseDate 0 noLegacy "2026-12-31" = newDate 0 31 (2026 - 1) 12.
Proof.
  refine (proj1 (proj2 (year_first_is_read_month_first 0 noLegacy _
                          "2" "0" "2" "6" "1" "2" "3" "1" _ _ _ _ _ _ _ _
                          "-" "-" _ _)));
    first [reflexivity | vm_compute; discriminate].
Defined.

Lemma collapse_run (inRun : bool) (w b : string) :
  onlySpaces w = true -> w <> "" ->
  collapseFrom inRun (w ++ b)
  = ((if inRun then "" else " ") ++ collapseFrom true b)%string.
Proof.
  revert inRun. induction w as [| c w IH]; intros inRun S N; [congruence |].
  cbn [onlySpaces] in S. apply andb_true_iff in S. destruct S as [C S].
  cbn [append collapseFrom]. rewrite C.
  destruct w as [| c' w].
  - cbn [append]. destruct inRun; reflexivity.
  - rewrite (IH true S) by discriminate. destruct inRun; reflexivity.
Qed.

Lemma collapse_inner_run (inRun : bool) (a w1 w2 b : string) :
  onlySpaces w1 = true -> w1 <> "" -> onlySpaces w2 = true -> w2 <> "" ->
  collapseFrom inRun (a ++ w1 ++ b) = collapseFrom inRun (a ++ w2 ++ b).
Proof.
  intros S1 N1 S2 N2. revert inRun.
  induction a as [| c a IH]; intros inRun; cbn [append].
  - rewrite !collapse_run by assumption. reflexivity.
  - cbn [collapseFrom]. destruct (isSpace c); [destruct inRun |]; rewrite IH;
      reflexivity.
Qed.

(** X13: on a text of ASCII characters, [extractExpiryDate] does not
    depend on how long a run of ASCII white space (TAB, LF, VT, FF, CR,
    SP) is or which of these characters it is made of: replacing one
    non-empty run of them in the text by another non-empty run leaves
    the result unchanged. White space outside ASCII, which [\s] and
    [trim()] also know, is not covered. *)
Theorem extraction_ignores_run_length (LocalTZA : Z)
    (legacyParse : string -> option Z) (now : Z) (a w1 w2 b : string) :
  asciiText a = true -> asciiText b = true ->
  onlySpaces w1 = true -> w1 <> "" -> onlySpaces w2 = true -> w2 <> "" ->
  asciiText (a ++ w1 ++ b) = true /\ asciiText (a ++ w2 ++ b) = true
  /\ extractExpiryDate LocalTZA legacyParse now (a ++ w1 ++ b)
     = extractExpiryDate LocalTZA legacyParse now (a ++ w2 ++ b).
Proof.
  intros A B S1 N1 S2 N2.
  assert (Sp : forall w, onlySpaces w = true -> asciiText w = true).
  { induction w as [| c w IH]; cbn [onlySpaces asciiText]; [reflexivity |].
    intros H. apply andb_true_iff in H. destruct H as [C W].
    rewrite (IH W), andb_true_r. revert C.
    destruct c as [[] [] [] [] [] [] [] []]; vm_compute; congruence. }
  assert (Cat : forall x y, asciiText x = true -> asciiText y = true ->
                  asciiText (x ++ y) = true).
  { induction x as [| c x IH]; cbn [append asciiText]; [trivial |].
    intros y H Y. apply andb_true_iff in H. destruct H as [C X].
    rewrite C, (IH y X Y). reflexivity. }
  split; [apply Cat, Cat; auto |]. split; [apply Cat, Cat; auto |].
  unfold extractExpiryDate, collapseSpaces.
  rewrite (collapse_inner_run false a w1 w2 b S1 N1 S2 N2). reflexivity.
Qed.

Lemma extraction_ignores_run_length_witness :
  asciiText ("Expiry Date:" ++ " " ++ "12/31/2026") = true
  /\ asciiText ("Expiry Date:" ++ "   " ++ "12/31/2026") = true
  /\ extractExpiryDate 0 noLegacy nov2_2026 ("Expiry Date:" ++ " " ++ "12/31/2026")
     = extractExpiryDate 0 noLegacy nov2_2026
         ("Expiry Date:" ++ "   " ++ "12/31/2026").
Proof.
  apply (extraction_ignores_run_length 0 noLegacy nov2_2026
           "Expiry Date:" " " "   " "12/31/2026");
    first [reflexivity | discriminate].
Defined.

End ExtractorMoreFacts.

(* ================================================================== *)
(** ** [toDate] on the year-first layouts *)

Module SchemaFacts.
Import JSDate JSString JSDateParse Regex Schema Spec JSDateFacts.
Local Open Scope string_scope.
Local Open Scope Z_scope.

Lemma digit_schema_facts (x : ascii) :
  isDigit x = true ->
  0 <= digitValue x <= 9 /\ isSpace x = false
  /\ Ascii.eqb "/" x = false /\ Ascii.eqb "-" x = false
  /\ Ascii.eqb x " " = false.
Proof.
  destruct x as [[] [] [] [] [] [] [] []]; vm_compute; intros H;
    first [discriminate H | repeat split; congruence].
Qed.

Lemma TimeClip_local_time (LocalTZA day time : Z) :
  Z.abs LocalTZA <= msPerDay -> -10000000 <= day <= 10000000 ->
  0 <= time < msPerDay ->
  TimeClip (UTC LocalTZA (MakeDate day time)) = Some (UTC LocalTZA (MakeDate day time)).
Proof.
  intros Hz Hd Ht. unfold TimeClip, UTC, MakeDate, msPerDay in *.
  destruct (Z.leb_spec (Z.abs (day * 86400000 + time - LocalTZA)) 8640000000000000);
    [reflexivity | lia].
Qed.

Section DateOnlyText.
Variable LocalTZA : Z.
Variable legacyParse : string -> option Z.
Hypothesis zone : Z.abs LocalTZA <= msPerDay.
Variables y1 y2 y3 y4 m1 m2 d1 d2 : ascii.
Hypothesis Hy1 : isDigit y1 = true.
Hypothesis Hy2 : isDigit y2 = true.
Hypothesis Hy3 : isDigit y3 = true.
Hypothesis Hy4 : isDigit y4 = true.
Hypothesis Hm1 : isDigit m1 = true.
Hypothesis Hm2 : isDigit m2 = true.
Hypothesis Hd1 : isDigit d1 = true.
Hypothesis Hd2 : isDigit d2 = true.

Lemma dateText_route :
  trim (fieldsYearFirst y1 y2 y3 y4 "-" m1 m2 "-" d1 d2)
  = fieldsYearFirst y1 y2 y3 y4 "-" m1 m2 "-" d1 d2
  /\ exec false re_dmY (fieldsYearFirst y1 y2 y3 y4 "-" m1 m2 "-" d1 d2) = None
  /\ exec false re_dmYdash (fieldsYearFirst y1 y2 y3 y4 "-" m1 m2 "-" d1 d2) = None
  /\ test re_dateOnly (fieldsYearFirst y1 y2 y3 y4 "-" m1 m2 "-" d1 d2) = true.
Proof.
  destruct (digit_schema_facts y1 Hy1) as (? & ? & ? & ? & ?),
    (digit_schema_facts y2 Hy2) as (? & ? & ? & ? & ?),
    (digit_schema_facts y3 Hy3) as (? & ? & ? & ? & ?),
    (digit_schema_facts y4 Hy4) as (? & ? & ? & ? & ?),
    (digit_schema_facts m1 Hm1) as (? & ? & ? & ? & ?),
    (digit_schema_facts m2 Hm2) as (? & ? & ? & ? & ?),
    (digit_schema_facts d1 Hd1) as (? & ? & ? & ? & ?),
    (digit_schema_facts d2 Hd2) as (? & ? & ? & ? & ?).
  unfold trim, test, exec, fieldsYearFirst, re_dmY, re_dmYdash, re_dateOnly.
  repeat split;
    repeat (with_strategy opaque [isDigit isSpace Ascii.eqb] cbn;
            repeat match goal with
                   | H : _ = true |- _ => rewrite H
                   | H : _ = false |- _ => rewrite H
                   end;
            rewrite ?Ascii.eqb_refl; cbn [orb andb negb]);
    reflexivity.
Qed.

(** [toDate] completes a date-only string with [T00:00:00], which the
    host reads as local time. *)
Lemma toDate_dateOnly :
  realDate (value4 y1 y2 y3 y4) (value2 m1 m2) (value2 d1 d2) ->
  toDate LocalTZA legacyParse
    (VString (fieldsYearFirst y1 y2 y3 y4 "-" m1 m2 "-" d1 d2))
  = Some (UTC LocalTZA
            (MakeDate (MakeDay (value4 y1 y2 y3 y4) (value2 m1 m2 - 1)
                         (value2 d1 d2)) 0)).
Proof.
  intros R. destruct dateText_route as (T & A & B & C).
  unfold toDate. rewrite T, A, B, C. unfold tryLocalThenZ.
  pose proof (NormalizerFacts.newDateOfString_iso LocalTZA legacyParse zone
                d1 d2 m1 m2 y1 y2 y3 y4 Hd1 Hd2 Hm1 Hm2 Hy1 Hy2 Hy3 Hy4 R) as P.
  unfold fieldsYearFirst. cbn [append].
  cbn [string_of_list_ascii append] in P. rewrite P. reflexivity.
Qed.

End DateOnlyText.

Section IsoText.
Variable LocalTZA : Z.
Variable legacyParse : string -> option Z.
Hypothesis zone : Z.abs LocalTZA <= msPerDay.
Variables y1 y2 y3 y4 m1 m2 d1 d2 h1 h2 n1 n2 s1 s2 : ascii.
Hypothesis Hy1 : isDigit y1 = true.
Hypothesis Hy2 : isDigit y2 = true.
Hypothesis Hy3 : isDigit y3 = true.
Hypothesis Hy4 : isDigit y4 = true.
Hypothesis Hm1 : isDigit m1 = true.
Hypothesis Hm2 : isDigit m2 = true.
Hypothesis Hd1 : isDigit d1 = true.
Hypothesis Hd2 : isDigit d2 = true.
Hypothesis Hh1 : isDigit h1 = true.
Hypothesis Hh2 : isDigit h2 = true.
Hypothesis Hn1 : isDigit n1 = true.
Hypothesis Hn2 : isDigit n2 = true.
Hypothesis Hs1 : isDigit s1 = true.
Hypothesis Hs2 : isDigit s2 = true.

Ltac facts :=
  destruct (digit_schema_facts y1 Hy1) as (? & ? & ? & ? & ?),
    (digit_schema_facts y2 Hy2) as (? & ? & ? & ? & ?),
    (digit_schema_facts y3 Hy3) as (? & ? & ? & ? & ?),
    (digit_schema_facts y4 Hy4) as (? & ? & ? & ? & ?),
    (digit_schema_facts m1 Hm1) as (? & ? & ? & ? & ?),
    (digit_schema_facts m2 Hm2) as (? & ? & ? & ? & ?),
    (digit_schema_facts d1 Hd1) as (? & ? & ? & ? & ?),
    (digit_schema_facts d2 Hd2) as (? & ? & ? & ? & ?),
    (digit_schema_facts h1 Hh1) as (? & ? & ? & ? & ?),
    (digit_schema_facts h2 Hh2) as (? & ? & ? & ? & ?),
    (digit_schema_facts n1 Hn1) as (? & ? & ? & ? & ?),
    (digit_schema_facts n2 Hn2) as (? & ? & ? & ? & ?),
    (digit_schema_facts s1 Hs1) as (? & ? & ? & ? & ?),
    (digit_schema_facts s2 Hs2) as (? & ? & ? & ? & ?).

Ltac known :=
  repeat match goal with
         | H : _ = true |- _ => rewrite H
         | H : _ = false |- _ => rewrite H
         end.

Ltac run :=
  repeat (with_strategy opaque [isDigit isSpace Ascii.eqb] cbn;
          known; rewrite ?Ascii.eqb_refl; cbn [orb andb negb]).

Let dateText := fieldsYearFirst y1 y2 y3 y4 "-" m1 m2 "-" d1 d2.
Let timeText := dateTimeText y1 y2 y3 y4 m1 m2 d1 d2 h1 h2 n1 n2 s1 s2.

Lemma timeText_route :
  trim timeText = timeText
  /\ exec false re_dmY timeText = None
  /\ exec false re_dmYdash timeText = None
  /\ test re_dateOnly timeText = false
  /\ test re_dateTime timeText = true
  /\ replaceFirstSpace timeText
     = (dateText ++ String "T" (String h1 (String h2 (String ":" (String n1
          (String n2 (String ":" (String s1 (String s2 EmptyString)))))))))%string.
Proof.
  facts. unfold timeText, dateText, dateTimeText, trim, test, exec, fieldsYearFirst,
    re_dmY, re_dmYdash, re_dateOnly, re_dateTime.
  repeat split; run; reflexivity.
Qed.

Let year := value4 y1 y2 y3 y4.
Let month := value2 m1 m2.
Let day := value2 d1 d2.
Let hour := value2 h1 h2.
Let minute := value2 n1 n2.
Let second := value2 s1 s2.

Lemma field_ranges :
  0 <= year <= 9999 /\ 0 <= month <= 99 /\ 0 <= day <= 99
  /\ 0 <= hour <= 99 /\ 0 <= minute <= 99 /\ 0 <= second <= 99.
Proof.
  facts. unfold year, month, day, hour, minute, second, value2, value4. lia.
Qed.

Lemma parseISO_dateTime :
  realDate year month day -> hour <= 23 -> minute <= 59 -> second <= 59 ->
  newDateOfString LocalTZA legacyParse
    (dateText ++ String "T" (String h1 (String h2 (String ":" (String n1
       (String n2 (String ":" (String s1 (String s2 EmptyString)))))))))
  = Some (UTC LocalTZA
            (MakeDate (MakeDay year (month - 1) day) (MakeTime hour minute second 0))).
Proof.
  intros [Rm Rd] Bh Bn Bs. destruct field_ranges as (By & _ & Bd & Ph & Pn & Ps).
  unfold newDateOfString, parseISO, dateText, fieldsYearFirst.
  cbn [append list_ascii_of_string].
  unfold fourDigits, twoDigits.
  rewrite Hy1, Hy2, Hy3, Hy4, Hm1, Hm2, Hd1, Hd2, Hh1, Hh2, Hn1, Hn2, Hs1, Hs2.
  cbn [andb].
  fold (value4 y1 y2 y3 y4) (value2 m1 m2) (value2 d1 d2) (value2 h1 h2)
       (value2 n1 n2) (value2 s1 s2).
  fold year month day hour minute second.
  unfold isoFields.
  replace (1 <=? month) with true by (symmetry; apply Z.leb_le; lia).
  replace (month <=? 12) with true by (symmetry; apply Z.leb_le; lia).
  replace (1 <=? day) with true by (symmetry; apply Z.leb_le; lia).
  replace (day <=? DaysInMonth year (month - 1))
    with true by (symmetry; apply Z.leb_le; lia).
  replace (hour <=? 24) with true by (symmetry; apply Z.leb_le; lia).
  replace (minute <=? 59) with true by (symmetry; apply Z.leb_le; lia).
  replace (second <=? 59) with true by (symmetry; apply Z.leb_le; lia).
  replace (hour =? 24) with false by (symmetry; apply Z.eqb_neq; lia).
  cbn [andb orb negb].
  rewrite TimeClip_local_time;
    [reflexivity | exact zone | apply MakeDay_bounds; lia |].
  unfold MakeTime, msPerDay. lia.
Qed.

(** X14: [toDate] on the year-first layouts. For digits that name a
    real calendar date, [YYYY-MM-DD] becomes local midnight of that date
    (the string is completed with [T00:00:00], hence local, not UTC), and
    [YYYY-MM-DD hh:mm:ss] with hh <= 23, mm <= 59 and ss <= 59 becomes
    that local date at that local hour. *)
Theorem toDate_year_first_layouts :
  realDate year month day ->
  (exists t, toDate LocalTZA legacyParse (VString dateText) = Some t
             /\ t = UTC LocalTZA (MakeDate (MakeDay year (month - 1) day) 0)
             /\ isLocalDay LocalTZA t year month day
             /\ getHours LocalTZA t = 0)
  /\ (hour <= 23 -> minute <= 59 -> second <= 59 ->
      exists t, toDate LocalTZA legacyParse (VString timeText) = Some t
                /\ t = UTC LocalTZA
                         (MakeDate (MakeDay year (month - 1) day)
                                   (MakeTime hour minute second 0))
                /\ isLocalDay LocalTZA t year month day
                /\ getHours LocalTZA t = hour).
Proof.
  intros R. destruct field_ranges as (By & _ & Bd & Ph & Pn & Ps).
  assert (Fields : forall time, 0 <= time < msPerDay ->
            let t := UTC LocalTZA (MakeDate (MakeDay year (month - 1) day) time) in
            isLocalDay LocalTZA t year month day
            /\ TimeWithinDay (LocalTime LocalTZA t) = time).
  { intros time Ht t. destruct R as [Rm Rd].
    unfold isLocalDay, getFullYear, getMonth, getDate, LocalTime, t, UTC.
    replace (MakeDate (MakeDay year (month - 1) day) time - LocalTZA + LocalTZA)
      with (MakeDate (MakeDay year (month - 1) day) time) by lia.
    split; [apply civil_roundtrip; [lia | assumption | assumption] |].
    unfold TimeWithinDay, MakeDate. rewrite Z.add_comm, Z.mod_add by (unfold msPerDay; lia).
    apply Z.mod_small. exact Ht. }
  split.
  - eexists. split; [| split; [reflexivity |]].
    + unfold dateText.
      apply (toDate_dateOnly LocalTZA legacyParse zone y1 y2 y3 y4 m1 m2 d1 d2
               Hy1 Hy2 Hy3 Hy4 Hm1 Hm2 Hd1 Hd2 R).
    + destruct (Fields 0) as [L W]; [unfold msPerDay; lia |].
      split; [exact L |]. unfold getHours. rewrite W. reflexivity.
  - intros Bh Bn Bs. destruct timeText_route as (T & A & B & C & D & E).
    assert (Ht : 0 <= MakeTime hour minute second 0 < msPerDay)
      by (unfold MakeTime, msPerDay; lia).
    eexists. split; [| split; [reflexivity |]].
    + unfold toDate. fold timeText. rewrite T, A, B, C, D, E. unfold tryLocalThenZ.
      rewrite (parseISO_dateTime R Bh Bn Bs). reflexivity.
    + destruct (Fields _ Ht) as [L W].
      split; [exact L |]. unfold getHours. rewrite W.
      unfold MakeTime. Z.div_mod_to_equations. lia.
Qed.

End IsoText.

Lemma toDate_year_first_layouts_witness :
  exists t, toDate 19800000 noLegacy (VString "2026-12-31") = Some t
            /\ t = UTC 19800000 (MakeDate (MakeDay 2026 (12 - 1) 31) 0)
            /\ isLocalDay 19800000 t 2026 12 31
            /\ getHours 19800000 t = 0.
Proof.
  refine (proj1 (toDate_year_first_layouts 19800000 noLegacy _
                   "2" "0" "2" "6" "1" "2" "3" "1" "0" "0" "0" "0" "0" "0"
                   _ _ _ _ _ _ _ _ _ _ _ _ _ _ _));
    first [reflexivity | vm_compute; discriminate
          | vm_compute; repeat split; discriminate].
Defined.

End SchemaFacts.

(* ================================================================== *)
(** ** The ends of the progress bar; deleting from the SQL-backed store *)

Module ProgressFacts.
Import JSDate Storage Spec.
Local Open Scope Z_scope.

Ltac clamp_cases d :=
  unfold progressOf, totalDays, Qdiv;
  change (/ inject_Z 365)%Q with (1 # 365)%Q;
  destruct (Q.max_spec 0 (Qmin 100 (inject_Z (365 - d) * (1 # 365) * 100)))
    as [[? ?]|[? ?]],
    (Q.min_spec 100 (inject_Z (365 - d) * (1 # 365) * 100)) as [[? ?]|[? ?]].

Lemma progressOf_range (d : Z) : (0 <= progressOf d <= 100)%Q.
Proof. clamp_cases d; split; lra. Qed.

Lemma progressOf_full_iff (d : Z) : (progressOf d == 100)%Q <-> d <= 0.
Proof.
  split; intros H.
  - destruct (Z_le_gt_dec d 0) as [L | G]; [exact L | exfalso].
    assert (A : (inject_Z (365 - d) <= inject_Z 364)%Q) by (rewrite <- Zle_Qle; lia).
    change (inject_Z 364) with (364 # 1)%Q in A.
    revert H. clamp_cases d; lra.
  - assert (A : (inject_Z 365 <= inject_Z (365 - d))%Q) by (rewrite <- Zle_Qle; lia).
    change (inject_Z 365) with (365 # 1)%Q in A.
    clamp_cases d; lra.
Qed.

Lemma progressOf_empty_iff (d : Z) : (progressOf d == 0)%Q <-> 365 <= d.
Proof.
  split; intros H.
  - destruct (Z_le_gt_dec 365 d) as [L | G]; [exact L | exfalso].
    assert (A : (inject_Z 1 <= inject_Z (365 - d))%Q) by (rewrite <- Zle_Qle; lia).
    change (inject_Z 1) with (1 # 1)%Q in A.
    revert H. clamp_cases d; lra.
  - assert (A : (inject_Z (365 - d) <= inject_Z 0)%Q) by (rewrite <- Zle_Qle; lia).
    change (inject_Z 0) with (0 # 1)%Q in A.
    clamp_cases d; lra.
Qed.

(** X15: the ends of the progress bar of an enriched subscription whose
    end date is a valid date (a row of the SQL table always is; the
    in-memory store also enriches an Invalid Date, whose percentage is
    NaN and which is not covered): the percentage is in [0, 100]; it is
    100 exactly when the end date is not after now; it is 0 exactly when
    the end date is more than 364 days after now; every expired
    subscription shows 100. *)
Theorem progress_bar_ends (now : Z) (sub : SubscriptionRow) :
  let s := enrichSubscription now sub in
  (0 <= progressPercentage s <= 100)%Q
  /\ ((progressPercentage s == 100)%Q <-> endDate sub <= now)
  /\ ((progressPercentage s == 0)%Q <-> now + 364 * msPerDay < endDate sub)
  /\ (sub_isExpired s = true -> (progressPercentage s == 100)%Q).
Proof.
  cbv zeta. unfold enrichSubscription.
  cbn [progressPercentage sub_isExpired].
  pose proof (ClassifierFacts.ceilDays_nonpos_iff (endDate sub - now)) as Z0.
  assert (Z1 : 365 <= ceilDays (endDate sub - now)
               <-> now + 364 * msPerDay < endDate sub).
  { unfold ceilDays, msPerDay. Z.div_mod_to_equations. lia. }
  split; [apply progressOf_range |].
  split; [rewrite progressOf_full_iff, Z0; lia |].
  split; [rewrite progressOf_empty_iff; exact Z1 |].
  intros E. apply Z.ltb_lt in E. apply progressOf_full_iff, Z0. lia.
Qed.

(** X16: what the delete methods report. The SQL-backed
    [deleteSubscription] answers true whether or not a row existed (and
    the subscription is gone afterwards); the SQL-backed
    [deleteCertificate] and the in-memory [deleteSubscription] answer
    true exactly when the identifier was stored. *)
Theorem delete_reports (now : Z) (id : string) (db : PostgreSQLStorage.database)
    (st : InMemoryStorage.store) :
  (fst (PostgreSQLStorage.deleteSubscription db id) = true
   /\ PostgreSQLStorage.getSubscription now
        (snd (PostgreSQLStorage.deleteSubscription db id)) id = None)
  /\ (fst (PostgreSQLStorage.deleteCertificate db id) = true
      <-> PostgreSQLStorage.getCertificate now db id <> None)
  /\ (fst (InMemoryStorage.deleteSubscription id st) = true
      <-> InMemoryStorage.getSubscription st id <> None).
Proof.
  split; [split; [reflexivity |] | split].
  - unfold PostgreSQLStorage.getSubscription, PostgreSQLStorage.deleteSubscription.
    cbn [snd PostgreSQLStorage.subscriptions].
    replace (find _ _) with (@None SubscriptionRow); [reflexivity |].
    symmetry. apply StoreOpsFacts.find_none_iff. intros x I.
    apply filter_In in I. destruct I as [_ I].
    destruct (String.eqb (sub_id x) id); [discriminate | reflexivity].
  - unfold PostgreSQLStorage.deleteCertificate, PostgreSQLStorage.getCertificate.
    cbn [fst]. rewrite Nat.ltb_lt.
    destruct (find _ (PostgreSQLStorage.certificates db)) as [x |] eqn:E; cbn [option_map].
    + apply find_some in E. destruct E as [I E].
      split; [discriminate | intros _].
      assert (F : In x (filter (fun r => String.eqb (cert_id r) id)
                          (PostgreSQLStorage.certificates db)))
        by (apply filter_In; split; assumption).
      destruct (filter _ _); [destruct F | cbn; lia].
    + split; [| congruence]. intros L. exfalso.
      pose proof (find_none _ _ E) as N.
      destruct (filter (fun r => String.eqb (cert_id r) id)
                  (PostgreSQLStorage.certificates db)) as [| y l] eqn:Fl;
        [cbn in L; lia |].
      assert (I : In y (y :: l)) by (left; reflexivity).
      rewrite <- Fl in I. apply filter_In in I. destruct I as [I T].
      rewrite (N y I) in T. discriminate.
  - unfold InMemoryStorage.deleteSubscription, InMemoryStorage.getSubscription.
    cbn [fst]. rewrite StoreOpsFacts.filter_length_lt. split.
    + intros (x & I & F) N. rewrite StoreOpsFacts.find_none_iff in N.
      specialize (N x I). cbn beta in F. rewrite N in F. discriminate.
    + intros N. destruct (find _ (InMemoryStorage.subscriptionItems st)) as [x |] eqn:E;
        [| congruence].
      apply find_some in E. destruct E as [I E]. exists x. split; [exact I |].
      cbn beta. rewrite E. reflexivity.
Qed.

End ProgressFacts.

(* ================================================================== *)
(** ** The date field of the edit and verification forms *)

Module FormFacts.
Import JSDate JSString JSDateParse Client Spec JSDateFacts.
Local Open Scope string_scope.
Local Open Scope Z_scope.

Lemma DayFromYear_lt (a b : Z) : a < b -> DayFromYear a < DayFromYear b.
Proof. intros H. unfold DayFromYear. Z.div_mod_to_equations. lia. Qed.

(** [YearFromDay] returns the year whose span of days holds the day. *)
Lemma YearFromDay_bounds (d : Z) :
  DayFromYear (YearFromDay d) <= d < DayFromYear (YearFromDay d + 1).
Proof.
  unfold YearFromDay.
  set (e := 1970 + 400 * d / 146097).
  assert (E1 : DayFromYear (e - 1) <= d)
    by (unfold DayFromYear, e; Z.div_mod_to_equations; lia).
  assert (E2 : d < DayFromYear (e + 1 + 1))
    by (unfold DayFromYear, e; Z.div_mod_to_equations; lia).
  destruct (Z.leb_spec (DayFromYear (e + 1)) d); [lia |].
  destruct (Z.leb_spec (DayFromYear e) d); [lia |].
  replace (e - 1 + 1) with e by lia. lia.
Qed.

Lemma monthOfYearDay_spec (leap : bool) (w : Z) :
  0 <= w < (if leap then 366 else 365) ->
  let m := monthOfYearDay leap w in
  0 <= m <= 11
  /\ 1 <= w - daysBeforeMonth leap m + 1
       <= (match m with
           | 1 => if leap then 29 else 28
           | 3 | 5 | 8 | 10 => 30
           | _ => 31
           end).
Proof.
  intros H. unfold monthOfYearDay.
  destruct leap; cbv beta iota zeta delta [daysBeforeMonth] in *;
    repeat match goal with
           | |- context [?a <? ?b] => destruct (Z.ltb_spec a b)
           end; cbv beta iota zeta; lia.
Qed.

(** The UTC fields of any time value name a day of the calendar, and
    [MakeDay] of them is the day of the time value. *)
Lemma fields_of_time (t : Z) :
  let y := YearFromTime t in
  let m := MonthFromTime t in
  let d := DateFromTime t in
  0 <= m <= 11 /\ 1 <= d <= DaysInMonth y m /\ MakeDay y m d = Day t.
Proof.
  cbv zeta. unfold DateFromTime. unfold MonthFromTime, DayWithinYear, YearFromTime.
  pose proof (YearFromDay_bounds (Day t)) as B.
  set (y := YearFromDay (Day t)) in *.
  rewrite DayFromYear_succ in B. unfold DaysInYear in B.
  set (w := Day t - DayFromYear y) in *.
  assert (W : 0 <= w < (if isLeapYear y then 366 else 365))
    by (unfold w; destruct (isLeapYear y); lia).
  destruct (monthOfYearDay_spec (isLeapYear y) w W) as [M D].
  split; [exact M |]. split; [exact D |].
  unfold MakeDay.
  replace (monthOfYearDay (isLeapYear y) w / 12) with 0
    by (symmetry; apply Z.div_small; lia).
  rewrite Z.mod_small by lia. rewrite Z.add_0_r. unfold w. lia.
Qed.


Lemma digitChar_facts (n : Z) :
  isDigit (digitChar n) = true
  /\ digitValue (digitChar n) = n mod 10
  /\ Ascii.eqb (digitChar n) "T" = false.
Proof.
  unfold digitChar.
  assert (H : 0 <= n mod 10 < 10) by (apply Z.mod_pos_bound; lia).
  assert (C : n mod 10 = 0 \/ n mod 10 = 1 \/ n mod 10 = 2 \/ n mod 10 = 3
              \/ n mod 10 = 4 \/ n mod 10 = 5 \/ n mod 10 = 6 \/ n mod 10 = 7
              \/ n mod 10 = 8 \/ n mod 10 = 9) by lia.
  repeat (destruct C as [C | C]; [rewrite C; vm_compute; auto |]).
  rewrite C; vm_compute; auto.
Qed.

Lemma twoDigits_padStart (n : Z) :
  0 <= n <= 99 ->
  padStart 2 n = String (digitChar (n / 10)) (String (digitChar n) EmptyString)
  /\ twoDigits (digitChar (n / 10)) (digitChar n) = Some n.
Proof.
  intros H. split; [reflexivity |].
  unfold twoDigits.
  destruct (digitChar_facts (n / 10)) as (D1 & V1 & _).
  destruct (digitChar_facts n) as (D2 & V2 & _).
  rewrite D1, D2, V1, V2. cbn [andb]. f_equal.
  Z.div_mod_to_equations. lia.
Qed.

Lemma fourDigits_padStart (n : Z) :
  0 <= n <= 9999 ->
  padStart 4 n
  = String (digitChar (n / 10 / 10 / 10)) (String (digitChar (n / 10 / 10))
      (String (digitChar (n / 10)) (String (digitChar n) EmptyString)))
  /\ fourDigits (digitChar (n / 10 / 10 / 10)) (digitChar (n / 10 / 10))
       (digitChar (n / 10)) (digitChar n) = Some n.
Proof.
  intros H. split; [reflexivity |].
  unfold fourDigits.
  destruct (digitChar_facts (n / 10 / 10 / 10)) as (D1 & V1 & _).
  destruct (digitChar_facts (n / 10 / 10)) as (D2 & V2 & _).
  destruct (digitChar_facts (n / 10)) as (D3 & V3 & _).
  destruct (digitChar_facts n) as (D4 & V4 & _).
  rewrite D1, D2, D3, D4, V1, V2, V3, V4. cbn [andb]. f_equal.
  Z.div_mod_to_equations. lia.
Qed.

(** The text the form starts from is the UTC calendar day of the stored
    instant, written [YYYY-MM-DD]. *)
Lemma formInitialDate_text (t : Z) :
  0 <= YearFromTime t <= 9999 ->
  formInitialDate t
  = (padStart 4 (YearFromTime t) ++ "-" ++ padStart 2 (MonthFromTime t + 1)
     ++ "-" ++ padStart 2 (DateFromTime t))%string.
Proof.
  intros Y. unfold formInitialDate, toISOString. cbv zeta.
  replace ((0 <=? YearFromTime t) && (YearFromTime t <=? 9999)) with true
    by (symmetry; apply andb_true_iff; split; apply Z.leb_le; lia).
  generalize (padStart 2 (TimeWithinDay t / 3600000) ++ ":"
     ++ padStart 2 (TimeWithinDay t / 60000 mod 60) ++ ":"
     ++ padStart 2 (TimeWithinDay t / 1000 mod 60) ++ "."
     ++ padStart 3 (t mod 1000) ++ "Z")%string as rest.
  intros rest.
  generalize (YearFromTime t) (MonthFromTime t + 1) (DateFromTime t).
  intros y m d. cbn [padStart append beforeT].
  repeat match goal with
         | |- context [Ascii.eqb (digitChar ?n) "T"] =>
             rewrite (proj2 (proj2 (digitChar_facts n)))
         end.
  cbn [padStart append beforeT]. reflexivity.
Qed.

Lemma parseDateOnly_text (y m d : Z) :
  0 <= y <= 9999 -> 0 <= m <= 99 -> 0 <= d <= 99 ->
  parseDateOnly (padStart 4 y ++ "-" ++ padStart 2 m ++ "-" ++ padStart 2 d)
  = dateOnlyFields y m d.
Proof.
  intros Y M D.
  destruct (fourDigits_padStart y Y) as [-> FY].
  destruct (twoDigits_padStart m M) as [-> FM].
  destruct (twoDigits_padStart d D) as [-> FD].
  unfold parseDateOnly. cbn [append list_ascii_of_string].
  rewrite FY, FM, FD. reflexivity.
Qed.

Lemma parseISO_short (tz y m d : Z) :
  parseISO tz (padStart 4 y ++ "-" ++ padStart 2 m ++ "-" ++ padStart 2 d) = None.
Proof. reflexivity. Qed.

Lemma YearFromDay_range (a b d : Z) :
  DayFromYear a <= d < DayFromYear b -> a <= YearFromDay d < b.
Proof.
  intros H. pose proof (YearFromDay_bounds d) as B.
  split.
  - destruct (Z.le_gt_cases a (YearFromDay d)) as [L | G]; [exact L |].
    destruct (Z.eq_dec (YearFromDay d + 1) a) as [E | N]; [rewrite E in B; lia |].
    pose proof (DayFromYear_lt (YearFromDay d + 1) a). lia.
  - destruct (Z.lt_ge_cases (YearFromDay d) b) as [L | G]; [exact L |].
    destruct (Z.eq_dec b (YearFromDay d)) as [E | N]; [rewrite E in H; lia |].
    pose proof (DayFromYear_lt b (YearFromDay d)). lia.
Qed.

Lemma Day_of_midnight (day : Z) : Day (day * msPerDay) = day.
Proof. unfold Day, msPerDay. apply Z.div_mul. lia. Qed.

Lemma formInitialDate_of_day (t : Z) :
  0 <= YearFromTime t <= 9999 ->
  formInitialDate (Day t * msPerDay) = formInitialDate t.
Proof.
  intros Y.
  assert (E : Day (Day t * msPerDay) = Day t) by apply Day_of_midnight.
  rewrite !formInitialDate_text.
  - unfold DateFromTime, MonthFromTime, DayWithinYear, YearFromTime.
    rewrite E. reflexivity.
  - exact Y.
  - unfold YearFromTime in *. rewrite E. exact Y.
Qed.

Lemma form_save_utc_midnight
    (tz : Z) (legacy : string -> option Z) (t : Z) :
  0 <= YearFromTime t <= 9999 ->
  formSavedExpiry tz legacy (formInitialDate t) = Some (Day t * msPerDay)
  /\ Day t * msPerDay <= t < Day t * msPerDay + msPerDay.
Proof.
  intros Y.
  destruct (fields_of_time t) as (M & D & E).
  split.
  - rewrite formInitialDate_text by exact Y.
    unfold formSavedExpiry, newDateOfString.
    rewrite parseISO_short.
    assert (D' : 1 <= DateFromTime t <= 31)
      by (revert D; unfold DaysInMonth;
          repeat match goal with
                 | |- context [match ?x with _ => _ end] => destruct x
                 end; lia).
    rewrite parseDateOnly_text by lia.
    unfold dateOnlyFields.
    replace (MonthFromTime t + 1 - 1) with (MonthFromTime t) by lia.
    replace ((1 <=? MonthFromTime t + 1) && (MonthFromTime t + 1 <=? 12)
             && (1 <=? DateFromTime t)
             && (DateFromTime t <=? DaysInMonth (YearFromTime t) (MonthFromTime t)))
      with true
      by (symmetry; rewrite !andb_true_iff; repeat split; apply Z.leb_le; lia).
    rewrite E.
    assert (R : DayFromYear 0 <= Day t < DayFromYear 10000).
    { pose proof (YearFromDay_bounds (Day t)) as B. unfold YearFromTime in Y.
      assert (DayFromYear 0 <= DayFromYear (YearFromDay (Day t))).
      { destruct (Z.eq_dec 0 (YearFromDay (Day t))) as [<- | N]; [lia |].
        pose proof (DayFromYear_lt 0 (YearFromDay (Day t))). lia. }
      assert (DayFromYear (YearFromDay (Day t) + 1) <= DayFromYear 10000).
      { destruct (Z.eq_dec (YearFromDay (Day t) + 1) 10000) as [-> | N]; [lia |].
        pose proof (DayFromYear_lt (YearFromDay (Day t) + 1) 10000). lia. }
      lia. }
    change (DayFromYear 0) with (-719528) in R.
    change (DayFromYear 10000) with 2932897 in R.
    unfold TimeClip, MakeDate, msPerDay.
    destruct (Z.leb_spec (Z.abs (Day t * 86400000 + 0)) 8640000000000000);
      [f_equal; lia | lia].
  - unfold Day, msPerDay. Z.div_mod_to_equations. lia.
Qed.

(** X17: for every stored instant whose UTC year is between 0 and 9999,
    the edit form's date field starts as the UTC calendar day of the
    instant, and saving that text unchanged stores UTC midnight of that
    day ([Day t * msPerDay]) whatever the browser's zone and whatever the
    host's fallback parser does: the time of day is dropped (the saved
    instant is at most one day less a millisecond before the stored one),
    and opening the form on the saved instant shows the same text again. *)
Theorem form_save_truncates_to_utc_day
    (tz : Z) (legacy : string -> option Z) (t : Z) :
  0 <= YearFromTime t <= 9999 ->
  formSavedExpiry tz legacy (formInitialDate t) = Some (Day t * msPerDay)
  /\ Day t * msPerDay <= t < Day t * msPerDay + msPerDay
  /\ formInitialDate (Day t * msPerDay) = formInitialDate t.
Proof.
  intros Y.
  destruct (form_save_utc_midnight tz legacy t Y) as [S B].
  split; [exact S |]. split; [exact B |].
  apply formInitialDate_of_day. exact Y.
Qed.

Lemma form_save_truncates_to_utc_day_witness :
  formSavedExpiry 19800000 (fun _ => None) (formInitialDate 1798741799123)
  = Some 1798675200000.
Proof.
  apply (form_save_truncates_to_utc_day 19800000 (fun _ => None) 1798741799123).
  vm_compute. split; discriminate.
Defined.

(** X18: the date the extractor builds for a real calendar date (year
    100 to 9998) is local midnight of that date in the server's zone.
    The verification form shows and saves its UTC day: with a server
    zone at or west of UTC (offset in (-24h, 0]) the saved instant is UTC
    midnight of the extracted date, and with a server zone east of UTC
    (offset in (0, 24h]) it is UTC midnight of the day before the
    extracted date, whatever the browser's zone. *)
Theorem extracted_date_through_form
    (tzServer tzBrowser : Z) (legacy : string -> option Z) (year month day : Z) :
  - msPerDay < tzServer <= msPerDay ->
  100 <= year <= 9998 ->
  realDate year month day ->
  exists t,
    newDate tzServer year (month - 1) day = Some t
    /\ (tzServer <= 0 ->
        formSavedExpiry tzBrowser legacy (formInitialDate t)
        = Some (MakeDay year (month - 1) day * msPerDay))
    /\ (0 < tzServer ->
        formSavedExpiry tzBrowser legacy (formInitialDate t)
        = Some ((MakeDay year (month - 1) day - 1) * msPerDay)).
Proof.
  intros Z Y [Mo Da].
  exists (UTC tzServer (MakeDate (MakeDay year (month - 1) day) 0)).
  assert (D31 : 1 <= day <= 31)
    by (revert Da; unfold DaysInMonth;
        repeat match goal with
               | |- context [match ?x with _ => _ end] => destruct x
               end; lia).
  split.
  { rewrite newDate_some by (unfold msPerDay in *; lia).
    replace ((0 <=? year) && (year <=? 99)) with false; [reflexivity |].
    symmetry. apply andb_false_iff. right. apply Z.leb_gt. lia. }
  destruct (MakeDay_in_year year (month - 1) day) as [E R]; [lia | exact Da |].
  set (md := MakeDay year (month - 1) day) in *.
  assert (B : DayFromYear year <= md < DayFromYear (year + 1))
    by (rewrite DayFromYear_succ; lia).
  pose proof (DayFromYear_lt (year - 1) year) as P.
  assert (Dt : forall k, (k = md \/ k = md - 1) ->
                         0 <= YearFromDay k <= 9999).
  { intros k K.
    assert (S : year - 1 <= YearFromDay k < year + 1)
      by (apply YearFromDay_range; lia).
    lia. }
  split; intros S.
  - assert (Dy : Day (UTC tzServer (MakeDate md 0)) = md)
      by (unfold Day, UTC, MakeDate, msPerDay in *; Z.div_mod_to_equations; lia).
    destruct (form_save_utc_midnight tzBrowser legacy
                (UTC tzServer (MakeDate md 0))) as [F _].
    + unfold YearFromTime. rewrite Dy. apply Dt. left. reflexivity.
    + rewrite F, Dy. reflexivity.
  - assert (Dy : Day (UTC tzServer (MakeDate md 0)) = md - 1)
      by (unfold Day, UTC, MakeDate, msPerDay in *; Z.div_mod_to_equations; lia).
    destruct (form_save_utc_midnight tzBrowser legacy
                (UTC tzServer (MakeDate md 0))) as [F _].
    + unfold YearFromTime. rewrite Dy. apply Dt. right. reflexivity.
    + rewrite F, Dy. reflexivity.
Qed.

Lemma extracted_date_through_form_witness :
  exists t,
    newDate 19800000 2026 (12 - 1) 31 = Some t
    /\ (19800000 <= 0 ->
        formSavedExpiry 0 (fun _ => None) (formInitialDate t)
        = Some (MakeDay 2026 (12 - 1) 31 * msPerDay))
    /\ (0 < 19800000 ->
        formSavedExpiry 0 (fun _ => None) (formInitialDate t)
        = Some ((MakeDay 2026 (12 - 1) 31 - 1) * msPerDay)).
Proof.
  apply (extracted_date_through_form 19800000 0 (fun _ => None) 2026 12 31).
  - unfold msPerDay. lia.
  - lia.
  - split; [lia |]. vm_compute. split; discriminate.
Defined.

Lemma formInitialDate_of_day_number (t k : Z) :
  0 <= YearFromDay k <= 9999 -> Day t = k ->
  formInitialDate t = formInitialDate (k * msPerDay).
Proof.
  intros Y E. subst k. symmetry. apply formInitialDate_of_day. exact Y.
Qed.

(** X19: the subscription form sends the text of its date field as it
    is, and the server's [toDate] reads it as local midnight in the
    server's zone. For a stored end date whose UTC year is between 1 and
    9999, saving the form untouched stores [Day t * msPerDay - tz]: with
    a server at or west of UTC (offset in (-24h, 0]) the form shows the
    same day when it is opened again, and with a server east of UTC
    (offset in (0, 24h]) it then shows the day before: every untouched
    save moves the end date one day back. *)
Theorem subscription_form_round_trip
    (tz : Z) (legacy : string -> option Z) (t : Z) :
  - msPerDay < tz <= msPerDay ->
  1 <= YearFromTime t <= 9999 ->
  exists saved,
    Schema.toDate tz legacy (Schema.VString (formInitialDate t)) = Some saved
    /\ saved = Day t * msPerDay - tz
    /\ (tz <= 0 -> formInitialDate saved = formInitialDate t)
    /\ (0 < tz ->
        Day saved = Day t - 1
        /\ formInitialDate saved = formInitialDate ((Day t - 1) * msPerDay)).
Proof.
  intros Z Y.
  destruct (fields_of_time t) as (M & D & E).
  assert (D31 : 1 <= DateFromTime t <= 31)
    by (revert D; unfold DaysInMonth;
        repeat match goal with
               | |- context [match ?x with _ => _ end] => destruct x
               end; lia).
  set (y := YearFromTime t) in *.
  set (m := MonthFromTime t + 1).
  set (d := DateFromTime t) in *.
  assert (Text : formInitialDate t
                 = fieldsYearFirst (digitChar (y / 10 / 10 / 10))
                     (digitChar (y / 10 / 10)) (digitChar (y / 10)) (digitChar y)
                     "-" (digitChar (m / 10)) (digitChar m)
                     "-" (digitChar (d / 10)) (digitChar d)).
  { rewrite formInitialDate_text by (fold y; lia). reflexivity. }
  assert (V4 : value4 (digitChar (y / 10 / 10 / 10)) (digitChar (y / 10 / 10))
                 (digitChar (y / 10)) (digitChar y) = y).
  { unfold value4.
    rewrite !(proj1 (proj2 (digitChar_facts _))). Z.div_mod_to_equations. lia. }
  assert (Vm : value2 (digitChar (m / 10)) (digitChar m) = m).
  { unfold value2.
    rewrite !(proj1 (proj2 (digitChar_facts _))). unfold m.
    Z.div_mod_to_equations. lia. }
  assert (Vd : value2 (digitChar (d / 10)) (digitChar d) = d).
  { unfold value2.
    rewrite !(proj1 (proj2 (digitChar_facts _))). Z.div_mod_to_equations. lia. }
  exists (Day t * msPerDay - tz).
  split; [| split; [reflexivity |]].
  - rewrite Text.
    rewrite (SchemaFacts.toDate_dateOnly tz legacy);
      try apply digitChar_facts.
    + rewrite V4, Vm, Vd. unfold m.
      replace (MonthFromTime t + 1 - 1) with (MonthFromTime t) by lia.
      rewrite E. unfold UTC, MakeDate. f_equal. lia.
    + unfold msPerDay in *. lia.
    + rewrite V4, Vm, Vd. unfold realDate, m.
      replace (MonthFromTime t + 1 - 1) with (MonthFromTime t) by lia.
      split; [lia | exact D].
  - pose proof (YearFromDay_bounds (Day t)) as B. fold (YearFromTime t) in B.
    fold y in B.
    pose proof (DayFromYear_lt (y - 1) y) as P.
    assert (R : forall k, k = Day t \/ k = Day t - 1 -> 0 <= YearFromDay k <= 9999).
    { intros k K.
      assert (S : y - 1 <= YearFromDay k < y + 1) by (apply YearFromDay_range; lia).
      lia. }
    split; intros S.
    + assert (Dy : Day (Day t * msPerDay - tz) = Day t).
      { generalize (Day t) as k. intros k.
        unfold Day, msPerDay in *. Z.div_mod_to_equations. lia. }
      rewrite (formInitialDate_of_day_number _ (Day t)); [| apply R; auto | exact Dy].
      apply formInitialDate_of_day. unfold y in Y. lia.
    + assert (Dy : Day (Day t * msPerDay - tz) = Day t - 1).
      { generalize (Day t) as k. intros k.
        unfold Day, msPerDay in *. Z.div_mod_to_equations. lia. }
      split; [exact Dy |].
      apply formInitialDate_of_day_number; [apply R; auto | exact Dy].
Qed.

Lemma subscription_form_round_trip_witness :
  exists saved,
    Schema.toDate 19800000 (fun _ => None)
      (Schema.VString (formInitialDate 1798675200000)) = Some saved
    /\ saved = Day 1798675200000 * msPerDay - 19800000
    /\ (19800000 <= 0 -> formInitialDate saved = formInitialDate 1798675200000)
    /\ (0 < 19800000 ->
        Day saved = Day 1798675200000 - 1
        /\ formInitialDate saved
           = formInitialDate ((Day 1798675200000 - 1) * msPerDay)).
Proof.
  apply (subscription_form_round_trip 19800000 (fun _ => None) 1798675200000).
  - vm_compute. split; [reflexivity | discriminate].
  - vm_compute. split; discriminate.
Defined.

End FormFacts.

(* ================================================================== *)
(** ** The two stores side by side *)

Module SiblingFacts.
Import JSDate Storage Spec.
Local Open Scope string_scope.
Local Open Scope Z_scope.

Section Mapped.
Variables A B : Type.
Variable f : A -> B.
Variable key : B -> Z.




End Mapped.


Section DistinctKeys.
Variable A : Type.
Variable key : A -> Z.




End DistinctKeys.



(** X21: the in-memory listing filters on the clock of the call but
    returns the derived fields of creation time. A certificate created
    before its expiry and listed under the status [expired] after its
    expiry (offset 0, limit not below the number of stored certificates)
    is in the result with [isExpired = false] and a day count that is not
    negative. *)
Theorem in_memory_expired_listing_is_stale (created now : Z) (uuid : string)
    (ins : InMemoryStorage.InsertCertificate) (st : InMemoryStorage.store)
    (p : SearchCertificatesParams) :
  created <= InMemoryStorage.ins_expiryDate ins < now ->
  status p = Expired -> offset p = 0%nat ->
  (List.length (InMemoryStorage.items st) < limit p)%nat ->
  let r := InMemoryStorage.createCertificate created uuid ins st in
  In (fst r) (InMemoryStorage.getCertificates now (snd r) (Some p))
  /\ cert_isExpired (fst r) = false
  /\ 0 <= cert_daysUntilExpiry (fst r).
Proof.
  intros [L U] S O Lim. cbv zeta.
  unfold InMemoryStorage.createCertificate, InMemoryStorage.getCertificates.
  cbn [fst snd InMemoryStorage.items]. rewrite S, O. cbn [skipn].
  set (cert := enrichCertificate created _).
  set (expiry := fun c : Certificate => expiryDate (cert_row c)).
  set (filtered := filter (fun c => expiry c <? now) (InMemoryStorage.items st ++ [cert])).
  destruct (StoreOpsFacts.sortBy_spec Certificate expiry filtered) as [P _].
  split; [| split].
  - rewrite firstn_all2.
    + apply (Permutation_in cert P). unfold filtered. apply filter_In. split.
      * apply in_or_app. right. left. reflexivity.
      * unfold expiry, cert. cbn [enrichCertificate cert_row expiryDate].
        apply Z.ltb_lt. exact U.
    + pose proof (Permutation_length P) as E.
      assert (F : (List.length filtered
                   <= List.length (InMemoryStorage.items st ++ [cert]))%nat)
        by apply filter_length_le.
      rewrite length_app in F. cbn [List.length] in F.
      change (List.length (sortBy expiry filtered) <= limit p)%nat. lia.
  - unfold cert, enrichCertificate, isExpired. cbn [cert_isExpired expiryDate].
    apply Z.ltb_ge. exact L.
  - unfold cert, enrichCertificate, calculateDaysUntilExpiry, ceilDays.
    cbn [cert_daysUntilExpiry expiryDate]. Z.div_mod_to_equations. lia.
Qed.

Lemma in_memory_expired_listing_is_stale_witness :
  let r := InMemoryStorage.createCertificate 0 "a" (sampleInsert 5)
             InMemoryStorage.empty in
  In (fst r)
    (InMemoryStorage.getCertificates 9 (snd r)
       (Some {| status := Expired; limit := 20; offset := 0 |}))
  /\ cert_isExpired (fst r) = false
  /\ 0 <= cert_daysUntilExpiry (fst r).
Proof.
  apply (in_memory_expired_listing_is_stale 0 9 "a" (sampleInsert 5)
           InMemoryStorage.empty {| status := Expired; limit := 20; offset := 0 |}).
  - cbn. lia.
  - reflexivity.
  - reflexivity.
  - cbn. lia.
Defined.

End SiblingFacts.
